(** * Event registration and ticketing: the seat-reservation protocol

    A shallow embedding of the Go packages [models], [repository], [service]
    and [handler] of the event-api server, with the relational datastore
    (PostgreSQL behind GORM) modelled as explicit state.

    - Tables are finite maps from primary key to row ([users], [events]) and
      a list of rows in insertion order ([registrations], where soft-deleted
      rows and duplicates of a (user_id, event_id) pair matter).
    - Every model struct carries [DeletedAt gorm.DeletedAt]: GORM deletes
      such rows softly (it sets deleted_at) and adds [deleted_at IS NULL] to
      every query, update and delete on them.  The flag is a [bool] here;
      the other timestamps are not modelled.
    - Go's [int] is a 64-bit two's complement integer ([wrap64]); arithmetic
      evaluated by the datastore inside an UPDATE is exact, a value out of
      the column's range being one of the datastore errors below.
    - The constraints of the schema a statement of the program can meet are
      part of the state: the primary keys, the unique email of a user, the
      uniqueness of the (user_id, event_id) pair of a registration and the
      foreign key from an event to its organizer.  The lengths of the
      varchar columns are not: a string too long for its column is one of
      the errors of the next item.
    - Every datastore call can fail with an error of the driver (connection
      loss, time-out, ...).  Each call site takes a [bool] that says whether
      the call fails; the value [ErrDatastore] stands for all such errors
      and for the violation of a constraint. *)

From Stdlib Require Import ZArith NArith Lia.
From stdpp Require Import base decidable option list gmap strings.

Open Scope Z_scope.

(** ** Package models *)

(** The sentinel errors of models, [gorm.ErrRecordNotFound], and one value
    for every other error a datastore call returns. *)
Inductive error : Set :=
  | ErrAlreadyRegistered
  | ErrEventFull
  | ErrEventNotFound
  | ErrUserNotFound
  | ErrUnauthorized
  | ErrInvalidInput
  | ErrRecordNotFound
  | ErrDatastore.

#[global] Instance error_eq_dec : EqDecision error.
Proof. solve_decision. Defined.

(** A Go result pair [(value, error)] with exactly one side set. *)
Inductive result (A : Type) : Type :=
  | Ok (a : A)
  | Err (e : error).
Arguments Ok {A} a.
Arguments Err {A} e.

(** [type UserRole string] and its two constants. *)
Definition UserRole : Set := string.
Definition RoleOrganizer : UserRole := "organizer"%string.
Definition RoleAttendee : UserRole := "attendee"%string.

Record User : Type := mkUser {
  User_ID : N;
  User_Name : string;
  User_Email : string;
  User_Role : UserRole;
  User_DeletedAt : bool
}.

Record Event : Type := mkEvent {
  Event_ID : N;
  Title : string;
  Capacity : Z;
  AvailableSeats : Z;
  OrganizerID : N;
  Event_DeletedAt : bool
}.

Record Registration : Type := mkRegistration {
  Registration_ID : N;
  UserID : N;
  EventID : N;
  Registration_DeletedAt : bool
}.

(** Go [int] arithmetic: 64-bit two's complement. *)
Definition wrap64 (z : Z) : Z := ((z + 2 ^ 63) mod 2 ^ 64) - 2 ^ 63.
Definition int_sub (a b : Z) : Z := wrap64 (a - b).

(** ** The datastore *)

(** [unique_user_event] says whether the registrations table carries
    UNIQUE(user_id, event_id): the schema of the README declares it and the
    comments of the code rely on it, while the struct tags of [Registration],
    from which [AutoMigrate] builds the tables, do not declare the index.
    The three sequences are the SERIAL primary keys; a sequence is not
    transactional.

    The other constraints of the schema are the same in the README and in
    the struct tags: the primary keys, the unique index on the email of a
    user, and the foreign keys events.organizer_id -> users(id),
    registrations.user_id -> users(id) and registrations.event_id ->
    events(id).  A foreign key is satisfied by a soft-deleted row, which is
    still a row of its table.  [RegisterForEvent] inserts a registration
    only after it has read the user and the event, and no statement of the
    program removes a row, so that the two foreign keys of registrations
    never fail; the one of events does, see [gorm.references_user]. *)
Record DB : Type := mkDB {
  unique_user_event : bool;
  users : gmap N User;
  events : gmap N Event;
  registrations : list Registration;
  users_id_seq : N;
  events_id_seq : N;
  registrations_id_seq : N
}.

Definition with_events (ev : gmap N Event) (d : DB) : DB :=
  mkDB (unique_user_event d) (users d) ev (registrations d)
       (users_id_seq d) (events_id_seq d) (registrations_id_seq d).

Definition with_users (us : gmap N User) (d : DB) : DB :=
  mkDB (unique_user_event d) us (events d) (registrations d)
       (users_id_seq d) (events_id_seq d) (registrations_id_seq d).

Definition with_registrations (rs : list Registration) (d : DB) : DB :=
  mkDB (unique_user_event d) (users d) (events d) rs
       (users_id_seq d) (events_id_seq d) (registrations_id_seq d).

Definition with_users_id_seq (n : N) (d : DB) : DB :=
  mkDB (unique_user_event d) (users d) (events d) (registrations d)
       n (events_id_seq d) (registrations_id_seq d).

Definition with_events_id_seq (n : N) (d : DB) : DB :=
  mkDB (unique_user_event d) (users d) (events d) (registrations d)
       (users_id_seq d) n (registrations_id_seq d).

Definition with_registrations_id_seq (n : N) (d : DB) : DB :=
  mkDB (unique_user_event d) (users d) (events d) (registrations d)
       (users_id_seq d) (events_id_seq d) n.

(** Two datastore states hold the same rows. *)
Definition same_tables (a b : DB) : Prop :=
  users a = users b /\ events a = events b /\ registrations a = registrations b.

(** The live (not soft-deleted) row of a table under a primary key. *)
Definition live_user (d : DB) (id : N) : option User :=
  match users d !! id with
  | Some u => if User_DeletedAt u then None else Some u
  | None => None
  end.

Definition live_event (d : DB) (id : N) : option Event :=
  match events d !! id with
  | Some e => if Event_DeletedAt e then None else Some e
  | None => None
  end.

(** [WHERE user_id = ? AND event_id = ?] *)
Definition same_pair (userID eventID : N) (r : Registration) : bool :=
  (UserID r =? userID)%N && (EventID r =? eventID)%N.

(** The same, with the soft-delete condition GORM adds. *)
Definition live_pair (userID eventID : N) (r : Registration) : bool :=
  same_pair userID eventID r && negb (Registration_DeletedAt r).

Definition live_for_event (eventID : N) (r : Registration) : bool :=
  (EventID r =? eventID)%N && negb (Registration_DeletedAt r).

(** The number of live registrations of an event. *)
Definition live_count (d : DB) (eventID : N) : Z :=
  Z.of_nat (length (List.filter (live_for_event eventID) (registrations d))).

(** ** Package gorm: the statements the program issues *)

Module gorm.

(** A transaction handle: the state at [Begin], and the state the
    transaction sees (the committed rows and its own writes). *)
Record Tx : Type := mkTx {
  tx_begin : DB;
  tx_db : DB
}.

Definition Begin (d : DB) : Tx := mkTx d d.

(** Rollback restores the rows; values taken from a sequence stay taken. *)
Definition Rollback (tx : Tx) : DB :=
  with_registrations_id_seq (registrations_id_seq (tx_db tx))
    (with_events_id_seq (events_id_seq (tx_db tx))
       (with_users_id_seq (users_id_seq (tx_db tx)) (tx_begin tx))).

(** Commit publishes the writes; a commit that fails aborts the transaction. *)
Definition Commit (fail : bool) (tx : Tx) : option error * DB :=
  if fail then (Some ErrDatastore, Rollback tx) else (None, tx_db tx).

(** [First(&user, id)] *)
Definition First_user (fail : bool) (d : DB) (id : N) : result User :=
  if fail then Err ErrDatastore
  else match live_user d id with
       | Some u => Ok u
       | None => Err ErrRecordNotFound
       end.

(** [First(&event, id)], with or without the locking clause: the lock is
    part of the scheduling model, not of the value read. *)
Definition First_event (fail : bool) (d : DB) (id : N) : result Event :=
  if fail then Err ErrDatastore
  else match live_event d id with
       | Some e => Ok e
       | None => Err ErrRecordNotFound
       end.

(** [Where("user_id = ? AND event_id = ?", u, e).First(&reg)] *)
Definition First_registration (fail : bool) (d : DB) (userID eventID : N)
  : result Registration :=
  if fail then Err ErrDatastore
  else match List.find (live_pair userID eventID) (registrations d) with
       | Some r => Ok r
       | None => Err ErrRecordNotFound
       end.

(** The insert meets the uniqueness constraint: some row of the table,
    soft-deleted or not, already has the pair. *)
Definition conflicts (d : DB) (userID eventID : N) : bool :=
  unique_user_event d && existsb (same_pair userID eventID) (registrations d).

(** [Clauses(clause.OnConflict{DoNothing: true}).Create(registration)]:
    INSERT ... ON CONFLICT DO NOTHING RETURNING id.  The struct comes back
    with its ID filled in when a row was inserted, and as it was otherwise;
    a conflict is not an error. *)
Definition Create_registration_OnConflictDoNothing
    (fail : bool) (d : DB) (registration : Registration)
  : result (DB * Registration) :=
  if fail then Err ErrDatastore
  else
    let id := (registrations_id_seq d + 1)%N in
    let d1 := with_registrations_id_seq id d in
    if conflicts d (UserID registration) (EventID registration)
    then Ok (d1, registration)
    else
      let row := mkRegistration id (UserID registration) (EventID registration)
                                (Registration_DeletedAt registration) in
      Ok (with_registrations (registrations d ++ [row]) d1, row).

(** [Model(&models.Event{}).Where("id = ? AND <cond>", id)
      .Update("available_seats", gorm.Expr(<expr>))]:
    the new state and RowsAffected. *)
Definition Update_available_seats
    (fail : bool) (d : DB) (id : N) (cond : Event -> bool) (expr : Z -> Z)
  : result (DB * Z) :=
  if fail then Err ErrDatastore
  else match live_event d id with
       | Some e =>
           if cond e
           then
             let e' := mkEvent (Event_ID e) (Title e) (Capacity e)
                               (expr (AvailableSeats e)) (OrganizerID e)
                               (Event_DeletedAt e) in
             Ok (with_events (<[id := e']> (events d)) d, 1)
           else Ok (d, 0)
       | None => Ok (d, 0)
       end.

Definition soft_delete (r : Registration) : Registration :=
  mkRegistration (Registration_ID r) (UserID r) (EventID r) true.

(** [Where("user_id = ? AND event_id = ?", u, e).Delete(&models.Registration{})]:
    a soft delete of the live rows of the pair. *)
Definition Delete_registrations (fail : bool) (d : DB) (userID eventID : N)
  : result DB :=
  if fail then Err ErrDatastore
  else Ok (with_registrations
             (List.map (fun r => if live_pair userID eventID r then soft_delete r else r)
                       (registrations d)) d).

(** The unique index on the email of a user: some row of the table,
    soft-deleted or not, has the email. *)
Definition email_taken (d : DB) (email : string) : bool :=
  existsb (fun row => String.eqb (User_Email row.2) email) (map_to_list (users d)).

(** [Clauses(clause.OnConflict{DoNothing: true}).Create(user)]:
    INSERT INTO users ... ON CONFLICT DO NOTHING RETURNING id, the statement
    GORM issues for the user an event struct points to.  A role that is
    empty takes the default of the column.  A struct with no ID takes the
    next value of the sequence, one with an ID keeps it; a row whose key or
    email is taken is not inserted, which is no error, and the struct keeps
    the ID it came with. *)
Definition Create_user_OnConflictDoNothing (d : DB) (user : User) : DB * User :=
  let role := if String.eqb (User_Role user) EmptyString
              then RoleAttendee else User_Role user in
  if (User_ID user =? 0)%N
  then
    let id := (users_id_seq d + 1)%N in
    let d1 := with_users_id_seq id d in
    if email_taken d (User_Email user) || bool_decide (is_Some (users d !! id))
    then (d1, mkUser 0 (User_Name user) (User_Email user) role (User_DeletedAt user))
    else
      let row := mkUser id (User_Name user) (User_Email user) role
                        (User_DeletedAt user) in
      (with_users (<[id := row]> (users d)) d1, row)
  else
    let row := mkUser (User_ID user) (User_Name user) (User_Email user) role
                      (User_DeletedAt user) in
    if email_taken d (User_Email user) || bool_decide (is_Some (users d !! User_ID user))
    then (d, row)
    else (with_users (<[User_ID user := row]> (users d)) d, row).

(** What [Create] and [Save] do with the [Organizer] of an event struct
    before they write the event: a struct whose pointer is set is inserted
    as above, and its ID is copied into the [OrganizerID] of the event,
    whatever the event carried there.  The result is the datastore and the
    two structs as the step leaves them. *)
Definition save_organizer (d : DB) (event : Event) (organizer : option User)
  : DB * Event * option User :=
  match organizer with
  | None => (d, event, None)
  | Some user =>
      let '(d1, user) := Create_user_OnConflictDoNothing d user in
      (d1, mkEvent (Event_ID event) (Title event) (Capacity event)
                   (AvailableSeats event) (User_ID user) (Event_DeletedAt event),
       Some user)
  end.

(** The foreign key of events: [organizer_id] is the key of a row of users. *)
Definition references_user (d : DB) (id : N) : bool :=
  bool_decide (is_Some (users d !! id)).

(** [Create(event)] for an event struct and the user its [Organizer] points
    to, in the transaction GORM wraps around the call: the organizer is
    saved first; the row takes the next value of the sequence when the
    struct has no ID, and the ID of the struct otherwise.  The insert fails
    when the key is taken or the organizer_id is no user, and what the
    transaction wrote is rolled back.  The result is the struct as the call
    leaves it. *)
Definition Create_event (fail : bool) (d : DB) (event : Event) (organizer : option User)
  : result Event * DB :=
  if fail then (Err ErrDatastore, d)
  else
    let '(d1, event, _) := save_organizer d event organizer in
    if (Event_ID event =? 0)%N
    then
      let id := (events_id_seq d1 + 1)%N in
      let d2 := with_events_id_seq id d1 in
      let row := mkEvent id (Title event) (Capacity event) (AvailableSeats event)
                         (OrganizerID event) (Event_DeletedAt event) in
      if references_user d2 (OrganizerID row) && bool_decide (events d2 !! id = None)
      then (Ok row, with_events (<[id := row]> (events d2)) d2)
      else (Err ErrDatastore, Rollback (mkTx d d2))
    else
      if references_user d1 (OrganizerID event)
         && bool_decide (events d1 !! Event_ID event = None)
      then (Ok event, with_events (<[Event_ID event := event]> (events d1)) d1)
      else (Err ErrDatastore, Rollback (mkTx d d1)).

(** [Save(event)]: a struct with no ID is created.  Otherwise the organizer
    is saved and every column of the live row with the ID is overwritten, in
    one transaction, which fails when the organizer_id is no user.  When no
    live row has the ID that transaction commits with no row updated, and
    the struct is created with an upsert on the primary key, a second
    transaction that saves the organizer again. *)
Definition Save_event (fail : bool) (d : DB) (event : Event) (organizer : option User)
  : result Event * DB :=
  if fail then (Err ErrDatastore, d)
  else if (Event_ID event =? 0)%N then Create_event false d event organizer
  else
    let '(d1, event1, organizer1) := save_organizer d event organizer in
    match live_event d1 (Event_ID event1) with
    | Some _ =>
        if references_user d1 (OrganizerID event1)
        then (Ok event1, with_events (<[Event_ID event1 := event1]> (events d1)) d1)
        else (Err ErrDatastore, Rollback (mkTx d d1))
    | None =>
        let '(d2, event2, _) := save_organizer d1 event1 organizer1 in
        if references_user d2 (OrganizerID event2)
        then (Ok event2, with_events (<[Event_ID event2 := event2]> (events d2)) d2)
        else (Err ErrDatastore, Rollback (mkTx d1 d2))
    end.

(** [Delete(&models.Event{}, id)]: a soft delete. *)
Definition Delete_event (fail : bool) (d : DB) (id : N) : result DB :=
  if fail then Err ErrDatastore
  else match live_event d id with
       | Some e =>
           let e' := mkEvent (Event_ID e) (Title e) (Capacity e) (AvailableSeats e)
                             (OrganizerID e) true in
           Ok (with_events (<[id := e']> (events d)) d)
       | None => Ok d
       end.

(** The live rows a [Where(<cond>)] selects, listed in the order of the
    model's table. *)
Definition matching (d : DB) (cond : Registration -> bool) : list Registration :=
  List.filter (fun r => cond r && negb (Registration_DeletedAt r)) (registrations d).

(** [Where(<cond>).Find(&registrations)].  The statement has no ORDER BY, so
    that the datastore returns the rows it selects in an order of its own:
    [Find_registrations fail d cond found] says that [found] is a result
    the statement can give.  Finding no row is not an error. *)
Definition Find_registrations (fail : bool) (d : DB) (cond : Registration -> bool)
    (found : result (list Registration)) : Prop :=
  if fail then found = Err ErrDatastore
  else exists rows, rows ≡ₚ matching d cond /\ found = Ok rows.

(** [Delete(&models.User{}, id)]: a soft delete. *)
Definition Delete_user (fail : bool) (d : DB) (id : N) : result DB :=
  if fail then Err ErrDatastore
  else match live_user d id with
       | Some u =>
           let u' := mkUser (User_ID u) (User_Name u) (User_Email u) (User_Role u) true in
           Ok (with_users (<[id := u']> (users d)) d)
       | None => Ok d
       end.

End gorm.

(** ** Package repository *)

Module repository.

(** [userRepository.FindByID] *)
Definition User_FindByID (fail : bool) (d : DB) (id : N) : result User :=
  gorm.First_user fail d id.

(** [eventRepository.Create]; the struct [models.Event] is passed as its
    columns and the user its [Organizer] points to. *)
Definition Event_Create (fail : bool) (d : DB) (event : Event) (organizer : option User)
  : result Event * DB :=
  gorm.Create_event fail d event organizer.

(** [eventRepository.FindByID] *)
Definition Event_FindByID (fail : bool) (d : DB) (id : N) : result Event :=
  gorm.First_event fail d id.

(** [eventRepository.Update] *)
Definition Event_Update (fail : bool) (d : DB) (event : Event) (organizer : option User)
  : result Event * DB :=
  gorm.Save_event fail d event organizer.

(** [eventRepository.Delete] *)
Definition Event_Delete (fail : bool) (d : DB) (id : N) : result DB :=
  gorm.Delete_event fail d id.

(** [eventRepository.FindByIDForUpdate]: SELECT ... FOR UPDATE inside [tx]. *)
Definition FindByIDForUpdate (fail : bool) (tx : gorm.Tx) (id : N) : result Event :=
  gorm.First_event fail (gorm.tx_db tx) id.

(** [eventRepository.DecreaseAvailableSeats]: the conditional decrement. *)
Definition DecreaseAvailableSeats (fail : bool) (tx : gorm.Tx) (id : N)
  : option error * gorm.Tx :=
  match gorm.Update_available_seats fail (gorm.tx_db tx) id
          (fun e => 0 <? AvailableSeats e) (fun a => a - 1) with
  | Err e => (Some e, tx)
  | Ok (d, RowsAffected) =>
      if RowsAffected =? 0
      then (Some ErrEventFull, gorm.mkTx (gorm.tx_begin tx) d)
      else (None, gorm.mkTx (gorm.tx_begin tx) d)
  end.

(** [registrationRepository.CreateWithTx] *)
Definition CreateWithTx (fail : bool) (tx : gorm.Tx) (registration : Registration)
  : result (gorm.Tx * Registration) :=
  match gorm.Create_registration_OnConflictDoNothing fail (gorm.tx_db tx) registration with
  | Err e => Err e
  | Ok (d, r) => Ok (gorm.mkTx (gorm.tx_begin tx) d, r)
  end.

(** [registrationRepository.FindByUserAndEventID] *)
Definition FindByUserAndEventID (fail : bool) (d : DB) (userID eventID : N)
  : result Registration :=
  gorm.First_registration fail d userID eventID.

(** [registrationRepository.FindByUserID]: every registration comes with the
    event that [Preload("Event")] loads, which is nil for an event that is
    soft-deleted.  [answer] is a result the method can give. *)
Definition FindByUserID (fail : bool) (d : DB) (userID : N)
    (answer : result (list (Registration * option Event))) : Prop :=
  exists found,
    gorm.Find_registrations fail d (fun r => (UserID r =? userID)%N) found
    /\ answer = match found with
               | Err e => Err e
               | Ok rs => Ok (List.map (fun r => (r, live_event d (EventID r))) rs)
               end.

(** [registrationRepository.FindByEventID], with the user of [Preload("User")]. *)
Definition FindByEventID (fail : bool) (d : DB) (eventID : N)
    (answer : result (list (Registration * option User))) : Prop :=
  exists found,
    gorm.Find_registrations fail d (fun r => (EventID r =? eventID)%N) found
    /\ answer = match found with
               | Err e => Err e
               | Ok rs => Ok (List.map (fun r => (r, live_user d (UserID r))) rs)
               end.

(** [registrationRepository.DeleteByUserAndEvent] *)
Definition DeleteByUserAndEvent (fail : bool) (d : DB) (userID eventID : N) : result DB :=
  gorm.Delete_registrations fail d userID eventID.

(** [userRepository.Delete] *)
Definition User_Delete (fail : bool) (d : DB) (id : N) : result DB :=
  gorm.Delete_user fail d id.

End repository.

(** ** Package service *)

Module service.

(** Which datastore calls of one [RegisterForEvent] fail. *)
Record RegisterFaults : Set := mkRegisterFaults {
  fail_find_user : bool;
  fail_find_registration : bool;
  fail_lock_event : bool;
  fail_create : bool;
  fail_decrement : bool;
  fail_commit : bool
}.

Definition no_register_faults : RegisterFaults :=
  mkRegisterFaults false false false false false false.

(** [registrationService.RegisterForEvent].  The read that follows the
    commit in the source has its result discarded and is left out. *)
Definition RegisterForEvent (f : RegisterFaults) (userID eventID : N) (d : DB)
  : result Registration * DB :=
  match repository.User_FindByID (fail_find_user f) d userID with
  | Err err =>
      if decide (err = ErrRecordNotFound)
      then (Err ErrUserNotFound, d)
      else (Err err, d)
  | Ok _ =>
      let tx := gorm.Begin d in
      match gorm.First_registration (fail_find_registration f) (gorm.tx_db tx)
              userID eventID with
      | Ok _ => (Err ErrAlreadyRegistered, gorm.Rollback tx)
      | Err err =>
          if decide (err <> ErrRecordNotFound)
          then (Err err, gorm.Rollback tx)
          else
            match repository.FindByIDForUpdate (fail_lock_event f) tx eventID with
            | Err err =>
                if decide (err = ErrRecordNotFound)
                then (Err ErrEventNotFound, gorm.Rollback tx)
                else (Err err, gorm.Rollback tx)
            | Ok event =>
                if AvailableSeats event <=? 0
                then (Err ErrEventFull, gorm.Rollback tx)
                else
                  let registration := mkRegistration 0 userID eventID false in
                  match gorm.Create_registration_OnConflictDoNothing
                          (fail_create f) (gorm.tx_db tx) registration with
                  | Err err => (Err err, gorm.Rollback tx)
                  | Ok (d1, registration) =>
                      let tx := gorm.mkTx (gorm.tx_begin tx) d1 in
                      match gorm.Update_available_seats (fail_decrement f)
                              (gorm.tx_db tx) eventID
                              (fun e => 0 <? AvailableSeats e) (fun a => a - 1) with
                      | Err err => (Err err, gorm.Rollback tx)
                      | Ok (d2, RowsAffected) =>
                          let tx := gorm.mkTx (gorm.tx_begin tx) d2 in
                          if RowsAffected =? 0
                          then (Err ErrEventFull, gorm.Rollback tx)
                          else
                            match gorm.Commit (fail_commit f) tx with
                            | (Some err, d3) => (Err err, d3)
                            | (None, d3) => (Ok registration, d3)
                            end
                      end
                  end
            end
      end
  end.

(** Which datastore calls of one [CancelRegistration] fail. *)
Record CancelFaults : Set := mkCancelFaults {
  fail_delete : bool;
  fail_increment : bool;
  fail_cancel_commit : bool
}.

Definition no_cancel_faults : CancelFaults := mkCancelFaults false false false.

(** [registrationService.CancelRegistration] *)
Definition CancelRegistration (f : CancelFaults) (userID eventID : N) (d : DB)
  : option error * DB :=
  let tx := gorm.Begin d in
  match gorm.Delete_registrations (fail_delete f) (gorm.tx_db tx) userID eventID with
  | Err err => (Some err, gorm.Rollback tx)
  | Ok d1 =>
      let tx := gorm.mkTx (gorm.tx_begin tx) d1 in
      match gorm.Update_available_seats (fail_increment f) (gorm.tx_db tx) eventID
              (fun _ => true) (fun a => a + 1) with
      | Err err => (Some err, gorm.Rollback tx)
      | Ok (d2, _) =>
          let tx := gorm.mkTx (gorm.tx_begin tx) d2 in
          gorm.Commit (fail_cancel_commit f) tx
      end
  end.

(** [eventService.CreateEvent] *)
Definition CreateEvent (fail : bool) (event : Event) (organizer : option User) (d : DB)
  : result Event * DB :=
  let event := mkEvent (Event_ID event) (Title event) (Capacity event)
                       (Capacity event) (OrganizerID event) (Event_DeletedAt event) in
  repository.Event_Create fail d event organizer.

(** [eventService.GetEventByID] *)
Definition GetEventByID (fail : bool) (id : N) (d : DB) : result Event :=
  repository.Event_FindByID fail d id.

(** [eventService.UpdateEvent] *)
Definition UpdateEvent (fail : bool) (event : Event) (organizer : option User) (d : DB)
  : result Event * DB :=
  repository.Event_Update fail d event organizer.

(** [eventService.DeleteEvent] *)
Definition DeleteEvent (fail : bool) (id : N) (d : DB) : result DB :=
  repository.Event_Delete fail d id.

(** [registrationService.GetUserRegistrations] *)
Definition GetUserRegistrations (fail : bool) (userID : N) (d : DB)
    (answer : result (list (Registration * option Event))) : Prop :=
  repository.FindByUserID fail d userID answer.

(** [registrationService.GetEventRegistrations] *)
Definition GetEventRegistrations (fail : bool) (eventID : N) (d : DB)
    (answer : result (list (Registration * option User))) : Prop :=
  repository.FindByEventID fail d eventID answer.

(** [userService.GetUserByID] *)
Definition GetUserByID (fail : bool) (id : N) (d : DB) : result User :=
  repository.User_FindByID fail d id.

(** [userService.DeleteUser] *)
Definition DeleteUser (fail : bool) (id : N) (d : DB) : result DB :=
  repository.User_Delete fail d id.

End service.

(** ** Package handler *)

Module handler.

Definition StatusOK : Z := 200.
Definition StatusCreated : Z := 201.
Definition StatusBadRequest : Z := 400.
Definition StatusNotFound : Z := 404.
Definition StatusConflict : Z := 409.
Definition StatusInternalServerError : Z := 500.

(** The fields of [models.User] a JSON object can set ([DeletedAt] and
    [Events] are tagged [json:"-"]); a missing field is the zero value. *)
Record UserBody : Type := mkUserBody {
  user_body_id : N;
  user_body_name : string;
  user_body_email : string;
  user_body_role : UserRole
}.

Definition bind_user (b : UserBody) : User :=
  mkUser (user_body_id b) (user_body_name b) (user_body_email b) (user_body_role b)
         false.

(** The fields of [models.Event] a JSON body can set ([DeletedAt] and
    [Registrations] are tagged [json:"-"]); a missing field is the zero
    value, which for [organizer] is the nil pointer. *)
Record EventBody : Type := mkEventBody {
  body_id : N;
  body_title : string;
  body_capacity : Z;
  body_available_seats : Z;
  body_organizer_id : N;
  body_organizer : option UserBody
}.

(** The columns of the struct the body binds to, and the user its
    [Organizer] points to. *)
Definition bind_event (b : EventBody) : Event :=
  mkEvent (body_id b) (body_title b) (body_capacity b) (body_available_seats b)
          (body_organizer_id b) false.

Definition bind_organizer (b : EventBody) : option User :=
  bind_user <$> body_organizer b.

(** [EventHandler.CreateEvent]; [body] is [None] when the JSON does not
    bind.  The answer is the status, the columns of the event of the
    response, and the datastore the request leaves. *)
Definition CreateEvent (fail : bool) (body : option EventBody) (d : DB)
  : Z * option Event * DB :=
  match body with
  | None => (StatusBadRequest, None, d)
  | Some b =>
      let event := bind_event b in
      if Capacity event <=? 0
      then (StatusBadRequest, None, d)
      else
        let event := mkEvent (Event_ID event) (Title event) (Capacity event)
                             (Capacity event) (OrganizerID event)
                             (Event_DeletedAt event) in
        match service.CreateEvent fail event (bind_organizer b) d with
        | (Err _, d') => (StatusInternalServerError, None, d')
        | (Ok created, d') => (StatusCreated, Some created, d')
        end
  end.

(** [EventHandler.UpdateEvent]; [id] is [None] when the path parameter is
    not an unsigned 32-bit number. *)
Definition UpdateEvent (fail_get fail_save : bool) (id : option N)
    (body : option EventBody) (d : DB) : Z * option Event * DB :=
  match id with
  | None => (StatusBadRequest, None, d)
  | Some id =>
      match body with
      | None => (StatusBadRequest, None, d)
      | Some b =>
          let event := bind_event b in
          let event := mkEvent id (Title event) (Capacity event)
                               (AvailableSeats event) (OrganizerID event)
                               (Event_DeletedAt event) in
          match service.GetEventByID fail_get id d with
          | Err _ => (StatusNotFound, None, d)
          | Ok existingEvent =>
              let save event :=
                match service.UpdateEvent fail_save event (bind_organizer b) d with
                | (Err _, d') => (StatusInternalServerError, None, d')
                | (Ok updated, d') => (StatusOK, Some updated, d')
                end in
              if Capacity event <? Capacity existingEvent
              then
                let registrationsCount :=
                  int_sub (Capacity existingEvent) (AvailableSeats existingEvent) in
                if Capacity event <? registrationsCount
                then (StatusBadRequest, None, d)
                else
                  save (mkEvent (Event_ID event) (Title event) (Capacity event)
                                (int_sub (Capacity event) registrationsCount)
                                (OrganizerID event) (Event_DeletedAt event))
              else save event
          end
      end
  end.

(** [RegisterRequest] and [CancelRequest]: both fields are [binding:"required"],
    which refuses the zero value. *)
Record PairRequest : Set := mkPairRequest {
  req_user_id : N;
  req_event_id : N
}.

Definition binds (req : PairRequest) : bool :=
  negb (req_user_id req =? 0)%N && negb (req_event_id req =? 0)%N.

(** [RegistrationHandler.RegisterForEvent] *)
Definition RegisterForEvent (f : service.RegisterFaults) (body : option PairRequest)
    (d : DB) : Z * option Registration * DB :=
  match body with
  | None => (StatusBadRequest, None, d)
  | Some req =>
      if negb (binds req) then (StatusBadRequest, None, d)
      else
        match service.RegisterForEvent f (req_user_id req) (req_event_id req) d with
        | (Err err, d') =>
            match err with
            | ErrUserNotFound => (StatusNotFound, None, d')
            | ErrEventNotFound => (StatusNotFound, None, d')
            | ErrEventFull => (StatusConflict, None, d')
            | ErrAlreadyRegistered => (StatusConflict, None, d')
            | _ => (StatusInternalServerError, None, d')
            end
        | (Ok registration, d') => (StatusCreated, Some registration, d')
        end
  end.

(** [RegistrationHandler.CancelRegistration] *)
Definition CancelRegistration (f : service.CancelFaults) (body : option PairRequest)
    (d : DB) : Z * DB :=
  match body with
  | None => (StatusBadRequest, d)
  | Some req =>
      if negb (binds req) then (StatusBadRequest, d)
      else
        match service.CancelRegistration f (req_user_id req) (req_event_id req) d with
        | (Some _, d') => (StatusInternalServerError, d')
        | (None, d') => (StatusOK, d')
        end
  end.

(** [EventHandler.GetEvent] *)
Definition GetEvent (fail : bool) (id : option N) (d : DB) : Z * option Event :=
  match id with
  | None => (StatusBadRequest, None)
  | Some id =>
      match service.GetEventByID fail id d with
      | Err err =>
          if decide (err = ErrRecordNotFound)
          then (StatusNotFound, None)
          else (StatusInternalServerError, None)
      | Ok event => (StatusOK, Some event)
      end
  end.

(** [EventHandler.DeleteEvent] *)
Definition DeleteEvent (fail : bool) (id : option N) (d : DB) : Z * DB :=
  match id with
  | None => (StatusBadRequest, d)
  | Some id =>
      match service.DeleteEvent fail id d with
      | Err _ => (StatusInternalServerError, d)
      | Ok d' => (StatusOK, d')
      end
  end.

End handler.

(** ** Concurrent calls of [RegisterForEvent] against one event

    The calls of [runRegistrationTest]: every goroutine runs
    [RegisterForEvent] for its own user against the same event, and the
    datastore interleaves their statements.  A goroutine is a program
    counter into the function; a schedule is the list of goroutines in the
    order in which they execute their next statement.

    The row lock is the one the comments of [RegisterForEvent] and
    [FindByIDForUpdate] describe: SELECT ... FOR UPDATE locks the row until
    the transaction is committed or rolled back, and every other transaction
    waits at that statement until the lock is released.  A transaction sees
    the committed rows and its own writes; it writes only while it holds the
    lock of the event, so before that statement its view is the committed
    state, and the view it takes with the lock stays current until it ends.
    Datastore calls do not fail in this model. *)

Module concurrent.

Inductive pc : Type :=
  | AtFindUser
  | AtFindRegistration
  | AtLockEvent
  | AtSeatCheck (tx : gorm.Tx) (event : Event)
  | AtCreate (tx : gorm.Tx)
  | AtDecrement (tx : gorm.Tx) (registration : Registration)
  | AtCommit (tx : gorm.Tx) (registration : Registration)
  | Returned (r : result Registration).

Record Goroutine : Type := mkGoroutine {
  userID : N;
  at_pc : pc
}.

Record Config : Type := mkConfig {
  committed : DB;
  eventID : N;
  lock : option nat;
  goroutines : list Goroutine
}.

Definition init (d : DB) (eventID : N) (userIDs : list N) : Config :=
  mkConfig d eventID None (List.map (fun u => mkGoroutine u AtFindUser) userIDs).

(** Goroutine [i] moves to [p]; the committed state and the lock become
    [d] and [l]. *)
Definition move (c : Config) (i : nat) (g : Goroutine) (d : DB) (l : option nat)
    (p : pc) : Config :=
  mkConfig d (eventID c) l (<[i := mkGoroutine (userID g) p]> (goroutines c)).

(** Goroutine [i] executes its next statement (and does nothing when it
    waits for the lock, or has returned). *)
Definition step (i : nat) (c : Config) : Config :=
  match goroutines c !! i with
  | None => c
  | Some g =>
      let d := committed c in
      match at_pc g with
      | AtFindUser =>
          match repository.User_FindByID false d (userID g) with
          | Err err =>
              if decide (err = ErrRecordNotFound)
              then move c i g d (lock c) (Returned (Err ErrUserNotFound))
              else move c i g d (lock c) (Returned (Err err))
          | Ok _ => move c i g d (lock c) AtFindRegistration
          end
      | AtFindRegistration =>
          match gorm.First_registration false d (userID g) (eventID c) with
          | Ok _ => move c i g d (lock c) (Returned (Err ErrAlreadyRegistered))
          | Err err =>
              if decide (err <> ErrRecordNotFound)
              then move c i g d (lock c) (Returned (Err err))
              else move c i g d (lock c) AtLockEvent
          end
      | AtLockEvent =>
          match lock c with
          | Some _ => c
          | None =>
              let tx := gorm.Begin d in
              match repository.FindByIDForUpdate false tx (eventID c) with
              | Err err =>
                  if decide (err = ErrRecordNotFound)
                  then move c i g (gorm.Rollback tx) None (Returned (Err ErrEventNotFound))
                  else move c i g (gorm.Rollback tx) None (Returned (Err err))
              | Ok event => move c i g d (Some i) (AtSeatCheck tx event)
              end
          end
      | AtSeatCheck tx event =>
          if AvailableSeats event <=? 0
          then move c i g (gorm.Rollback tx) None (Returned (Err ErrEventFull))
          else move c i g d (lock c) (AtCreate tx)
      | AtCreate tx =>
          let registration := mkRegistration 0 (userID g) (eventID c) false in
          match gorm.Create_registration_OnConflictDoNothing false (gorm.tx_db tx)
                  registration with
          | Err err => move c i g (gorm.Rollback tx) None (Returned (Err err))
          | Ok (d1, registration) =>
              move c i g d (lock c)
                   (AtDecrement (gorm.mkTx (gorm.tx_begin tx) d1) registration)
          end
      | AtDecrement tx registration =>
          match gorm.Update_available_seats false (gorm.tx_db tx) (eventID c)
                  (fun e => 0 <? AvailableSeats e) (fun a => a - 1) with
          | Err err => move c i g (gorm.Rollback tx) None (Returned (Err err))
          | Ok (d2, RowsAffected) =>
              let tx := gorm.mkTx (gorm.tx_begin tx) d2 in
              if RowsAffected =? 0
              then move c i g (gorm.Rollback tx) None (Returned (Err ErrEventFull))
              else move c i g d (lock c) (AtCommit tx registration)
          end
      | AtCommit tx registration =>
          match gorm.Commit false tx with
          | (Some err, d3) => move c i g d3 None (Returned (Err err))
          | (None, d3) => move c i g d3 None (Returned (Ok registration))
          end
      | Returned _ => c
      end
  end.

Fixpoint run (schedule : list nat) (c : Config) : Config :=
  match schedule with
  | [] => c
  | i :: schedule => run schedule (step i c)
  end.

Definition returned (g : Goroutine) : bool :=
  match at_pc g with Returned _ => true | _ => false end.

Definition registered (g : Goroutine) : bool :=
  match at_pc g with Returned (Ok _) => true | _ => false end.

Definition event_full (g : Goroutine) : bool :=
  match at_pc g with Returned (Err ErrEventFull) => true | _ => false end.

Definition all_returned (c : Config) : bool := forallb returned (goroutines c).

Definition count (p : Goroutine -> bool) (c : Config) : Z :=
  Z.of_nat (length (List.filter p (goroutines c))).

End concurrent.

(** ** Example states *)

Module example.

(** The attendee with the given id; the email starts with the digit of the
    id, so that the attendees 1 to 9 have emails of their own. *)
Definition attendee (id : N) : User :=
  mkUser id "attendee" (String (Ascii.ascii_of_N (48 + id)) "@example.com")
         RoleAttendee false.

Definition tech_talk (capacity available : Z) : Event :=
  mkEvent 1 "Tech Talk" capacity available 1 false.

(** Users 1 to 3, and event 1 with the given capacity and free seats; the
    registrations table is empty and carries its uniqueness constraint. *)
Definition db (capacity available : Z) : DB :=
  mkDB true
       (<[1%N := attendee 1]> (<[2%N := attendee 2]> (<[3%N := attendee 3]> ∅)))
       (<[1%N := tech_talk capacity available]> ∅)
       [] 3 1 0.

Definition register (userID eventID : N) (d : DB) : result Registration * DB :=
  service.RegisterForEvent service.no_register_faults userID eventID d.

Definition cancel (userID eventID : N) (d : DB) : option error * DB :=
  service.CancelRegistration service.no_cancel_faults userID eventID d.

End example.

(** ** Notions the properties are stated with *)

Definition decremented (e : Event) : Event :=
  mkEvent (Event_ID e) (Title e) (Capacity e) (AvailableSeats e - 1)
          (OrganizerID e) (Event_DeletedAt e).

Definition incremented (e : Event) : Event :=
  mkEvent (Event_ID e) (Title e) (Capacity e) (AvailableSeats e + 1)
          (OrganizerID e) (Event_DeletedAt e).

(** The row [RegisterForEvent] inserts. *)
Definition new_registration (d : DB) (userID eventID : N) : Registration :=
  mkRegistration (registrations_id_seq d + 1) userID eventID false.

(** The state a successful [RegisterForEvent] commits. *)
Definition registered_state (d : DB) (userID eventID : N) (e : Event) : DB :=
  let d1 := with_registrations_id_seq (registrations_id_seq d + 1) d in
  let d2 := if gorm.conflicts d userID eventID then d1
            else with_registrations
                   (registrations d ++ [new_registration d userID eventID]) d1 in
  with_events (<[eventID := decremented e]> (events d2)) d2.

(** The rows of the pair, soft-deleted. *)
Definition cancelled_rows (d : DB) (userID eventID : N) : list Registration :=
  List.map (fun r => if live_pair userID eventID r then gorm.soft_delete r else r)
           (registrations d).

(** The free seats of a live event, if there is one. *)
Definition available_seats (d : DB) (eventID : N) : option Z :=
  AvailableSeats <$> live_event d eventID.

(** Between two states the free seats of an event moved by one at most. *)
Definition moved_by_one (d d' : DB) (eventID : N) : Prop :=
  match available_seats d eventID, available_seats d' eventID with
  | Some a, Some b => b = a \/ b = a + 1 \/ b = a - 1
  | _, _ => True
  end.

(** The struct [UpdateEvent] saves when the capacity is reduced. *)
Definition reduced (id : N) (b : handler.EventBody) (existing : Event) : Event :=
  mkEvent id (handler.body_title b) (handler.body_capacity b)
          (int_sub (handler.body_capacity b)
                   (int_sub (Capacity existing) (AvailableSeats existing)))
          (handler.body_organizer_id b) false.

(** The struct [UpdateEvent] saves for the body [b] over the event [existing]. *)
Definition saved (id : N) (b : handler.EventBody) (existing : Event) : Event :=
  if handler.body_capacity b <? Capacity existing
  then reduced id b existing
  else mkEvent id (handler.body_title b) (handler.body_capacity b)
               (handler.body_available_seats b) (handler.body_organizer_id b) false.

(** [UpdateEvent] refuses the body [b] for the event [existing]: the
    capacity would go below capacity - available_seats. *)
Definition refused (b : handler.EventBody) (existing : Event) : bool :=
  (handler.body_capacity b <? Capacity existing)
  && (handler.body_capacity b
      <? int_sub (Capacity existing) (AvailableSeats existing)).

(** [event'] is [event] but for its organizer_id, which the datastore
    layer takes from the organizer it saves. *)
Definition same_but_organizer (event event' : Event) : Prop :=
  Event_ID event' = Event_ID event /\ Title event' = Title event
  /\ Capacity event' = Capacity event /\ AvailableSeats event' = AvailableSeats event
  /\ Event_DeletedAt event' = Event_DeletedAt event.

Import concurrent.

(** The goroutine holds the lock of the event row: it is between its
    SELECT ... FOR UPDATE and the end of its transaction. *)
Definition holds_row_lock (p : pc) : bool :=
  match p with
  | AtSeatCheck _ _ | AtCreate _ | AtDecrement _ _ | AtCommit _ _ => true
  | _ => false
  end.

(** The committed free seats of the event of the configuration. *)
Definition free_seats (c : Config) : Z :=
  match live_event (committed c) (eventID c) with
  | Some e => AvailableSeats e
  | None => 0
  end.

(** The rows of a transaction are the committed ones and at most rows of
    its own user. *)
Definition own_rows (c : Config) (g : Goroutine) (d : DB) : Prop :=
  forall r, r ∈ registrations d -> r ∈ registrations (committed c) \/ UserID r = userID g.

(** What holds of goroutine [j] at each program counter. *)
Definition goroutine_ok (c : Config) (j : nat) (g : Goroutine) : Prop :=
  match at_pc g with
  | AtFindUser | AtFindRegistration | AtLockEvent => lock c <> Some j
  | AtSeatCheck tx event =>
      lock c = Some j /\ tx = gorm.Begin (committed c)
      /\ live_event (committed c) (eventID c) = Some event
  | AtCreate tx =>
      lock c = Some j /\ tx = gorm.Begin (committed c) /\ 0 < free_seats c
  | AtDecrement tx _ =>
      lock c = Some j /\ gorm.tx_begin tx = committed c /\ 0 < free_seats c
      /\ events (gorm.tx_db tx) = events (committed c)
      /\ users (gorm.tx_db tx) = users (committed c)
      /\ own_rows c g (gorm.tx_db tx)
  | AtCommit tx _ =>
      lock c = Some j /\ gorm.tx_begin tx = committed c /\ 0 < free_seats c
      /\ (exists e, live_event (committed c) (eventID c) = Some e
            /\ events (gorm.tx_db tx) = <[eventID c := decremented e]> (events (committed c)))
      /\ users (gorm.tx_db tx) = users (committed c)
      /\ own_rows c g (gorm.tx_db tx)
  | Returned (Ok _) => lock c <> Some j
  | Returned (Err err) => lock c <> Some j /\ err = ErrEventFull /\ free_seats c = 0
  end.

(** The invariant of the configurations reached from [init d e us], for an
    event [e] of capacity [C] and the users table [U]. *)
Record Inv (C : Z) (e : N) (U : gmap N User) (us : list N) (c : Config) : Prop := mkInv {
  inv_eventID : eventID c = e;
  inv_users : users (committed c) = U;
  inv_userIDs : List.map userID (goroutines c) = us;
  inv_event : exists ev, live_event (committed c) e = Some ev
                /\ Capacity ev = C /\ 0 <= AvailableSeats ev <= C;
  inv_count : count registered c = C - free_seats c;
  inv_rows : forall r, r ∈ registrations (committed c) -> EventID r = e ->
               exists j g, goroutines c !! j = Some g /\ userID g = UserID r
                           /\ registered g = true;
  inv_goroutines : forall j g, goroutines c !! j = Some g -> goroutine_ok c j g;
  inv_lock : forall k, lock c = Some k -> exists g, goroutines c !! k = Some g
}.

(** The statements a goroutine has left, at most. *)
Definition remaining (p : pc) : nat :=
  match p with
  | AtFindUser => 7
  | AtFindRegistration => 6
  | AtLockEvent => 5
  | AtSeatCheck _ _ => 4
  | AtCreate _ => 3
  | AtDecrement _ _ => 2
  | AtCommit _ _ => 1
  | Returned _ => 0
  end.

(** No goroutine but [j] is past its SELECT ... FOR UPDATE, and the lock is
    taken, by [j], exactly when [j] is. *)
Definition solo (c : Config) (j : nat) : Prop :=
  (forall k gk, k <> j -> goroutines c !! k = Some gk -> holds_row_lock (at_pc gk) = false)
  /\ (forall g, goroutines c !! j = Some g ->
        if holds_row_lock (at_pc g) then lock c = Some j else lock c = None)
  /\ (j < length (goroutines c) \/ lock c = None)%nat.

(** The lock is free and no goroutine is past its SELECT ... FOR UPDATE. *)
Definition quiescent (c : Config) : Prop :=
  lock c = None
  /\ forall k gk, goroutines c !! k = Some gk -> holds_row_lock (at_pc gk) = false.

(** The schedule that runs the goroutines 0 to [m - 1] one after the other. *)
Definition one_by_one (m : nat) : list nat :=
  concat (List.map (fun j => repeat j 7) (seq 0 m)).

(** Every event row has its free seats between 0 and its capacity. *)
Definition seat_bounds (d : DB) : Prop :=
  map_Forall (fun _ x => 0 <= AvailableSeats x <= Capacity x) (events d).

(** For every live event, capacity - available_seats is the number of its
    live registrations. *)
Definition accounting (d : DB) : Prop :=
  map_Forall (fun id x => Event_DeletedAt x = false ->
                          Capacity x - AvailableSeats x = live_count d id) (events d).

(** The values of a Go [int]. *)
Definition is_int (z : Z) : Prop := - 2 ^ 63 <= z < 2 ^ 63.

(** The request binds: there is a body and its two ids are not zero. *)
Definition bound (body : option handler.PairRequest) : Prop :=
  exists req, body = Some req /\ handler.binds req = true.

(** Whoever is past its SELECT ... FOR UPDATE is the holder of the lock. *)
Definition lock_discipline (c : Config) : Prop :=
  forall j g, goroutines c !! j = Some g -> holds_row_lock (at_pc g) = true ->
    lock c = Some j.

(** The live registrations the datastore has committed for the event are
    as many as the calls that have returned a registration, and the one a
    transaction has inserted is counted in its own view only. *)
Definition rows_counted (c : Config) : Prop :=
  live_count (committed c) (eventID c) = count registered c
  /\ forall j g, goroutines c !! j = Some g ->
       match at_pc g with
       | AtDecrement tx _ | AtCommit tx _ =>
           live_count (gorm.tx_db tx) (eventID c)
           = live_count (committed c) (eventID c) + 1
       | _ => True
       end.

(** * Properties *)

(** ** The rows a rollback leaves *)

Lemma Rollback_same_tables (d d1 : DB) :
  same_tables d (gorm.Rollback (gorm.mkTx d d1)).
Proof. by repeat split. Qed.

Lemma same_tables_refl (d : DB) : same_tables d d.
Proof. by repeat split. Qed.

(** ** The conditional decrement *)

Lemma live_event_Some (d : DB) (id : N) (e : Event) :
  live_event d id = Some e <-> events d !! id = Some e /\ Event_DeletedAt e = false.
Proof.
  unfold live_event. split.
  - destruct (events d !! id) as [e'|]; [|done].
    destruct (Event_DeletedAt e') eqn:E; [done|]. by intros [= <-].
  - intros [-> ->]. done.
Qed.

Lemma live_event_insert (d : DB) (id : N) (e : Event) :
  Event_DeletedAt e = false ->
  live_event (with_events (<[id := e]> (events d)) d) id = Some e.
Proof. intros H. apply live_event_Some. simpl. by rewrite lookup_insert_eq. Qed.

Lemma live_event_insert_ne (d : DB) (id j : N) (e : Event) :
  id <> j ->
  live_event (with_events (<[id := e]> (events d)) d) j = live_event d j.
Proof. intros H. unfold live_event. simpl. by rewrite lookup_insert_ne. Qed.

(** The decrement statement, case by case. *)
Lemma Update_decrement_spec (d : DB) (id : N) :
  gorm.Update_available_seats false d id (fun e => 0 <? AvailableSeats e) (fun a => a - 1)
  = match live_event d id with
    | Some e =>
        if 0 <? AvailableSeats e
        then Ok (with_events (<[id := decremented e]> (events d)) d, 1)
        else Ok (d, 0)
    | None => Ok (d, 0)
    end.
Proof. unfold gorm.Update_available_seats. by destruct (live_event d id). Qed.

(** The increment statement, case by case. *)
Lemma Update_increment_spec (d : DB) (id : N) :
  gorm.Update_available_seats false d id (fun _ => true) (fun a => a + 1)
  = match live_event d id with
    | Some e => Ok (with_events (<[id := incremented e]> (events d)) d, 1)
    | None => Ok (d, 0)
    end.
Proof. unfold gorm.Update_available_seats. by destruct (live_event d id). Qed.

(** C5: the reserve operation [DecreaseAvailableSeats] takes exactly one
    seat from the event if and only if the event has a free seat when the
    statement runs, and changes nothing else; when the statement affects no
    row it returns [ErrEventFull], which is neither of the not-found errors,
    and leaves the state as it was.  (The datastore call itself succeeds.) *)
Theorem DecreaseAvailableSeats_conditional (tx : gorm.Tx) (id : N) :
  let d := gorm.tx_db tx in
  let err := fst (repository.DecreaseAvailableSeats false tx id) in
  let d' := gorm.tx_db (snd (repository.DecreaseAvailableSeats false tx id)) in
  (err = None <-> exists e, live_event d id = Some e /\ 0 < AvailableSeats e)
  /\ match live_event d id with
     | Some e =>
         if 0 <? AvailableSeats e
         then err = None
              /\ events d' = <[id := decremented e]> (events d)
              /\ live_event d' id = Some (decremented e)
              /\ AvailableSeats (decremented e) = AvailableSeats e - 1
              /\ users d' = users d /\ registrations d' = registrations d
         else err = Some ErrEventFull /\ d' = d
     | None => err = Some ErrEventFull /\ d' = d
     end
  /\ ErrEventFull <> ErrEventNotFound /\ ErrEventFull <> ErrRecordNotFound.
Proof.
  cbn zeta. unfold repository.DecreaseAvailableSeats.
  rewrite Update_decrement_spec.
  destruct (live_event (gorm.tx_db tx) id) as [e|] eqn:Hlive.
  - destruct (0 <? AvailableSeats e) eqn:Hpos; simpl.
    + apply Z.ltb_lt in Hpos. split_and!; try done.
      * split; [|done]. intros _. by exists e.
      * apply live_event_Some in Hlive as [_ Hdel].
        by apply live_event_insert.
    + apply Z.ltb_ge in Hpos. split_and!; try done.
      split; [done|]. intros (e' & [= <-] & Hlt). lia.
  - simpl. split_and!; try done. split; [done|]. by intros (e' & [=] & _).
Qed.

(** ** [RegisterForEvent] and [CancelRegistration], statement by statement *)

Lemma Rollback_Begin (d : DB) : gorm.Rollback (gorm.Begin d) = d.
Proof. by destruct d. Qed.

(** [RegisterForEvent] when no datastore call fails. *)
Lemma RegisterForEvent_spec (userID eventID : N) (d : DB) :
  service.RegisterForEvent service.no_register_faults userID eventID d
  = match live_user d userID with
    | None => (Err ErrUserNotFound, d)
    | Some _ =>
        match List.find (live_pair userID eventID) (registrations d) with
        | Some _ => (Err ErrAlreadyRegistered, d)
        | None =>
            match live_event d eventID with
            | None => (Err ErrEventNotFound, d)
            | Some e =>
                if AvailableSeats e <=? 0 then (Err ErrEventFull, d)
                else
                  (Ok (if gorm.conflicts d userID eventID
                       then mkRegistration 0 userID eventID false
                       else new_registration d userID eventID),
                   registered_state d userID eventID e)
            end
        end
    end.
Proof.
  unfold service.RegisterForEvent, repository.User_FindByID, gorm.First_user,
    gorm.First_registration, repository.FindByIDForUpdate, gorm.First_event.
  cbn [service.fail_find_user service.fail_find_registration service.fail_lock_event
       service.fail_create service.fail_decrement service.fail_commit
       service.no_register_faults gorm.tx_db gorm.tx_begin gorm.Begin].
  rewrite Rollback_Begin.
  destruct (live_user d userID); [|done].
  destruct (List.find _ _); [done|].
  destruct (decide (ErrRecordNotFound <> ErrRecordNotFound)); [done|].
  destruct (live_event d eventID) as [e|] eqn:Hlive; [|done].
  destruct (AvailableSeats e <=? 0) eqn:Hseats; [done|].
  apply Z.leb_gt in Hseats.
  unfold gorm.Create_registration_OnConflictDoNothing, registered_state.
  cbn [UserID EventID Registration_DeletedAt].
  assert (Hpos : (0 <? AvailableSeats e) = true) by (apply Z.ltb_lt; lia).
  destruct (gorm.conflicts d userID eventID);
    cbn [gorm.tx_db gorm.tx_begin]; rewrite Update_decrement_spec;
    unfold live_event in *; cbn [events with_events with_registrations
      with_registrations_id_seq]; rewrite Hlive; rewrite Hpos; reflexivity.
Qed.

(** [CancelRegistration] when no datastore call fails. *)
Lemma CancelRegistration_spec (userID eventID : N) (d : DB) :
  service.CancelRegistration service.no_cancel_faults userID eventID d
  = (None,
     let d1 := with_registrations (cancelled_rows d userID eventID) d in
     match live_event d eventID with
     | Some e => with_events (<[eventID := incremented e]> (events d)) d1
     | None => d1
     end).
Proof.
  unfold service.CancelRegistration, gorm.Delete_registrations, gorm.Commit.
  cbn [service.fail_delete service.fail_increment service.fail_cancel_commit
       service.no_cancel_faults gorm.tx_db gorm.tx_begin gorm.Begin].
  rewrite Update_increment_spec. unfold live_event.
  cbn [events with_registrations].
  destruct (events d !! eventID) as [e|]; [|done].
  by destruct (Event_DeletedAt e).
Qed.

(** Every error path of [RegisterForEvent] returns the rows it found. *)
Lemma RegisterForEvent_error_rows (f : service.RegisterFaults) (userID eventID : N)
    (d : DB) :
  match fst (service.RegisterForEvent f userID eventID d) with
  | Err _ => same_tables d (snd (service.RegisterForEvent f userID eventID d))
             /\ unique_user_event (snd (service.RegisterForEvent f userID eventID d))
                = unique_user_event d
  | Ok _ => True
  end.
Proof.
  unfold service.RegisterForEvent.
  destruct (repository.User_FindByID _ _ _) as [?|err].
  2:{ destruct (decide _); simpl; split; auto using same_tables_refl. }
  destruct (gorm.First_registration _ _ _ _) as [?|err]; simpl.
  { split; [apply Rollback_same_tables | done]. }
  destruct (decide _); simpl.
  { split; [apply Rollback_same_tables | done]. }
  destruct (repository.FindByIDForUpdate _ _ _) as [event|err']; simpl.
  2:{ destruct (decide _); simpl; (split; [apply Rollback_same_tables | done]). }
  destruct (AvailableSeats event <=? 0); simpl.
  { split; [apply Rollback_same_tables | done]. }
  destruct (gorm.Create_registration_OnConflictDoNothing _ _ _) as [[d1 r]|err1]; simpl.
  2:{ split; [apply Rollback_same_tables | done]. }
  destruct (gorm.Update_available_seats _ _ _ _ _) as [[d2 rows]|err2]; simpl.
  2:{ split; [apply Rollback_same_tables | done]. }
  destruct (rows =? 0); simpl.
  { split; [apply Rollback_same_tables | done]. }
  unfold gorm.Commit. destruct (service.fail_commit f); simpl; [|done].
  split; [apply Rollback_same_tables | done].
Qed.

(** C8: a call of [RegisterForEvent] that returns an error, whichever it is
    and whichever datastore call failed, leaves the rows of the users, events
    and registrations tables as they were before the call. *)
Theorem RegisterForEvent_error_leaves_rows (f : service.RegisterFaults)
    (userID eventID : N) (d d' : DB) (err : error) :
  service.RegisterForEvent f userID eventID d = (Err err, d') ->
  same_tables d d'.
Proof.
  intros H. pose proof (RegisterForEvent_error_rows f userID eventID d) as Hrows.
  rewrite H in Hrows. simpl in Hrows. apply Hrows.
Qed.

Lemma RegisterForEvent_error_leaves_rows_witness :
  service.RegisterForEvent service.no_register_faults 2 1 (example.db 1 0)
  = (Err ErrEventFull, example.db 1 0)
  /\ same_tables (example.db 1 0) (example.db 1 0).
Proof.
  assert (H : service.RegisterForEvent service.no_register_faults 2 1 (example.db 1 0)
              = (Err ErrEventFull, example.db 1 0)) by (vm_compute; reflexivity).
  split; [exact H |].
  exact (RegisterForEvent_error_leaves_rows _ _ _ _ _ _ H).
Defined.

(** ** Cancellation *)

(** [CancelRegistration] gives a seat back to every live event, whether or
    not a registration of the pair was there to delete. *)
Lemma CancelRegistration_increments (userID eventID : N) (d : DB) (e : Event) :
  live_event d eventID = Some e ->
  live_event (snd (service.CancelRegistration service.no_cancel_faults userID eventID d))
             eventID = Some (incremented e).
Proof.
  intros Hlive. rewrite CancelRegistration_spec. cbn [snd]. rewrite Hlive.
  apply live_event_Some in Hlive as [_ Hdel].
  apply live_event_Some. cbn [events with_events]. by rewrite lookup_insert_eq.
Qed.

(** The values [CancelRegistration] returns. *)
Lemma CancelRegistration_errors (f : service.CancelFaults) (userID eventID : N) (d : DB) :
  fst (service.CancelRegistration f userID eventID d) = None
  \/ fst (service.CancelRegistration f userID eventID d) = Some ErrDatastore.
Proof.
  unfold service.CancelRegistration, gorm.Delete_registrations, gorm.Commit.
  cbn [gorm.tx_db gorm.tx_begin gorm.Begin].
  destruct (service.fail_delete f); [by right|].
  destruct (gorm.Update_available_seats _ _ _ _ _) as [[d2 rows]|err] eqn:Hupd.
  - destruct (service.fail_cancel_commit f); [by right | by left].
  - right. cbn [fst]. unfold gorm.Update_available_seats in Hupd.
    destruct (service.fail_increment f); [by injection Hupd as <-|].
    by destruct (live_event _ _).
Qed.

(** C10: [CancelRegistration] returns nil or an error of the datastore, for
    every input; when no datastore call fails it returns nil, also for an
    event that does not exist: the seat-increment statement then affects no
    row, which is not an error, and the events keep their rows.  The HTTP
    handler never answers 404 or 409. *)
Theorem CancelRegistration_never_not_found (f : service.CancelFaults)
    (userID eventID : N) (body : option handler.PairRequest) (d : DB) :
  let err := fst (service.CancelRegistration f userID eventID d) in
  let quiet := service.CancelRegistration service.no_cancel_faults userID eventID d in
  let deleted := with_registrations (cancelled_rows d userID eventID) d in
  let status := fst (handler.CancelRegistration f body d) in
  (err = None \/ err = Some ErrDatastore)
  /\ fst quiet = None
  /\ match live_event d eventID with
     | None =>
         gorm.Update_available_seats false deleted eventID
           (fun _ => true) (fun a => a + 1) = Ok (deleted, 0)
         /\ quiet = (None, deleted)
         /\ events (snd quiet) = events d
     | Some e => live_event (snd quiet) eventID = Some (incremented e)
     end
  /\ (status = handler.StatusOK \/ status = handler.StatusBadRequest
      \/ status = handler.StatusInternalServerError)
  /\ status <> handler.StatusNotFound /\ status <> handler.StatusConflict.
Proof.
  cbn zeta. split; [apply CancelRegistration_errors|].
  split; [by rewrite CancelRegistration_spec|].
  split.
  { destruct (live_event d eventID) as [e|] eqn:Hlive.
    - by apply CancelRegistration_increments.
    - rewrite CancelRegistration_spec, Update_increment_spec.
      unfold live_event in *. cbn [events with_registrations snd].
      by rewrite Hlive. }
  assert (Hstatus : fst (handler.CancelRegistration f body d) = handler.StatusOK
                    \/ fst (handler.CancelRegistration f body d) = handler.StatusBadRequest
                    \/ fst (handler.CancelRegistration f body d)
                       = handler.StatusInternalServerError).
  { unfold handler.CancelRegistration. destruct body as [req|]; [|auto].
    destruct (negb (handler.binds req)); [auto|].
    destruct (service.CancelRegistration _ _ _ _) as [[?|] ?]; auto. }
  split; [exact Hstatus|].
  unfold handler.StatusOK, handler.StatusBadRequest, handler.StatusInternalServerError,
    handler.StatusNotFound, handler.StatusConflict in *.
  lia.
Qed.

(** C4: at event 1 with all of its 10 seats free, user 2 holds no
    registration; [CancelRegistration] for that pair returns nil and leaves
    the event with 11 available seats. *)
Theorem cancel_without_registration_adds_seat :
  List.find (live_pair 2 1) (registrations (example.db 10 10)) = None
  /\ available_seats (example.db 10 10) 1 = Some 10
  /\ fst (example.cancel 2 1 (example.db 10 10)) = None
  /\ available_seats (snd (example.cancel 2 1 (example.db 10 10))) 1 = Some 11
  /\ snd (example.cancel 2 1 (example.db 10 10)) = example.db 10 11.
Proof. vm_compute. by repeat split. Qed.

(** C3: two cancellations for a user who holds no registration leave an
    event of capacity 10 with 12 available seats. *)
Theorem cancel_raises_seats_above_capacity :
  let d := snd (example.cancel 2 1 (snd (example.cancel 2 1 (example.db 10 10)))) in
  live_event (example.db 10 10) 1 = Some (example.tech_talk 10 10)
  /\ live_event d 1 = Some (example.tech_talk 10 12)
  /\ ~ (AvailableSeats (example.tech_talk 10 12) <= Capacity (example.tech_talk 10 12)).
Proof. vm_compute. split_and!; [done | done | by intros H]. Qed.

(** C2: user 1 registers for event 1 (capacity 10), which leaves 9 seats
    and one live registration; a cancellation for user 2, who is not
    registered, then leaves 10 seats and still one live registration. *)
Theorem cancel_breaks_seat_accounting :
  let d1 := snd (example.register 1 1 (example.db 10 10)) in
  let d2 := snd (example.cancel 2 1 d1) in
  (live_count d1 1 = 1 /\ live_event d1 1 = Some (example.tech_talk 10 9))
  /\ fst (example.cancel 2 1 d1) = None
  /\ live_count d2 1 = 1
  /\ live_event d2 1 = Some (example.tech_talk 10 10)
  /\ Capacity (example.tech_talk 10 10) - AvailableSeats (example.tech_talk 10 10)
     <> live_count d2 1.
Proof. vm_compute. split_and!; try done. Qed.

(** ** Duplicate registrations *)

(** C6: two calls of [RegisterForEvent] for the pair (user 2, event 1) race
    through the duplicate check before either takes the row lock.  The
    insert of the second meets the uniqueness constraint and is swallowed:
    the call returns a registration (with no ID), and its seat is taken all
    the same, so that both seats of the event are gone for one live
    registration.  The same happens without a race when the pair was
    registered and cancelled before: the insert meets the soft-deleted row. *)
Theorem swallowed_insert_takes_seat :
  let c := concurrent.run [0; 1; 0; 1; 0; 0; 0; 0; 0; 1; 1; 1; 1; 1]%nat
             (concurrent.init (example.db 2 2) 1 [2; 2]%N) in
  let d1 := snd (example.register 2 1 (example.db 2 2)) in
  let d2 := snd (example.cancel 2 1 d1) in
  let d3 := snd (example.register 2 1 d2) in
  (List.map concurrent.at_pc (concurrent.goroutines c)
   = [concurrent.Returned (Ok (mkRegistration 1 2 1 false));
      concurrent.Returned (Ok (mkRegistration 0 2 1 false))]
   /\ registrations (concurrent.committed c) = [mkRegistration 1 2 1 false]
   /\ available_seats (concurrent.committed c) 1 = Some 0)
  /\ (available_seats d2 1 = Some 2
      /\ gorm.conflicts d2 2 1 = true
      /\ fst (example.register 2 1 d2) = Ok (mkRegistration 0 2 1 false)
      /\ available_seats d3 1 = Some 1
      /\ live_count d3 1 = 0).
Proof. vm_compute. by repeat split. Qed.

(** X5: An insert that meets the uniqueness constraint is swallowed, and the
    call goes on as if the row had been inserted: it takes the seat and
    returns the registration it built, which has no ID. *)
Lemma RegisterForEvent_swallowed (d : DB) (userID eventID : N) (u : User) (e : Event) :
  live_user d userID = Some u ->
  live_event d eventID = Some e ->
  0 < AvailableSeats e ->
  List.find (live_pair userID eventID) (registrations d) = None ->
  gorm.conflicts d userID eventID = true ->
  let call := service.RegisterForEvent service.no_register_faults userID eventID d in
  fst call = Ok (mkRegistration 0 userID eventID false)
  /\ registrations (snd call) = registrations d
  /\ live_event (snd call) eventID = Some (decremented e).
Proof.
  intros Hu He Hseats Hfind Hconf. cbn zeta.
  rewrite RegisterForEvent_spec, Hu, Hfind, He.
  destruct (AvailableSeats e <=? 0) eqn:Hle; [apply Z.leb_le in Hle; lia|].
  rewrite Hconf. cbn [fst snd]. unfold registered_state. rewrite Hconf.
  split_and!; [done | done |].
  apply live_event_Some. cbn [events with_events with_registrations_id_seq].
  rewrite lookup_insert_eq. split; [done|]. by apply live_event_Some in He as [_ ?].
Qed.

(** After a registration and its cancellation the row of the pair is still
    in the table, soft-deleted: under the uniqueness constraint every later
    registration of the pair is swallowed, none is refused, and each takes
    a seat. *)
Example register_after_cancel :
  let d1 := snd (example.register 2 1 (example.db 10 10)) in
  let d2 := snd (example.cancel 2 1 d1) in
  let d3 := snd (example.register 2 1 d2) in
  let d4 := snd (example.register 2 1 d3) in
  registrations d2 = [mkRegistration 1 2 1 true]
  /\ fst (example.register 2 1 d2) = Ok (mkRegistration 0 2 1 false)
  /\ fst (example.register 2 1 d3) = Ok (mkRegistration 0 2 1 false)
  /\ registrations d4 = [mkRegistration 1 2 1 true]
  /\ available_seats d4 1 = Some 8.
Proof. vm_compute. by repeat split. Qed.

Lemma find_app_None {A : Type} (p : A -> bool) (l : list A) (x : A) :
  List.find p l = None -> p x = true -> List.find p (l ++ [x]) = Some x.
Proof.
  intros Hl Hx. induction l as [|a l IH]; simpl in *.
  - by rewrite Hx.
  - destruct (p a); [done|]. by apply IH.
Qed.

(** C7: user 2 registers for event 1 (capacity 10), cancels, and then
    calls [RegisterForEvent] twice.  Under the uniqueness constraint both
    inserts meet the soft-deleted row of the pair and are swallowed: both
    calls return a registration (with no ID), the second is not refused
    with [ErrAlreadyRegistered], the user holds no live registration, and
    the two calls take two seats. *)
Theorem register_twice_after_cancel :
  let d := snd (example.cancel 2 1 (snd (example.register 2 1 (example.db 10 10)))) in
  let first := example.register 2 1 d in
  let second := example.register 2 1 (snd first) in
  live_user d 2 = Some (example.attendee 2)
  /\ available_seats d 1 = Some 10
  /\ List.find (live_pair 2 1) (registrations d) = None
  /\ fst first = Ok (mkRegistration 0 2 1 false)
  /\ fst second = Ok (mkRegistration 0 2 1 false)
  /\ fst second <> Err ErrAlreadyRegistered
  /\ List.find (live_pair 2 1) (registrations (snd second)) = None
  /\ available_seats (snd second) 1 = Some 8.
Proof. vm_compute. by split_and!. Qed.

(** X25: Where the insert does not meet the uniqueness constraint the second
    call is refused: for a live user and a live event with a free seat,
    where the user holds no live registration for the event, the first
    [RegisterForEvent] returns the new registration, the second returns
    [ErrAlreadyRegistered], and after both the event has exactly one seat
    less. *)
Lemma register_twice (d : DB) (userID eventID : N) (u : User) (e : Event) :
  live_user d userID = Some u ->
  live_event d eventID = Some e ->
  0 < AvailableSeats e ->
  List.find (live_pair userID eventID) (registrations d) = None ->
  gorm.conflicts d userID eventID = false ->
  let first := service.RegisterForEvent service.no_register_faults userID eventID d in
  let second := service.RegisterForEvent service.no_register_faults userID eventID
                  (snd first) in
  fst first = Ok (new_registration d userID eventID)
  /\ live_event (snd first) eventID = Some (decremented e)
  /\ fst second = Err ErrAlreadyRegistered
  /\ live_event (snd second) eventID = Some (decremented e)
  /\ AvailableSeats (decremented e) = AvailableSeats e - 1.
Proof.
  intros Hu He Hseats Hfind Hconf. cbn zeta.
  assert (Hfirst : service.RegisterForEvent service.no_register_faults userID eventID d
                   = (Ok (new_registration d userID eventID),
                      registered_state d userID eventID e)).
  { rewrite RegisterForEvent_spec, Hu, Hfind, He.
    destruct (AvailableSeats e <=? 0) eqn:Hle; [apply Z.leb_le in Hle; lia|].
    by rewrite Hconf. }
  rewrite Hfirst. cbn [fst snd].
  assert (Hlive : live_event (registered_state d userID eventID e) eventID
                  = Some (decremented e)).
  { unfold registered_state. rewrite Hconf. apply live_event_Some.
    cbn [events with_events]. rewrite lookup_insert_eq.
    split; [done|]. by apply live_event_Some in He as [_ Hdel]. }
  rewrite RegisterForEvent_spec.
  assert (Hu' : live_user (registered_state d userID eventID e) userID = Some u).
  { unfold registered_state. by rewrite Hconf. }
  rewrite Hu'.
  assert (Hfind' : List.find (live_pair userID eventID)
                     (registrations (registered_state d userID eventID e))
                   = Some (new_registration d userID eventID)).
  { unfold registered_state. rewrite Hconf. cbn [registrations with_events
      with_registrations]. apply find_app_None; [done|].
    unfold live_pair, same_pair, new_registration. cbn.
    by rewrite !N.eqb_refl. }
  rewrite Hfind'. by cbn [fst snd].
Qed.

Lemma register_twice_witness :
  live_user (example.db 10 10) 2 = Some (example.attendee 2)
  /\ fst (example.register 2 1 (example.db 10 10)) = Ok (mkRegistration 1 2 1 false)
  /\ fst (example.register 2 1 (snd (example.register 2 1 (example.db 10 10))))
     = Err ErrAlreadyRegistered
  /\ live_event (snd (example.register 2 1 (snd (example.register 2 1 (example.db 10 10)))))
       1 = Some (example.tech_talk 10 9).
Proof.
  assert (Hu : live_user (example.db 10 10) 2 = Some (example.attendee 2))
    by (vm_compute; reflexivity).
  assert (He : live_event (example.db 10 10) 1 = Some (example.tech_talk 10 10))
    by (vm_compute; reflexivity).
  assert (Hs : 0 < AvailableSeats (example.tech_talk 10 10)) by (vm_compute; reflexivity).
  assert (Hf : List.find (live_pair 2 1) (registrations (example.db 10 10)) = None)
    by (vm_compute; reflexivity).
  assert (Hc : gorm.conflicts (example.db 10 10) 2 1 = false)
    by (vm_compute; reflexivity).
  destruct (register_twice _ _ _ _ _ Hu He Hs Hf Hc) as (H1 & _ & H3 & H4 & _).
  split; [exact Hu|]. split; [exact H1|]. split; [exact H3|]. exact H4.
Defined.

(** ** How the free seats of an event change *)

Lemma Update_available_seats_inv (fail : bool) (d d' : DB) (id : N)
    (cond : Event -> bool) (expr : Z -> Z) (rows : Z) :
  gorm.Update_available_seats fail d id cond expr = Ok (d', rows) ->
  (rows = 0 /\ d' = d)
  \/ (rows = 1 /\ exists e, live_event d id = Some e /\ cond e = true
      /\ d' = with_events
                (<[id := mkEvent (Event_ID e) (Title e) (Capacity e)
                                 (expr (AvailableSeats e)) (OrganizerID e)
                                 (Event_DeletedAt e)]> (events d)) d).
Proof.
  unfold gorm.Update_available_seats. destruct fail; [done|].
  destruct (live_event d id) as [e|]; [|intros [= <- <-]; by left].
  destruct (cond e) eqn:Hcond; intros [= <- <-]; [right | by left].
  split; [done|]. by exists e.
Qed.

Lemma Create_registration_events (fail : bool) (d d' : DB) (r r' : Registration) :
  gorm.Create_registration_OnConflictDoNothing fail d r = Ok (d', r') ->
  events d' = events d /\ users d' = users d.
Proof.
  unfold gorm.Create_registration_OnConflictDoNothing. destruct fail; [done|].
  destruct (gorm.conflicts _ _ _); by intros [= <- <-].
Qed.

(** [RegisterForEvent] leaves the events as they are or takes one seat from
    the event of the call. *)
Lemma RegisterForEvent_events (f : service.RegisterFaults) (userID eventID : N) (d : DB) :
  let d' := snd (service.RegisterForEvent f userID eventID d) in
  events d' = events d
  \/ exists e, live_event d eventID = Some e /\ 0 < AvailableSeats e
       /\ events d' = <[eventID := decremented e]> (events d).
Proof.
  cbn zeta. unfold service.RegisterForEvent.
  destruct (repository.User_FindByID _ _ _) as [?|err].
  2:{ destruct (decide _); by left. }
  destruct (gorm.First_registration _ _ _ _) as [?|err]; [by left|].
  destruct (decide _); [by left|].
  destruct (repository.FindByIDForUpdate _ _ _) as [event|err'].
  2:{ destruct (decide _); by left. }
  destruct (AvailableSeats event <=? 0); [by left|].
  destruct (gorm.Create_registration_OnConflictDoNothing _ _ _) as [[d1 r]|err1] eqn:Hc;
    [|by left].
  apply Create_registration_events in Hc as [Hev _].
  cbn [gorm.tx_db gorm.tx_begin gorm.Begin] in *.
  destruct (gorm.Update_available_seats _ _ _ _ _) as [[d2 rows]|err2] eqn:Hupd;
    [|by left].
  destruct (rows =? 0); [by left|].
  unfold gorm.Commit. destruct (service.fail_commit f); [by left|]. cbn [snd].
  apply Update_available_seats_inv in Hupd as [[_ ->]|(_ & e & Hlive & Hcond & ->)].
  - by left.
  - right. exists e. unfold live_event in *. rewrite Hev in Hlive.
    split; [done|]. split; [by apply Z.ltb_lt|].
    cbn [events with_events]. by rewrite Hev.
Qed.

(** [CancelRegistration] leaves the events as they are or gives one seat to
    the event of the call. *)
Lemma CancelRegistration_events (f : service.CancelFaults) (userID eventID : N) (d : DB) :
  let d' := snd (service.CancelRegistration f userID eventID d) in
  events d' = events d
  \/ exists e, live_event d eventID = Some e
       /\ events d' = <[eventID := incremented e]> (events d).
Proof.
  cbn zeta. unfold service.CancelRegistration, gorm.Delete_registrations, gorm.Commit.
  cbn [gorm.tx_db gorm.tx_begin gorm.Begin].
  destruct (service.fail_delete f); [by left|].
  destruct (gorm.Update_available_seats _ _ _ _ _) as [[d2 rows]|err] eqn:Hupd;
    [|by left].
  destruct (service.fail_cancel_commit f); [by left|]. cbn [snd].
  apply Update_available_seats_inv in Hupd as [[_ ->]|(_ & e & Hlive & _ & ->)].
  - by left.
  - right. by exists e.
Qed.

(** *** Creating and saving an event *)

Lemma Create_user_frame (d : DB) (user : User) :
  match gorm.Create_user_OnConflictDoNothing d user with
  | (d1, user1) =>
      events d1 = events d /\ registrations d1 = registrations d
      /\ (users d1 = users d
          \/ users d !! User_ID user1 = None
             /\ users d1 = <[User_ID user1 := user1]> (users d))
  end.
Proof.
  unfold gorm.Create_user_OnConflictDoNothing.
  destruct (User_ID user =? 0)%N.
  - destruct (gorm.email_taken _ _ || bool_decide _) eqn:Hfree;
      [split_and!; [done | done | by left]|].
    apply orb_false_iff in Hfree as [_ Hfree]. apply bool_decide_eq_false in Hfree.
    split_and!; [done | done | right]. cbn. split; [|done].
    by apply eq_None_not_Some.
  - destruct (gorm.email_taken _ _ || bool_decide _) eqn:Hfree;
      [split_and!; [done | done | by left]|].
    apply orb_false_iff in Hfree as [_ Hfree]. apply bool_decide_eq_false in Hfree.
    split_and!; [done | done | right]. cbn. split; [|done].
    by apply eq_None_not_Some.
Qed.

(** Saving the organizer touches no event and no registration, changes no
    user, and leaves the event struct as it is but for its organizer_id. *)
Lemma save_organizer_frame (d : DB) (event : Event) (organizer : option User) :
  match gorm.save_organizer d event organizer with
  | (d1, event1, _) =>
      events d1 = events d /\ registrations d1 = registrations d
      /\ users d ⊆ users d1
      /\ same_but_organizer event event1
      /\ (organizer = None -> d1 = d /\ event1 = event)
  end.
Proof.
  unfold gorm.save_organizer. destruct organizer as [user|]; [|by split_and!].
  pose proof (Create_user_frame d user) as Hframe.
  destruct (gorm.Create_user_OnConflictDoNothing d user) as [d1 user1].
  destruct Hframe as (Hev & Hregs & Husers).
  split_and!; [done | done | | done | done].
  destruct Husers as [->|[Hfree ->]]; [done|]. by apply insert_subseteq.
Qed.

Lemma references_user_spec (d : DB) (id : N) :
  gorm.references_user d id = true <-> is_Some (users d !! id).
Proof. unfold gorm.references_user. by rewrite bool_decide_eq_true. Qed.

(** [Create(event)], outcome by outcome: an error leaves the rows as they
    were; otherwise one event row is added under a key that was free, with
    the columns of the struct but for the key and the organizer_id, and the
    organizer_id is the key of a user. *)
Lemma Create_event_cases (fail : bool) (d : DB) (event : Event)
    (organizer : option User) :
  match gorm.Create_event fail d event organizer with
  | (Err _, d') => same_tables d d'
  | (Ok row, d') =>
      fail = false
      /\ events d !! Event_ID row = None
      /\ events d' = <[Event_ID row := row]> (events d)
      /\ registrations d' = registrations d
      /\ users d ⊆ users d'
      /\ is_Some (users d' !! OrganizerID row)
      /\ Title row = Title event /\ Capacity row = Capacity event
      /\ AvailableSeats row = AvailableSeats event
      /\ Event_DeletedAt row = Event_DeletedAt event
      /\ (Event_ID event <> 0%N -> Event_ID row = Event_ID event)
      /\ (organizer = None -> users d' = users d /\ OrganizerID row = OrganizerID event)
  end.
Proof.
  unfold gorm.Create_event. destruct fail; [apply same_tables_refl|].
  pose proof (save_organizer_frame d event organizer) as Hframe.
  destruct (gorm.save_organizer d event organizer) as [[d1 event1] organizer1].
  destruct Hframe as (Hev & Hregs & Husers & (Hid & Ht & Hc & Ha & Hdel) & Hnone).
  destruct (Event_ID event1 =? 0)%N eqn:Hzero.
  - destruct (_ && _) eqn:Hok; [|apply Rollback_same_tables].
    apply andb_true_iff in Hok as [Hfk Hfree].
    apply references_user_spec in Hfk. apply bool_decide_eq_true in Hfree.
    cbn in Hfk, Hfree |- *. rewrite Hev in Hfree |- *.
    split_and!; try done.
    + apply N.eqb_eq in Hzero. intros Hne. congruence.
    + intros Hn. destruct (Hnone Hn) as [-> ->]. done.
  - destruct (_ && _) eqn:Hok; [|apply Rollback_same_tables].
    apply andb_true_iff in Hok as [Hfk Hfree].
    apply references_user_spec in Hfk. apply bool_decide_eq_true in Hfree.
    cbn. rewrite Hev in Hfree |- *.
    split_and!; try done.
    intros Hn. destruct (Hnone Hn) as [-> ->]. done.
Qed.

(** [Save(event)] of a struct whose ID is that of a live event. *)
Lemma Save_event_live (d : DB) (event existing : Event) (organizer : option User) :
  Event_ID event <> 0%N ->
  live_event d (Event_ID event) = Some existing ->
  gorm.Save_event false d event organizer
  = match gorm.save_organizer d event organizer with
    | (d1, event1, _) =>
        if gorm.references_user d1 (OrganizerID event1)
        then (Ok event1, with_events (<[Event_ID event := event1]> (events d1)) d1)
        else (Err ErrDatastore, gorm.Rollback (gorm.mkTx d d1))
    end.
Proof.
  intros Hne Hlive. unfold gorm.Save_event.
  apply N.eqb_neq in Hne. rewrite Hne.
  pose proof (save_organizer_frame d event organizer) as Hframe.
  destruct (gorm.save_organizer d event organizer) as [[d1 event1] organizer1].
  destruct Hframe as (Hev & _ & _ & (Hid & _) & _).
  unfold live_event in *. rewrite Hid, Hev.
  destruct (events d !! Event_ID event) as [e|]; [|done].
  by destruct (Event_DeletedAt e).
Qed.

(** The same, outcome by outcome: an error leaves the rows as they were;
    otherwise the row of the event is overwritten with the columns of the
    struct but for the organizer_id, which is the key of a user. *)
Lemma Save_event_live_cases (fail : bool) (d : DB) (event existing : Event)
    (organizer : option User) :
  Event_ID event <> 0%N ->
  live_event d (Event_ID event) = Some existing ->
  match gorm.Save_event fail d event organizer with
  | (Err _, d') => same_tables d d'
  | (Ok updated, d') =>
      fail = false
      /\ same_but_organizer event updated
      /\ events d' = <[Event_ID event := updated]> (events d)
      /\ registrations d' = registrations d
      /\ users d ⊆ users d'
      /\ is_Some (users d' !! OrganizerID updated)
      /\ (organizer = None -> users d' = users d /\ updated = event)
  end.
Proof.
  intros Hne Hlive. destruct fail; [apply same_tables_refl|].
  rewrite (Save_event_live d event existing organizer Hne Hlive).
  pose proof (save_organizer_frame d event organizer) as Hframe.
  destruct (gorm.save_organizer d event organizer) as [[d1 event1] organizer1].
  destruct Hframe as (Hev & Hregs & Husers & Hsame & Hnone).
  destruct (gorm.references_user d1 (OrganizerID event1)) eqn:Hfk;
    [|apply Rollback_same_tables].
  apply references_user_spec in Hfk. cbn. rewrite Hev.
  split_and!; try done.
  intros Hn. by destruct (Hnone Hn) as [-> ->].
Qed.

(** With no organizer to save, the update is stored exactly when the
    organizer_id of the struct is the key of a user. *)
Lemma Save_event_foreign_key (fail : bool) (d : DB) (event existing : Event) :
  Event_ID event <> 0%N ->
  live_event d (Event_ID event) = Some existing ->
  (exists updated, fst (gorm.Save_event fail d event None) = Ok updated)
  <-> fail = false /\ is_Some (users d !! OrganizerID event).
Proof.
  intros Hne Hlive. destruct fail.
  - split; [by intros [? ?] | by intros [? ?]].
  - rewrite (Save_event_live d event existing None Hne Hlive).
    cbn [gorm.save_organizer].
    destruct (gorm.references_user d (OrganizerID event)) eqn:Hfk.
    + apply references_user_spec in Hfk. split; [done|]. intros _. by eexists.
    + split; [by intros [? ?]|]. intros [_ Hfk'].
      apply references_user_spec in Hfk'. congruence.
Qed.

(** [UpdateEvent] for a path id and a body that bind, case by case. *)
Lemma UpdateEvent_cases (fail_get fail_save : bool) (i : N) (b : handler.EventBody)
    (d : DB) :
  handler.UpdateEvent fail_get fail_save (Some i) (Some b) d
  = if fail_get then (handler.StatusNotFound, None, d)
    else match live_event d i with
         | None => (handler.StatusNotFound, None, d)
         | Some e =>
             if refused b e then (handler.StatusBadRequest, None, d)
             else match gorm.Save_event fail_save d (saved i b e)
                          (handler.bind_organizer b) with
                  | (Err _, d') => (handler.StatusInternalServerError, None, d')
                  | (Ok updated, d') => (handler.StatusOK, Some updated, d')
                  end
         end.
Proof.
  unfold handler.UpdateEvent, service.GetEventByID, repository.Event_FindByID,
    gorm.First_event, service.UpdateEvent, repository.Event_Update, saved, reduced,
    refused.
  cbn [handler.bind_event Capacity AvailableSeats Title OrganizerID Event_DeletedAt
       Event_ID].
  destruct fail_get; [done|].
  destruct (live_event d i) as [e|]; [|done].
  destruct (handler.body_capacity b <? Capacity e); cbn [andb]; [|done].
  by destruct (handler.body_capacity b <? int_sub _ _).
Qed.

Lemma saved_ID (i : N) (b : handler.EventBody) (e : Event) :
  Event_ID (saved i b e) = i /\ Event_DeletedAt (saved i b e) = false
  /\ Capacity (saved i b e) = handler.body_capacity b
  /\ OrganizerID (saved i b e) = handler.body_organizer_id b.
Proof. unfold saved, reduced. by destruct (_ <? Capacity e). Qed.

(** What [UpdateEvent] answers for a live event other than one with the
    key 0, when it does not refuse the body: 500 with the rows as they
    were, or 200 with the row of the event overwritten. *)
Lemma UpdateEvent_saves (fail_save : bool) (i : N) (b : handler.EventBody) (d : DB)
    (e : Event) :
  i <> 0%N ->
  live_event d i = Some e ->
  refused b e = false ->
  match handler.UpdateEvent false fail_save (Some i) (Some b) d with
  | (status, None, d') =>
      status = handler.StatusInternalServerError /\ same_tables d d'
  | (status, Some updated, d') =>
      status = handler.StatusOK
      /\ fail_save = false
      /\ same_but_organizer (saved i b e) updated
      /\ events d' = <[i := updated]> (events d)
      /\ registrations d' = registrations d
      /\ users d ⊆ users d'
      /\ is_Some (users d' !! OrganizerID updated)
      /\ (handler.body_organizer b = None -> users d' = users d /\ updated = saved i b e)
  end.
Proof.
  intros Hne Hlive Href. rewrite UpdateEvent_cases, Hlive, Href.
  destruct (saved_ID i b e) as (Hid & _).
  pose proof (Save_event_live_cases fail_save d (saved i b e) e (handler.bind_organizer b))
    as Hcases.
  rewrite Hid in Hcases. specialize (Hcases Hne Hlive).
  destruct (gorm.Save_event _ _ _ _) as [[updated|err] d']; [|done].
  destruct Hcases as (Hf & Hsame & Hev & Hregs & Husers & Hfk & Hnone).
  split_and!; try done.
  intros Hn. apply Hnone. unfold handler.bind_organizer. by rewrite Hn.
Qed.

(** For a body with no organizer object, the update is answered 200
    exactly when the save does not fail and the organizer_id of the body
    is the key of a user. *)
Lemma UpdateEvent_foreign_key (fail_save : bool) (i : N) (b : handler.EventBody)
    (d : DB) (e : Event) :
  i <> 0%N ->
  live_event d i = Some e ->
  refused b e = false ->
  handler.body_organizer b = None ->
  fst (fst (handler.UpdateEvent false fail_save (Some i) (Some b) d)) = handler.StatusOK
  <-> fail_save = false /\ is_Some (users d !! handler.body_organizer_id b).
Proof.
  intros Hne Hlive Href Hn. rewrite UpdateEvent_cases, Hlive, Href.
  destruct (saved_ID i b e) as (Hid & _ & _ & Horg).
  pose proof (Save_event_foreign_key fail_save d (saved i b e) e) as Hfk.
  rewrite Hid, Horg in Hfk. specialize (Hfk Hne Hlive).
  unfold handler.bind_organizer. rewrite Hn. cbn [fmap option_fmap option_map].
  destruct (gorm.Save_event _ _ _ _) as [[updated|err] d']; cbn [fst] in *.
  - split; [|done]. intros _. apply Hfk. by eexists.
  - split; [done|]. intros H. apply Hfk in H as [? [=]].
Qed.

(** C9, as the code has it: a created event has as many free seats as its
    capacity; [RegisterForEvent] and [CancelRegistration] leave every event
    as it is or move the free seats of the event of the call by one (down
    for a registration, up for a cancellation); and an update that reduces
    the capacity of an event is refused when the new capacity is below
    capacity - available_seats, and otherwise, when the datastore accepts
    it, stores new capacity - (capacity - available_seats) as the free
    seats.  The datastore accepts an update with no organizer object
    exactly when its organizer_id is the key of a user. *)
Theorem seats_move_by_protocol (fail : bool) (body : option handler.EventBody)
    (rf : service.RegisterFaults) (cf : service.CancelFaults)
    (userID eventID : N) (b : handler.EventBody) (d : DB) :
  match handler.CreateEvent fail body d with
  | (_, Some created, d') =>
      AvailableSeats created = Capacity created
      /\ events d' !! Event_ID created = Some created
  | (_, None, d') => same_tables d d'
  end
  /\ (let d' := snd (service.RegisterForEvent rf userID eventID d) in
      events d' = events d
      \/ exists e, live_event d eventID = Some e /\ 0 < AvailableSeats e
           /\ events d' = <[eventID := decremented e]> (events d))
  /\ (let d' := snd (service.CancelRegistration cf userID eventID d) in
      events d' = events d
      \/ exists e, live_event d eventID = Some e
           /\ events d' = <[eventID := incremented e]> (events d))
  /\ match live_event d eventID with
     | Some existing =>
         let taken := int_sub (Capacity existing) (AvailableSeats existing) in
         if handler.body_capacity b <? Capacity existing
         then
           if handler.body_capacity b <? taken
           then handler.UpdateEvent false false (Some eventID) (Some b) d
                = (handler.StatusBadRequest, None, d)
           else
             eventID <> 0%N ->
             match handler.UpdateEvent false false (Some eventID) (Some b) d with
             | (status, Some updated, d') =>
                 status = handler.StatusOK
                 /\ live_event d' eventID = Some updated
                 /\ Capacity updated = handler.body_capacity b
                 /\ AvailableSeats updated = int_sub (handler.body_capacity b) taken
             | (status, None, d') =>
                 status = handler.StatusInternalServerError /\ same_tables d d'
             end
             /\ (handler.body_organizer b = None ->
                 fst (fst (handler.UpdateEvent false false (Some eventID) (Some b) d))
                 = handler.StatusOK
                 <-> is_Some (users d !! handler.body_organizer_id b))
         else True
     | None => True
     end.
Proof.
  split_and!.
  - unfold handler.CreateEvent. destruct body as [b0|]; [|apply same_tables_refl].
    destruct (Capacity (handler.bind_event b0) <=? 0); [apply same_tables_refl|].
    unfold service.CreateEvent, repository.Event_Create.
    match goal with
    | |- context [gorm.Create_event ?f ?d ?e ?o] =>
        pose proof (Create_event_cases f d e o) as Hcases;
        destruct (gorm.Create_event f d e o) as [[created|err] d']
    end; [|done].
    destruct Hcases as (_ & _ & Hev & _ & _ & _ & _ & Hc & Ha & _).
    cbn [Capacity AvailableSeats] in Hc, Ha. split; [congruence|].
    by rewrite Hev, lookup_insert_eq.
  - apply RegisterForEvent_events.
  - apply CancelRegistration_events.
  - destruct (live_event d eventID) as [existing|] eqn:Hlive; [|done].
    cbn zeta.
    destruct (handler.body_capacity b <? Capacity existing) eqn:Hlt; [|done].
    destruct (handler.body_capacity b <? int_sub _ _) eqn:Hcap.
    + rewrite UpdateEvent_cases, Hlive. unfold refused. by rewrite Hlt, Hcap.
    + intros Hne.
      assert (Href : refused b existing = false) by (unfold refused; by rewrite Hlt, Hcap).
      split.
      * pose proof (UpdateEvent_saves false eventID b d existing Hne Hlive Href) as Hs.
        destruct (handler.UpdateEvent _ _ _ _ _) as [[status [updated|]] d']; [|done].
        destruct Hs as (Hst & _ & (Hid & _ & Hc & Ha & Hdel) & Hev & _).
        unfold saved in Hc, Ha, Hdel. rewrite Hlt in Hc, Ha, Hdel.
        cbn [reduced Capacity AvailableSeats Event_DeletedAt] in Hc, Ha, Hdel.
        split_and!; try done.
        apply live_event_Some. by rewrite Hev, lookup_insert_eq.
      * intros Hn.
        rewrite (UpdateEvent_foreign_key false eventID b d existing) by done.
        split; [by intros [_ ?] | done].
Qed.

(** C9, as stated, fails: users 2 and 3 are registered for event 1, which
    has 8 of its 10 seats free; an update of the event to capacity 5 is
    accepted and leaves 3 free seats. *)
Lemma UpdateEvent_moves_seats_by_five :
  let d := snd (example.register 3 1 (snd (example.register 2 1 (example.db 10 10)))) in
  let body := handler.mkEventBody 0 "Tech Talk" 5 0 1 None in
  let d' := snd (handler.UpdateEvent false false (Some 1%N) (Some body) d) in
  live_count d 1 = 2
  /\ fst (fst (handler.UpdateEvent false false (Some 1%N) (Some body) d)) = handler.StatusOK
  /\ available_seats d 1 = Some 8
  /\ available_seats d' 1 = Some 3
  /\ ~ moved_by_one d d' 1.
Proof.
  vm_compute. split_and!; try done. intros [H|[H|H]]; discriminate H.
Qed.

(** ** What the seat accounting needs *)

(** The live registrations of the pair. *)
Lemma live_count_cancelled (userID eventID id : N) (d : DB) :
  live_count (with_registrations (cancelled_rows d userID eventID) d) id
  = live_count d id
    - (if decide (id = eventID)
       then Z.of_nat (length (List.filter (live_pair userID eventID) (registrations d)))
       else 0).
Proof.
  unfold live_count, cancelled_rows. cbn [registrations with_registrations].
  induction (registrations d) as [|r rs IH]; cbn [List.map List.filter length].
  - destruct (decide _); lia.
  - destruct (live_pair userID eventID r) eqn:Hpair.
    + assert (Hgone : live_for_event id (gorm.soft_delete r) = false).
      { unfold live_for_event. cbn. apply andb_false_r. }
      rewrite Hgone.
      unfold live_pair, same_pair in Hpair.
      apply andb_true_iff in Hpair as [Hpair Hlive].
      apply andb_true_iff in Hpair as [_ He]. apply N.eqb_eq in He.
      unfold live_for_event at 2. rewrite He, Hlive, andb_true_r.
      destruct (decide (id = eventID)) as [->|Hne].
      * rewrite N.eqb_refl. cbn [length]. lia.
      * destruct (N.eqb_spec eventID id); [congruence|]. lia.
    + destruct (live_for_event id r); cbn [length]; destruct (decide (id = eventID)); lia.
Qed.

(** A cancellation keeps capacity - available_seats equal to the number of
    live registrations exactly for a pair that holds one live registration:
    it takes as many registrations away as the pair has, and always gives
    one seat back. *)
Lemma CancelRegistration_accounting (userID eventID : N) (d : DB) (e : Event) :
  live_event d eventID = Some e ->
  Capacity e - AvailableSeats e = live_count d eventID ->
  let d' := snd (service.CancelRegistration service.no_cancel_faults userID eventID d) in
  live_event d' eventID = Some (incremented e)
  /\ Capacity (incremented e) - AvailableSeats (incremented e)
     = live_count d' eventID
       + Z.of_nat (length (List.filter (live_pair userID eventID) (registrations d)))
       - 1.
Proof.
  intros Hlive Hacc. cbn zeta. split; [by apply CancelRegistration_increments|].
  rewrite CancelRegistration_spec. cbn [snd]. rewrite Hlive.
  change (live_count (with_events ?ev ?d1) eventID) with (live_count d1 eventID).
  rewrite live_count_cancelled, decide_True by done.
  cbn [Capacity AvailableSeats incremented]. lia.
Qed.

(** A registration never takes a seat an event does not have, and leaves
    the free seats of every event within its capacity. *)
Lemma RegisterForEvent_seat_bounds (f : service.RegisterFaults) (userID eventID : N)
    (d : DB) :
  (forall id x, live_event d id = Some x -> 0 <= AvailableSeats x <= Capacity x) ->
  forall id x, live_event (snd (service.RegisterForEvent f userID eventID d)) id = Some x ->
    0 <= AvailableSeats x <= Capacity x.
Proof.
  intros Hbounds id x.
  destruct (RegisterForEvent_events f userID eventID d)
    as [Hsame|(e & Hlive & Hpos & Hev)]; unfold live_event in *.
  - rewrite Hsame. apply Hbounds.
  - rewrite Hev. destruct (decide (eventID = id)) as [<-|Hne].
    + rewrite lookup_insert_eq. cbn [Event_DeletedAt decremented].
      specialize (Hbounds eventID e Hlive).
      destruct (Event_DeletedAt e); [done|]. intros [= <-].
      cbn [AvailableSeats Capacity decremented]. lia.
    + rewrite lookup_insert_ne by done. apply Hbounds.
Qed.

(** A registration whose insert does not meet the uniqueness constraint
    keeps capacity - available_seats equal to the number of live
    registrations, for every event. *)
Lemma RegisterForEvent_accounting (userID eventID : N) (d : DB) :
  gorm.conflicts d userID eventID = false ->
  (forall id x, live_event d id = Some x ->
     Capacity x - AvailableSeats x = live_count d id) ->
  forall id x,
    live_event (snd (service.RegisterForEvent service.no_register_faults
                       userID eventID d)) id = Some x ->
    Capacity x - AvailableSeats x
    = live_count (snd (service.RegisterForEvent service.no_register_faults
                         userID eventID d)) id.
Proof.
  intros Hconf Hacc id x. rewrite RegisterForEvent_spec.
  destruct (live_user d userID); [|apply Hacc].
  destruct (List.find _ _); [apply Hacc|].
  destruct (live_event d eventID) as [e|] eqn:Hlive; [|apply Hacc].
  destruct (AvailableSeats e <=? 0); [apply Hacc|].
  cbn [snd]. unfold registered_state. rewrite Hconf.
  unfold live_event at 1. cbn [events with_events with_registrations
    with_registrations_id_seq].
  assert (Hcount : live_count
            (with_events (<[eventID := decremented e]> (events d))
               (with_registrations (registrations d ++ [new_registration d userID eventID])
                  (with_registrations_id_seq (registrations_id_seq d + 1) d))) id
          = live_count d id + (if decide (eventID = id) then 1 else 0)).
  { unfold live_count. cbn [registrations with_events with_registrations].
    rewrite List.filter_app, length_app. cbn [List.filter].
    unfold live_for_event at 2, new_registration.
    cbn [EventID Registration_DeletedAt].
    destruct (N.eqb_spec eventID id), (decide (eventID = id)); try done;
      cbn [andb negb length]; lia. }
  rewrite Hcount. destruct (decide (eventID = id)) as [<-|Hne].
  - rewrite lookup_insert_eq. cbn [Event_DeletedAt decremented].
    specialize (Hacc eventID e Hlive).
    apply live_event_Some in Hlive as [_ ->]. intros [= <-].
    cbn [AvailableSeats Capacity decremented]. lia.
  - rewrite lookup_insert_ne by done. intros Hx.
    specialize (Hacc id x Hx). lia.
Qed.

(** ** Concurrent registrations for one event *)

Lemma filter_length_insert {A : Type} (p : A -> bool) (l : list A) (i : nat) (x y : A) :
  l !! i = Some x ->
  Z.of_nat (length (List.filter p (<[i := y]> l))) + (if p x then 1 else 0)
  = Z.of_nat (length (List.filter p l)) + (if p y then 1 else 0).
Proof.
  revert i. induction l as [|a l IH]; intros [|i] H; simplify_eq/=.
  - destruct (p x), (p y); simpl; lia.
  - specialize (IH i H). destruct (p a); simpl; lia.
Qed.

Lemma count_move (p : Goroutine -> bool) (c : Config) (i : nat) (g : Goroutine)
    (d : DB) (l : option nat) (q : pc) :
  goroutines c !! i = Some g ->
  count p (move c i g d l q) + (if p g then 1 else 0)
  = count p c + (if p (mkGoroutine (userID g) q) then 1 else 0).
Proof. intros H. unfold count, move. cbn [goroutines]. by apply filter_length_insert. Qed.

Lemma userIDs_move (c : Config) (i : nat) (g : Goroutine) (d : DB) (l : option nat)
    (q : pc) :
  goroutines c !! i = Some g ->
  List.map userID (goroutines (move c i g d l q)) = List.map userID (goroutines c).
Proof.
  intros H. unfold move. cbn [goroutines].
  change (List.map userID) with (fmap (M:=list) userID).
  rewrite list_fmap_insert. cbn [userID].
  apply list_insert_id. by rewrite list_lookup_fmap, H.
Qed.

Lemma lookup_move (c : Config) (i j : nat) (g : Goroutine) (d : DB) (l : option nat)
    (q : pc) :
  goroutines c !! i = Some g ->
  goroutines (move c i g d l q) !! j
  = if decide (i = j) then Some (mkGoroutine (userID g) q) else goroutines c !! j.
Proof.
  intros H. unfold move. cbn [goroutines]. destruct (decide (i = j)) as [<-|Hne].
  - apply list_lookup_insert_eq. by eapply lookup_lt_Some.
  - by apply list_lookup_insert_ne.
Qed.

Lemma goroutine_ok_frame (c c' : Config) (i j : nat) (gj : Goroutine) :
  j <> i ->
  eventID c' = eventID c ->
  (lock c' = lock c /\ committed c' = committed c)
  \/ (lock c = None /\ lock c' = Some i /\ committed c' = committed c)
  \/ (lock c = Some i /\ lock c' = None /\ (free_seats c = 0 -> free_seats c' = 0)) ->
  goroutine_ok c j gj -> goroutine_ok c' j gj.
Proof.
  intros Hne He Hcase. unfold goroutine_ok, own_rows, free_seats.
  destruct Hcase as [[Hl Hd]|[(Hl & Hl' & Hd)|(Hl & Hl' & Hz)]].
  - rewrite Hl, Hd, He. done.
  - rewrite Hl, Hl', Hd, He.
    destruct (at_pc gj) as [| | | | | | |[]]; try (intros [[=] _]); try congruence;
      intros H; try split; try congruence; try apply H.
  - rewrite Hl, Hl'.
    destruct (at_pc gj) as [| | | | | | |[]]; try (intros [[=] _]); try congruence.
    intros (_ & -> & H0). split; [done|]. split; [done|]. by apply Hz.
Qed.

Section invariant.

Context (C : Z) (e : N) (U : gmap N User) (us : list N).
Hypothesis us_NoDup : NoDup us.
Hypothesis us_live :
  forall u, u ∈ us -> exists usr, U !! u = Some usr /\ User_DeletedAt usr = false.

Lemma Inv_move (c : Config) (i : nat) (g : Goroutine) (d : DB) (l : option nat) (q : pc) :
  Inv C e U us c ->
  goroutines c !! i = Some g ->
  registered g = false ->
  users d = U ->
  (exists ev, live_event d e = Some ev /\ Capacity ev = C /\ 0 <= AvailableSeats ev <= C) ->
  free_seats (move c i g d l q)
  = free_seats c - (if registered (mkGoroutine (userID g) q) then 1 else 0) ->
  (forall r, r ∈ registrations d -> EventID r = e ->
     r ∈ registrations (committed c)
     \/ (UserID r = userID g /\ registered (mkGoroutine (userID g) q) = true)) ->
  goroutine_ok (move c i g d l q) i (mkGoroutine (userID g) q) ->
  (forall j gj, j <> i -> goroutines c !! j = Some gj ->
     goroutine_ok c j gj -> goroutine_ok (move c i g d l q) j gj) ->
  (forall k, l = Some k -> k = i \/ lock c = Some k) ->
  Inv C e U us (move c i g d l q).
Proof.
  intros [He HU Hus Hev Hcount Hrows Hok Hlock] Hi Hreg HU' Hev' Hfree Hrows' Hoki
    Hframe Hl.
  split.
  - done.
  - done.
  - by rewrite userIDs_move.
  - done.
  - pose proof (count_move registered c i g d l q Hi) as Hc.
    rewrite Hreg in Hc. lia.
  - intros r Hr Her. cbn [committed move] in Hr.
    destruct (Hrows' r Hr Her) as [Hold|[Hu Hq]].
    + destruct (Hrows r Hold Her) as (j & gj & Hj & Huj & Hregj).
      exists j, gj. split; [|done]. rewrite lookup_move by done.
      destruct (decide (i = j)) as [<-|]; [|done]. congruence.
    + exists i, (mkGoroutine (userID g) q). split; [|done].
      rewrite lookup_move by done. by rewrite decide_True.
  - intros j gj. rewrite lookup_move by done.
    destruct (decide (i = j)) as [<-|Hne].
    + by intros [= <-].
    + intros Hj. apply Hframe; [done | done |]. by apply Hok.
  - intros k Hk. cbn [lock move] in Hk. rewrite lookup_move by done.
    destruct (decide (i = k)) as [<-|Hne]; [by eexists|].
    destruct (Hl k Hk) as [->|Hold]; [done|]. by apply Hlock.
Qed.

(** A goroutine of an invariant configuration runs for a live user. *)
Lemma Inv_user_live (c : Config) (i : nat) (g : Goroutine) :
  Inv C e U us c -> goroutines c !! i = Some g ->
  exists usr, live_user (committed c) (userID g) = Some usr.
Proof.
  intros HI Hi. destruct HI as [_ HU Hus _ _ _ _ _].
  assert (Hin : userID g ∈ us).
  { rewrite <- Hus. change (List.map userID) with (fmap (M:=list) userID).
    apply list_elem_of_fmap_2. by eapply list_elem_of_lookup_2. }
  destruct (us_live _ Hin) as (usr & Hu & Hdel).
  exists usr. unfold live_user. by rewrite HU, Hu, Hdel.
Qed.

(** A goroutine that has not returned finds no live registration of its
    user for the event. *)
Lemma Inv_not_registered (c : Config) (i : nat) (g : Goroutine) :
  Inv C e U us c -> goroutines c !! i = Some g -> registered g = false ->
  List.find (live_pair (userID g) (eventID c)) (registrations (committed c)) = None.
Proof.
  intros HI Hi Hreg.
  destruct (List.find _ _) as [r|] eqn:Hfind; [|done]. exfalso.
  apply find_some in Hfind as [Hin Hpair].
  apply list_elem_of_In in Hin.
  unfold live_pair, same_pair in Hpair.
  apply andb_true_iff in Hpair as [Hpair _].
  apply andb_true_iff in Hpair as [Hu He].
  apply N.eqb_eq in Hu. apply N.eqb_eq in He.
  destruct HI as [Heid _ Hus _ _ Hrows _ _].
  destruct (Hrows r Hin) as (j & gj & Hj & Huj & Hregj); [congruence|].
  assert (i = j) as <-.
  { apply (NoDup_lookup us i j (userID g)); [done | |].
    - rewrite <- Hus. change (List.map userID) with (fmap (M:=list) userID).
      by rewrite list_lookup_fmap, Hi.
    - rewrite <- Hus. change (List.map userID) with (fmap (M:=list) userID).
      rewrite list_lookup_fmap, Hj. cbn. congruence. }
  congruence.
Qed.

(** The free seats are those of the event of the invariant. *)
Lemma Inv_free_seats (c : Config) :
  Inv C e U us c ->
  exists ev, live_event (committed c) (eventID c) = Some ev
    /\ free_seats c = AvailableSeats ev /\ Capacity ev = C
    /\ 0 <= AvailableSeats ev <= C.
Proof.
  intros [He _ _ (ev & Hev & Hcap & Hrange) _ _ _ _].
  exists ev. unfold free_seats. rewrite He, Hev. done.
Qed.

(** A statement that changes neither the committed state nor the lock, or
    that takes the free lock, keeps the invariant. *)
Lemma Inv_move_quiet (c : Config) (i : nat) (g : Goroutine) (l : option nat) (q : pc) :
  Inv C e U us c ->
  goroutines c !! i = Some g ->
  registered g = false ->
  registered (mkGoroutine (userID g) q) = false ->
  l = lock c \/ (lock c = None /\ l = Some i) ->
  goroutine_ok (move c i g (committed c) l q) i (mkGoroutine (userID g) q) ->
  Inv C e U us (move c i g (committed c) l q).
Proof.
  intros HI Hi Hreg Hq Hl Hok.
  apply Inv_move; [done | done | done | apply HI | apply HI | | | done | |].
  - rewrite Hq. unfold free_seats. cbn [committed eventID move]. lia.
  - intros r Hr _. by left.
  - intros j gj Hne Hj. apply (goroutine_ok_frame c _ i); [done | done |].
    destruct Hl as [->|[Hnone ->]]; [by left | right; by left].
  - intros k Hk. destruct Hl as [->|[_ ->]]; [by right | left; congruence].
Qed.

(** The statement that ends the transaction of the lock holder [i] with a
    rollback keeps the invariant, if it returns [ErrEventFull] with no
    free seat. *)
Lemma Inv_move_rollback (c : Config) (i : nat) (g : Goroutine) (d1 : DB) :
  Inv C e U us c ->
  goroutines c !! i = Some g ->
  registered g = false ->
  lock c = Some i ->
  free_seats c = 0 ->
  Inv C e U us (move c i g (gorm.Rollback (gorm.mkTx (committed c) d1)) None
                     (Returned (Err ErrEventFull))).
Proof.
  intros HI Hi Hreg Hl Hfree.
  assert (Hsame : free_seats (move c i g (gorm.Rollback (gorm.mkTx (committed c) d1)) None
                                (Returned (Err ErrEventFull))) = free_seats c) by done.
  apply Inv_move; [done | done | done | apply HI | apply HI | | | | | done].
  - rewrite Hsame. cbn. lia.
  - intros r Hr _. by left.
  - unfold goroutine_ok. cbn [at_pc]. rewrite Hsame. split; [done|]. by split.
  - intros j gj Hne Hj. apply (goroutine_ok_frame c _ i); [done | done |].
    right; right. by rewrite Hsame.
Qed.

(** Every statement of every goroutine keeps the invariant. *)
Lemma Inv_step (i : nat) (c : Config) : Inv C e U us c -> Inv C e U us (step i c).
Proof.
  intros HI. unfold step.
  destruct (goroutines c !! i) as [g|] eqn:Hi; [|done].
  pose proof (inv_goroutines _ _ _ _ _ HI i g Hi) as Hg.
  unfold goroutine_ok in Hg.
  destruct (Inv_free_seats c HI) as (ev & Hev & Hfree & Hcap & Hrange).
  destruct (at_pc g) as [| | |tx event|tx|tx r|tx r|res] eqn:Hpc.
  - (* userRepo.FindByID *)
    assert (Hreg : registered g = false) by (unfold registered; by rewrite Hpc).
    destruct (Inv_user_live c i g HI Hi) as [usr Husr].
    unfold repository.User_FindByID, gorm.First_user. rewrite Husr.
    apply Inv_move_quiet; [done | done | done | done | by left | done].
  - (* the duplicate check *)
    assert (Hreg : registered g = false) by (unfold registered; by rewrite Hpc).
    unfold gorm.First_registration.
    rewrite (Inv_not_registered c i g HI Hi Hreg).
    destruct (decide (ErrRecordNotFound <> ErrRecordNotFound)); [done|].
    apply Inv_move_quiet; [done | done | done | done | by left | done].
  - (* SELECT ... FOR UPDATE *)
    assert (Hreg : registered g = false) by (unfold registered; by rewrite Hpc).
    destruct (lock c) eqn:Hl; [done|].
    unfold repository.FindByIDForUpdate, gorm.First_event.
    cbn [gorm.tx_db gorm.Begin]. rewrite Hev.
    apply Inv_move_quiet; [done | done | done | done | by right |].
    unfold goroutine_ok. cbn [at_pc lock committed eventID move]. done.
  - (* the seat check *)
    assert (Hreg : registered g = false) by (unfold registered; by rewrite Hpc).
    destruct Hg as (Hl & -> & Hev').
    assert (event = ev) as -> by congruence.
    destruct (AvailableSeats ev <=? 0) eqn:Hle.
    + apply Z.leb_le in Hle.
      apply Inv_move_rollback; [done | done | done | done | lia].
    + apply Z.leb_gt in Hle.
      apply Inv_move_quiet; [done | done | done | done | by left |].
      unfold goroutine_ok, free_seats. cbn [at_pc lock committed eventID move].
      rewrite Hev. split_and!; [done | done | lia].
  - (* the insert *)
    assert (Hreg : registered g = false) by (unfold registered; by rewrite Hpc).
    destruct Hg as (Hl & -> & Hpos).
    unfold gorm.Create_registration_OnConflictDoNothing.
    cbn [gorm.tx_db gorm.tx_begin gorm.Begin UserID EventID Registration_DeletedAt].
    destruct (gorm.conflicts _ _ _);
      (apply Inv_move_quiet; [done | done | done | done | by left |]);
      unfold goroutine_ok, free_seats, own_rows in *;
      cbn [at_pc lock committed eventID move gorm.tx_db gorm.tx_begin userID];
      (split_and!; [done | done | done | done | done |]).
    + intros r' Hr'. by left.
    + intros r' Hr'. cbn [registrations with_registrations] in Hr'.
      apply elem_of_app in Hr' as [Hr'|Hr']; [by left|].
      apply list_elem_of_singleton in Hr' as ->. by right.
  - (* the conditional decrement *)
    assert (Hreg : registered g = false) by (unfold registered; by rewrite Hpc).
    destruct Hg as (Hl & Hbegin & Hpos & Hevents & Husers & Hown).
    rewrite Update_decrement_spec.
    assert (Hlive : live_event (gorm.tx_db tx) (eventID c) = Some ev).
    { unfold live_event in *. by rewrite Hevents. }
    rewrite Hlive.
    assert (Hlt : (0 <? AvailableSeats ev) = true) by (apply Z.ltb_lt; lia).
    rewrite Hlt. cbn [Z.eqb].
    apply Inv_move_quiet; [done | done | done | done | by left |].
    unfold goroutine_ok, free_seats, own_rows in *.
    cbn [at_pc lock committed eventID move gorm.tx_db gorm.tx_begin userID].
    rewrite Hev. split_and!; [done | done | lia | | done | done].
    exists ev. split; [done|]. cbn [events with_events]. by rewrite Hevents.
  - (* the commit *)
    assert (Hreg : registered g = false) by (unfold registered; by rewrite Hpc).
    destruct Hg as (Hl & Hbegin & Hpos & (ev' & Hev' & Hevents) & Husers & Hown).
    assert (ev' = ev) as -> by congruence.
    unfold gorm.Commit.
    assert (Hlive : live_event (gorm.tx_db tx) (eventID c) = Some (decremented ev)).
    { apply live_event_Some. rewrite Hevents, lookup_insert_eq.
      split; [done|]. by apply live_event_Some in Hev as [_ ?]. }
    assert (Heid : eventID c = e) by apply HI.
    apply Inv_move; [done | done | done | | | | | | | done].
    + rewrite Husers. apply HI.
    + exists (decremented ev). rewrite <- Heid. split; [done|].
      cbn [Capacity AvailableSeats decremented]. lia.
    + unfold free_seats at 1. cbn [committed eventID move registered at_pc].
      rewrite Hlive. cbn [AvailableSeats decremented]. lia.
    + intros r' Hr' _. destruct (Hown r' Hr') as [?|?]; [by left | by right].
    + unfold goroutine_ok. cbn [at_pc lock move]. done.
    + intros j gj Hne Hj. apply (goroutine_ok_frame c _ i); [done | done |].
      right; right. split; [done|]. split; [done|]. lia.
  - done.
Qed.

Lemma Inv_run (schedule : list nat) (c : Config) :
  Inv C e U us c -> Inv C e U us (run schedule c).
Proof.
  revert c. induction schedule as [|i schedule IH]; intros c HI; [done|].
  cbn [run]. apply IH. by apply Inv_step.
Qed.

End invariant.

(** The invariant holds when the goroutines start against a fresh event. *)
Lemma Inv_init (d : DB) (e : N) (ev : Event) (us : list N) :
  live_event d e = Some ev ->
  AvailableSeats ev = Capacity ev ->
  0 <= Capacity ev ->
  (forall r, r ∈ registrations d -> EventID r <> e) ->
  Inv (Capacity ev) e (users d) us (init d e us).
Proof.
  intros Hev Hfresh Hcap Hrows. unfold init. split; cbn [eventID committed goroutines lock].
  - done.
  - done.
  - rewrite List.map_map. cbn [userID]. apply List.map_id.
  - exists ev. split; [done|]. lia.
  - unfold count, free_seats. cbn [goroutines committed eventID]. rewrite Hev.
    replace (List.filter registered _) with (@nil Goroutine); [cbn; lia|].
    induction us as [|u us IH]; [done|]. cbn. exact IH.
  - intros r Hr He. by destruct (Hrows r Hr).
  - intros j g Hj. change (List.map ?f us) with (f <$> us) in Hj.
    rewrite list_lookup_fmap in Hj. destruct (us !! j); [|done].
    injection Hj as <-. unfold goroutine_ok. cbn [at_pc lock]. done.
  - done.
Qed.

(** *** Every configuration can be completed *)

Lemma solo_move (c : Config) (j : nat) (g : Goroutine) (d : DB) (l : option nat) (q : pc)
    (n : nat) :
  solo c j ->
  goroutines c !! j = Some g ->
  (if holds_row_lock q then l = Some j else l = None) ->
  (remaining q < n)%nat ->
  solo (move c j g d l q) j
  /\ (exists g', goroutines (move c j g d l q) !! j = Some g'
        /\ (remaining (at_pc g') < n)%nat)
  /\ (forall k, k <> j ->
        goroutines (move c j g d l q) !! k = goroutines c !! k).
Proof.
  intros (Hothers & Hj & Hlen) Hg Hl Hlt. split_and!.
  - split_and!.
    + intros k gk Hne. rewrite lookup_move by done.
      rewrite decide_False by done. by apply Hothers.
    + intros g'. rewrite lookup_move by done. rewrite decide_True by done.
      intros [= <-]. cbn [at_pc lock move]. done.
    + left. unfold move. cbn [goroutines]. rewrite length_insert.
      by eapply lookup_lt_Some.
  - eexists. rewrite lookup_move by done. rewrite decide_True by done.
    split; [done|]. done.
  - intros k Hne. rewrite lookup_move by done. by rewrite decide_False.
Qed.

(** A statement of the only goroutine that may hold the lock makes
    progress, and leaves the other goroutines where they are. *)
Lemma solo_step (c : Config) (j : nat) (g : Goroutine) :
  solo c j ->
  goroutines c !! j = Some g ->
  returned g = false ->
  solo (step j c) j
  /\ (exists g', goroutines (step j c) !! j = Some g'
        /\ (remaining (at_pc g') < remaining (at_pc g))%nat)
  /\ (forall k, k <> j -> goroutines (step j c) !! k = goroutines c !! k).
Proof.
  intros Hsolo Hg Hret.
  pose proof Hsolo as (_ & Hj & _). specialize (Hj g Hg).
  unfold step. rewrite Hg. unfold returned in Hret.
  destruct (at_pc g) as [| | |tx event|tx|tx r|tx r|res] eqn:Hpc; cbn in Hj.
  - destruct (repository.User_FindByID _ _ _); [|destruct (decide _)];
      apply solo_move; try done; cbn; lia.
  - destruct (gorm.First_registration _ _ _ _); [|destruct (decide _)];
      apply solo_move; try done; cbn; lia.
  - rewrite Hj.
    destruct (repository.FindByIDForUpdate _ _ _); [|destruct (decide _)];
      apply solo_move; try done; cbn; lia.
  - destruct (AvailableSeats event <=? 0);
      apply solo_move; try done; cbn; lia.
  - destruct (gorm.Create_registration_OnConflictDoNothing _ _ _) as [[d1 r1]|];
      apply solo_move; try done; cbn; lia.
  - destruct (gorm.Update_available_seats _ _ _ _ _) as [[d2 rows]|];
      [destruct (rows =? 0)|];
      apply solo_move; try done; cbn; lia.
  - destruct (gorm.Commit false tx) as [[err|] d3];
      apply solo_move; try done; cbn; lia.
  - done.
Qed.

Lemma run_app (s1 s2 : list nat) (c : Config) : run (s1 ++ s2) c = run s2 (run s1 c).
Proof. revert c. induction s1 as [|i s1 IH]; intros c; [done|]. cbn. apply IH. Qed.

Lemma step_returned (c : Config) (j : nat) (g : Goroutine) :
  goroutines c !! j = Some g -> returned g = true -> step j c = c.
Proof.
  intros Hg Hret. unfold step. rewrite Hg. unfold returned in Hret.
  by destruct (at_pc g).
Qed.

Lemma remaining_0 (g : Goroutine) : remaining (at_pc g) = 0%nat -> returned g = true.
Proof. unfold returned. by destruct (at_pc g). Qed.

(** Running the only goroutine that may hold the lock, for as many
    statements as it has left, makes it return. *)
Lemma solo_finish (n : nat) (c : Config) (j : nat) (g : Goroutine) :
  solo c j ->
  goroutines c !! j = Some g ->
  (remaining (at_pc g) <= n)%nat ->
  solo (run (repeat j n) c) j
  /\ (exists g', goroutines (run (repeat j n) c) !! j = Some g' /\ returned g' = true)
  /\ (forall k, k <> j -> goroutines (run (repeat j n) c) !! k = goroutines c !! k).
Proof.
  revert c g. induction n as [|n IH]; intros c g Hsolo Hg Hn.
  - cbn. split_and!; [done | | done]. exists g. split; [done|].
    apply remaining_0. lia.
  - cbn [repeat run]. destruct (returned g) eqn:Hret.
    + rewrite (step_returned c j g) by done. apply (IH c g); [done | done |].
      unfold returned in Hret. destruct (at_pc g); try done. cbn. lia.
    + destruct (solo_step c j g Hsolo Hg Hret) as (Hsolo' & (g' & Hg' & Hlt) & Hframe).
      destruct (IH (step j c) g' Hsolo' Hg') as (H1 & H2 & H3); [lia|].
      split_and!; [done | done |].
      intros k Hne. rewrite H3 by done. by apply Hframe.
Qed.

Lemma remaining_le (p : pc) : (remaining p <= 7)%nat.
Proof. destruct p; cbn; lia. Qed.

Lemma quiescent_solo (c : Config) (j : nat) : quiescent c -> solo c j.
Proof.
  intros [Hl Hq]. split_and!.
  - intros k gk _. apply Hq.
  - intros g Hg. by rewrite (Hq j g Hg).
  - by right.
Qed.

Lemma solo_quiescent (c : Config) (j : nat) (g : Goroutine) :
  solo c j -> goroutines c !! j = Some g -> returned g = true -> quiescent c.
Proof.
  intros (Hothers & Hj & _) Hg Hret.
  assert (Hin : holds_row_lock (at_pc g) = false).
  { unfold returned in Hret. by destruct (at_pc g). }
  split.
  - specialize (Hj g Hg). by rewrite Hin in Hj.
  - intros k gk Hk. destruct (decide (k = j)) as [->|Hne]; [congruence|].
    by apply (Hothers k gk).
Qed.

Lemma one_by_one_S (m : nat) : one_by_one (S m) = one_by_one m ++ repeat m 7.
Proof.
  unfold one_by_one. rewrite seq_S, List.map_app, concat_app. cbn [List.map concat].
  by rewrite app_nil_r.
Qed.

Lemma quiescent_one_by_one (m : nat) (c : Config) :
  quiescent c ->
  (m <= length (goroutines c))%nat ->
  quiescent (run (one_by_one m) c)
  /\ (forall k, (k < m)%nat ->
        exists g, goroutines (run (one_by_one m) c) !! k = Some g /\ returned g = true)
  /\ (forall k, (m <= k)%nat ->
        goroutines (run (one_by_one m) c) !! k = goroutines c !! k).
Proof.
  intros Hq. induction m as [|m IH]; intros Hm.
  - cbn. split_and!; [done | lia | done].
  - destruct IH as (Hq1 & Hdone & Hrest); [lia|].
    rewrite one_by_one_S, run_app.
    set (c1 := run (one_by_one m) c) in *.
    destruct (lookup_lt_is_Some_2 (goroutines c) m) as [g0 Hg0]; [lia|].
    assert (Hg : goroutines c1 !! m = Some g0) by (rewrite Hrest; [done | lia]).
    destruct (solo_finish 7 c1 m g0 (quiescent_solo c1 m Hq1) Hg (remaining_le _))
      as (Hsolo & (g' & Hg' & Hret) & Hframe).
    split_and!.
    + by apply (solo_quiescent _ m g').
    + intros k Hk. destruct (decide (k = m)) as [->|Hne]; [by exists g'|].
      rewrite Hframe by done. apply Hdone. lia.
    + intros k Hk. rewrite Hframe by lia. apply Hrest. lia.
Qed.

Lemma quiescent_complete (c : Config) :
  quiescent c -> exists completion, all_returned (run completion c) = true.
Proof.
  intros Hq. exists (one_by_one (length (goroutines c))).
  destruct (quiescent_one_by_one (length (goroutines c)) c Hq) as (_ & Hdone & Hrest);
    [lia|].
  unfold all_returned. apply forallb_forall. intros g Hin.
  apply list_elem_of_In, list_elem_of_lookup in Hin as [k Hk].
  destruct (decide (k < length (goroutines c))%nat) as [Hlt|Hge].
  - destruct (Hdone k Hlt) as (g' & Hg' & Hret). congruence.
  - rewrite Hrest in Hk by lia. apply lookup_lt_Some in Hk. lia.
Qed.

(** From a configuration of the invariant, the holder of the lock first and
    then every goroutine in turn can run to its return. *)
Lemma Inv_complete (C : Z) (e : N) (U : gmap N User) (us : list N) (c : Config) :
  Inv C e U us c -> exists completion, all_returned (run completion c) = true.
Proof.
  intros HI.
  assert (Htx : forall k gk, goroutines c !! k = Some gk ->
                  holds_row_lock (at_pc gk) = true -> lock c = Some k).
  { intros k gk Hk Hin. pose proof (inv_goroutines _ _ _ _ _ HI k gk Hk) as Hok.
    unfold goroutine_ok in Hok. destruct (at_pc gk); try done; apply Hok. }
  destruct (lock c) as [h|] eqn:Hl.
  - destruct (inv_lock _ _ _ _ _ HI h Hl) as [g Hg].
    assert (Hsolo : solo c h).
    { split_and!.
      - intros k gk Hne Hk. destruct (holds_row_lock (at_pc gk)) eqn:Hin; [|done].
        specialize (Htx k gk Hk Hin). congruence.
      - intros g' Hg'. destruct (holds_row_lock (at_pc g')) eqn:Hin; [done|].
        pose proof (inv_goroutines _ _ _ _ _ HI h g' Hg') as Hok.
        unfold goroutine_ok in Hok. rewrite Hl in Hok.
        destruct (at_pc g') as [| | | | | | |[]]; try done; by destruct Hok.
      - left. by eapply lookup_lt_Some. }
    destruct (solo_finish 7 c h g Hsolo Hg (remaining_le _))
      as (Hsolo' & (g' & Hg' & Hret) & _).
    destruct (quiescent_complete (run (repeat h 7) c)) as [s Hs].
    { by apply (solo_quiescent _ h g'). }
    exists (repeat h 7 ++ s). by rewrite run_app.
  - apply quiescent_complete. split; [done|].
    intros k gk Hk. destruct (holds_row_lock (at_pc gk)) eqn:Hin; [|done].
    specialize (Htx k gk Hk Hin). congruence.
Qed.

(** *** The outcomes of the calls *)

Lemma outcomes_partition (l : list Goroutine) :
  Forall (fun g => registered g = true \/ event_full g = true) l ->
  (length (List.filter registered l) + length (List.filter event_full l))%nat = length l.
Proof.
  induction 1 as [|g l Hg _ IH]; [done|].
  cbn [List.filter]. unfold registered, event_full in *.
  destruct (at_pc g) as [| | | | | | |[?|[]]]; cbn [length]; destruct Hg; try done; lia.
Qed.

Lemma Inv_outcomes (C : Z) (e : N) (U : gmap N User) (us : list N) (c : Config) :
  Inv C e U us c ->
  all_returned c = true ->
  Forall (fun g => registered g = true \/ (event_full g = true /\ free_seats c = 0))
         (goroutines c).
Proof.
  intros HI Hall. apply Forall_forall. intros g Hin.
  unfold all_returned in Hall.
  pose proof (proj1 (forallb_forall _ _) Hall g (proj1 (list_elem_of_In _ _) Hin)) as Hret.
  apply list_elem_of_lookup in Hin as [k Hk].
  pose proof (inv_goroutines _ _ _ _ _ HI k g Hk) as Hok.
  unfold goroutine_ok in Hok. unfold returned, registered, event_full in *.
  destruct (at_pc g) as [| | | | | | |[?|err]]; try done; [by left|].
  destruct Hok as (_ & -> & Hfree). by right.
Qed.

(** C1: [N] goroutines call [RegisterForEvent] for [N] distinct live users
    against one fresh event of capacity [C] < [N], their statements
    interleaved in any order, no datastore call failing.  From every
    configuration they reach, the calls can all run to their return; and
    once all have returned, exactly [C] of them have returned a
    registration, exactly [N - C] have returned [ErrEventFull], none has
    returned anything else, and the event has no free seat. *)
Theorem concurrent_registrations (d : DB) (e : N) (ev : Event) (us : list N)
    (schedule : list nat) :
  live_event d e = Some ev ->
  AvailableSeats ev = Capacity ev ->
  0 <= Capacity ev ->
  Forall (fun r => EventID r <> e) (registrations d) ->
  NoDup us ->
  Forall (fun u => is_Some (live_user d u)) us ->
  Capacity ev < Z.of_nat (length us) ->
  let c := run schedule (init d e us) in
  (exists completion, all_returned (run completion c) = true)
  /\ (all_returned c = true ->
      count registered c = Capacity ev
      /\ count event_full c = Z.of_nat (length us) - Capacity ev
      /\ Forall (fun g => registered g = true \/ event_full g = true) (goroutines c)
      /\ available_seats (committed c) e = Some 0).
Proof.
  intros Hev Hfresh Hcap Hrows Hnodup Hlive Hmore c.
  assert (HI : Inv (Capacity ev) e (users d) us c).
  { apply Inv_run; [done | |].
    - intros u Hu. rewrite Forall_forall in Hlive. destruct (Hlive u Hu) as [usr Husr].
      unfold live_user in Husr. destruct (users d !! u) as [usr'|]; [|done].
      exists usr'. split; [done|]. by destruct (User_DeletedAt usr').
    - apply Inv_init; [done | done | done |].
      intros r Hr. rewrite Forall_forall in Hrows. by apply Hrows. }
  split; [by eapply Inv_complete|].
  intros Hall.
  pose proof (Inv_outcomes _ _ _ _ _ HI Hall) as Hout.
  assert (Hpart : Forall (fun g => registered g = true \/ event_full g = true)
                         (goroutines c)).
  { eapply Forall_impl; [exact Hout|]. intros g [?|[? _]]; auto. }
  pose proof (outcomes_partition _ Hpart) as Hsum.
  assert (Hlen : length (goroutines c) = length us).
  { rewrite <- (inv_userIDs _ _ _ _ _ HI). by rewrite List.length_map. }
  pose proof (inv_count _ _ _ _ _ HI) as Hcount.
  destruct (Inv_free_seats _ _ _ _ c HI) as (ev' & Hev' & Hfree & Hcap' & Hrange).
  pose proof (inv_eventID _ _ _ _ _ HI) as Heid.
  assert (Hzero : free_seats c = 0).
  { destruct (decide (free_seats c = 0)) as [|Hne]; [done|]. exfalso.
    assert (Hallreg : Forall (fun g => registered g = true) (goroutines c)).
    { eapply Forall_impl; [exact Hout|]. intros g [?|[_ ?]]; [done | contradiction]. }
    assert (Hfull : length (List.filter registered (goroutines c))
                    = length (goroutines c)).
    { clear -Hallreg. induction Hallreg as [|g l Hg _ IH]; [done|].
      cbn [List.filter]. rewrite Hg. cbn [length]. lia. }
    unfold count in Hcount. lia. }
  unfold count in *. split_and!; [lia | lia | done |].
  unfold available_seats. rewrite <- Heid, Hev'. cbn. congruence.
Qed.

Lemma concurrent_registrations_witness :
  let c := run (concat (repeat [0; 1; 2]%nat 17)) (init (example.db 2 2) 1 [1; 2; 3]%N) in
  all_returned c = true
  /\ count registered c = 2
  /\ count event_full c = 1
  /\ available_seats (committed c) 1 = Some 0.
Proof.
  cbn zeta.
  assert (Hev : live_event (example.db 2 2) 1 = Some (example.tech_talk 2 2))
    by (vm_compute; reflexivity).
  assert (Hfresh : AvailableSeats (example.tech_talk 2 2) = Capacity (example.tech_talk 2 2))
    by reflexivity.
  assert (Hcap : 0 <= Capacity (example.tech_talk 2 2)) by (vm_compute; discriminate).
  assert (Hrows : Forall (fun r => EventID r <> 1%N) (registrations (example.db 2 2)))
    by (apply (bool_decide_unpack _); vm_compute; exact I).
  assert (Hnodup : NoDup [1; 2; 3]%N)
    by (apply (bool_decide_unpack _); vm_compute; exact I).
  assert (Hlive : Forall (fun u => is_Some (live_user (example.db 2 2) u)) [1; 2; 3]%N)
    by (apply (bool_decide_unpack _); vm_compute; exact I).
  assert (Hmore : Capacity (example.tech_talk 2 2) < Z.of_nat (length [1; 2; 3]%N))
    by (vm_compute; reflexivity).
  assert (Hall : all_returned
                   (run (concat (repeat [0; 1; 2]%nat 17))
                        (init (example.db 2 2) 1 [1; 2; 3]%N)) = true)
    by (vm_compute; reflexivity).
  destruct (concurrent_registrations _ _ _ _ (concat (repeat [0; 1; 2]%nat 17))
              Hev Hfresh Hcap Hrows Hnodup Hlive Hmore) as [_ Hdone].
  destruct (Hdone Hall) as (Hreg & Hfull & _ & Hseats).
  split; [exact Hall|]. split; [exact Hreg|]. split; [exact Hfull|]. exact Hseats.
Defined.

(** *** One goroutine alone *)

Lemma run_returned (n : nat) (c : Config) (j : nat) (g : Goroutine) :
  goroutines c !! j = Some g -> returned g = true -> run (repeat j n) c = c.
Proof.
  intros Hg Hret. induction n as [|n IH]; [done|].
  cbn [repeat run]. by rewrite (step_returned c j g).
Qed.

Lemma run_cons (i : nat) (s : list nat) (c : Config) : run (i :: s) c = run s (step i c).
Proof. done. Qed.

(** The next statement of goroutine 0, with the configuration it leaves. *)
Ltac next_statement :=
  rewrite run_cons; unfold step at 1;
  cbn [goroutines lookup list_lookup at_pc userID committed eventID lock].

Ltac moved :=
  unfold move;
  cbn [userID goroutines lock eventID committed insert list_insert fst snd
       gorm.tx_db gorm.tx_begin gorm.Begin].

(** X23: A goroutine that runs alone does what [RegisterForEvent] does. *)
Lemma alone_is_RegisterForEvent (d : DB) (e u : N) :
  run (repeat 0%nat 7) (init d e [u])
  = mkConfig (snd (service.RegisterForEvent service.no_register_faults u e d)) e None
      [mkGoroutine u (Returned (fst (service.RegisterForEvent
                                       service.no_register_faults u e d)))].
Proof.
  rewrite RegisterForEvent_spec.
  unfold init. cbn [repeat List.map].
  next_statement. unfold repository.User_FindByID, gorm.First_user.
  destruct (live_user d u) as [usr|] eqn:Hu.
  2:{ rewrite decide_True by done. moved.
      by apply (run_returned 6 _ 0%nat (mkGoroutine u (Returned (Err ErrUserNotFound)))). }
  moved. next_statement. unfold gorm.First_registration.
  destruct (List.find _ _) as [r|] eqn:Hfind.
  { moved.
    by apply (run_returned 5 _ 0%nat
                (mkGoroutine u (Returned (Err ErrAlreadyRegistered)))). }
  destruct (decide (ErrRecordNotFound <> ErrRecordNotFound)); [done|].
  moved. next_statement.
  unfold repository.FindByIDForUpdate, gorm.First_event. cbn [gorm.tx_db gorm.Begin].
  destruct (live_event d e) as [ev|] eqn:Hev.
  2:{ rewrite decide_True by done. rewrite Rollback_Begin. moved.
      by apply (run_returned 4 _ 0%nat (mkGoroutine u (Returned (Err ErrEventNotFound)))). }
  moved. next_statement.
  destruct (AvailableSeats ev <=? 0) eqn:Hle.
  { change (gorm.mkTx d d) with (gorm.Begin d). rewrite Rollback_Begin. moved.
    by apply (run_returned 3 _ 0%nat (mkGoroutine u (Returned (Err ErrEventFull)))). }
  apply Z.leb_gt in Hle.
  moved. next_statement.
  unfold gorm.Create_registration_OnConflictDoNothing.
  cbn [gorm.tx_db gorm.tx_begin gorm.Begin UserID EventID Registration_DeletedAt].
  assert (Hpos : (0 <? AvailableSeats ev) = true) by (apply Z.ltb_lt; lia).
  unfold registered_state, new_registration.
  destruct (gorm.conflicts d u e);
    cbv beta iota zeta; moved; next_statement;
    cbn [gorm.tx_db gorm.tx_begin];
    rewrite Update_decrement_spec; unfold live_event in *;
    cbn [events with_events with_registrations with_registrations_id_seq];
    rewrite Hev; rewrite Hpos; cbn [Z.eqb];
    moved; next_statement; cbn [gorm.tx_db gorm.tx_begin gorm.Commit];
    moved; reflexivity.
Qed.

(** * Further properties of the packages *)

(** ** [RegisterForEvent] *)

(** Goals that compare an outcome with the facts it depends on. *)
Ltac outcome_cases :=
  repeat apply conj; intros;
  repeat match goal with
         | H : _ /\ _ |- _ => destruct H
         | H : exists _, _ |- _ => destruct H
         | H : Some _ = Some _ |- _ => injection H as ?; subst
         end;
  try discriminate;
  try (exfalso; match goal with H : ~ _ |- _ => apply H; eauto end; fail);
  try lia;
  repeat first [apply conj | eexists];
  first [eassumption | reflexivity | lia
        | intros [? ?]; discriminate | intros [? [? ?]]; discriminate ].

(** X1: The outcome of [RegisterForEvent] when no datastore call fails: the
    checks are made in the order user, duplicate, event, seats, so that a
    user who holds a live registration gets [ErrAlreadyRegistered] also for
    an event that is full or deleted; the call returns a registration if
    and only if the user is live, holds no live registration for the event,
    and the event is live with a free seat. *)
Theorem RegisterForEvent_outcome (userID eventID : N) (d : DB) :
  let out := fst (service.RegisterForEvent service.no_register_faults userID eventID d) in
  let known := is_Some (live_user d userID) in
  let registered := is_Some (List.find (live_pair userID eventID) (registrations d)) in
  (out = Err ErrUserNotFound <-> ~ known)
  /\ (out = Err ErrAlreadyRegistered <-> known /\ registered)
  /\ (out = Err ErrEventNotFound
      <-> known /\ ~ registered /\ live_event d eventID = None)
  /\ (out = Err ErrEventFull
      <-> known /\ ~ registered
          /\ exists e, live_event d eventID = Some e /\ AvailableSeats e <= 0)
  /\ ((exists r, out = Ok r)
      <-> known /\ ~ registered
          /\ exists e, live_event d eventID = Some e /\ 0 < AvailableSeats e).
Proof.
  cbn zeta. rewrite RegisterForEvent_spec. unfold is_Some.
  destruct (live_user d userID) as [u|]; cbn [fst]; [|outcome_cases].
  destruct (List.find _ _) as [r|]; cbn [fst]; [outcome_cases|].
  destruct (live_event d eventID) as [e|]; cbn [fst]; [|outcome_cases].
  destruct (AvailableSeats e <=? 0) eqn:Hle; cbn [fst];
    [apply Z.leb_le in Hle | apply Z.leb_gt in Hle]; outcome_cases.
Qed.

Lemma accounting_live (d : DB) :
  accounting d
  <-> forall id x, live_event d id = Some x ->
        Capacity x - AvailableSeats x = live_count d id.
Proof.
  unfold accounting. rewrite map_Forall_lookup. split.
  - intros H id x Hx. apply live_event_Some in Hx as [Hx Hdel]. by apply (H id x).
  - intros H id x Hx Hdel. apply H. by apply live_event_Some.
Qed.

(** X2: [RegisterForEvent], whatever it returns and whichever datastore call
    fails, leaves the free seats of every event between 0 and its capacity
    if they were: it never takes a seat that an event does not have. *)
Theorem RegisterForEvent_keeps_seat_bounds (f : service.RegisterFaults)
    (userID eventID : N) (d : DB) :
  seat_bounds d ->
  seat_bounds (snd (service.RegisterForEvent f userID eventID d)).
Proof.
  unfold seat_bounds. intros Hb.
  destruct (RegisterForEvent_events f userID eventID d)
    as [->|(e & Hlive & Hpos & ->)]; [done|].
  apply map_Forall_insert_2; [|done].
  apply live_event_Some in Hlive as [Hlive _].
  pose proof (map_Forall_lookup_1 _ _ _ _ Hb Hlive) as He.
  cbn [AvailableSeats Capacity decremented] in *. lia.
Qed.

Lemma RegisterForEvent_keeps_seat_bounds_witness :
  seat_bounds (example.db 10 1)
  /\ seat_bounds (snd (example.register 2 1 (example.db 10 1)))
  /\ available_seats (snd (example.register 2 1 (example.db 10 1))) 1 = Some 0.
Proof.
  assert (H : seat_bounds (example.db 10 1))
    by (apply (bool_decide_unpack _); vm_compute; exact I).
  split; [exact H|]. split.
  - exact (RegisterForEvent_keeps_seat_bounds service.no_register_faults 2 1 _ H).
  - vm_compute. reflexivity.
Defined.

(** X3: A [RegisterForEvent] whose insert does not meet the uniqueness
    constraint keeps, for every live event, capacity - available_seats
    equal to the number of live registrations of the event. *)
Theorem RegisterForEvent_keeps_accounting (userID eventID : N) (d : DB) :
  gorm.conflicts d userID eventID = false ->
  accounting d ->
  accounting (snd (service.RegisterForEvent service.no_register_faults userID eventID d)).
Proof.
  intros Hconf Hacc. apply accounting_live.
  apply RegisterForEvent_accounting; [done|]. by apply accounting_live.
Qed.

Lemma RegisterForEvent_keeps_accounting_witness :
  accounting (example.db 10 10)
  /\ accounting (snd (example.register 2 1 (example.db 10 10)))
  /\ live_count (snd (example.register 2 1 (example.db 10 10))) 1 = 1.
Proof.
  assert (Hc : gorm.conflicts (example.db 10 10) 2 1 = false) by (vm_compute; reflexivity).
  assert (H : accounting (example.db 10 10))
    by (apply (bool_decide_unpack _); vm_compute; exact I).
  split; [exact H|]. split.
  - exact (RegisterForEvent_keeps_accounting 2 1 _ Hc H).
  - vm_compute. reflexivity.
Defined.

Lemma Create_registration_rows (fail : bool) (d d' : DB) (r r' : Registration) :
  gorm.Create_registration_OnConflictDoNothing fail d r = Ok (d', r') ->
  unique_user_event d' = unique_user_event d
  /\ (registrations d' = registrations d
      \/ registrations d'
         = registrations d
           ++ [mkRegistration (registrations_id_seq d + 1) (UserID r) (EventID r)
                              (Registration_DeletedAt r)]).
Proof.
  unfold gorm.Create_registration_OnConflictDoNothing. destruct fail; [done|].
  destruct (gorm.conflicts _ _ _); intros [= <- <-]; split; auto.
Qed.

Lemma RegisterForEvent_Ok_rows (f : service.RegisterFaults) (userID eventID : N)
    (d : DB) (r : Registration) :
  fst (service.RegisterForEvent f userID eventID d) = Ok r ->
  let d' := snd (service.RegisterForEvent f userID eventID d) in
  users d' = users d
  /\ unique_user_event d' = unique_user_event d
  /\ (registrations d' = registrations d
      \/ registrations d' = registrations d ++ [new_registration d userID eventID]).
Proof.
  cbn zeta. unfold service.RegisterForEvent.
  destruct (repository.User_FindByID _ _ _) as [?|err]; [|by destruct (decide _)].
  destruct (gorm.First_registration _ _ _ _) as [?|err]; [done|].
  destruct (decide _); [done|].
  destruct (repository.FindByIDForUpdate _ _ _) as [event|err'];
    [|by destruct (decide _)].
  destruct (AvailableSeats event <=? 0); [done|].
  destruct (gorm.Create_registration_OnConflictDoNothing _ _ _) as [[d1 r1]|err1] eqn:Hc;
    [|done].
  pose proof (Create_registration_events _ _ _ _ _ Hc) as [_ Hu].
  apply Create_registration_rows in Hc as [Huniq Hrows].
  cbn [gorm.tx_db gorm.tx_begin gorm.Begin UserID EventID Registration_DeletedAt] in *.
  destruct (gorm.Update_available_seats _ _ _ _ _) as [[d2 rows]|err2] eqn:Hupd;
    [|done].
  destruct (rows =? 0); [done|].
  unfold gorm.Commit. destruct (service.fail_commit f); [done|]. cbn [snd]. intros _.
  apply Update_available_seats_inv in Hupd as [[_ ->]|(_ & e & _ & _ & ->)]; done.
Qed.

(** X4: [RegisterForEvent], whatever it returns and whichever datastore call
    fails, changes no user, changes and removes no registration row (it adds
    at most the one row of the call at the end of the table), and changes
    no event but the one of the call. *)
Theorem RegisterForEvent_frame (f : service.RegisterFaults) (userID eventID : N) (d : DB) :
  let d' := snd (service.RegisterForEvent f userID eventID d) in
  users d' = users d
  /\ unique_user_event d' = unique_user_event d
  /\ (registrations d' = registrations d
      \/ registrations d' = registrations d ++ [new_registration d userID eventID])
  /\ forall id, id <> eventID -> events d' !! id = events d !! id.
Proof.
  cbn zeta.
  assert (Hrows : users (snd (service.RegisterForEvent f userID eventID d)) = users d
            /\ unique_user_event (snd (service.RegisterForEvent f userID eventID d))
               = unique_user_event d
            /\ (registrations (snd (service.RegisterForEvent f userID eventID d))
                = registrations d
                \/ registrations (snd (service.RegisterForEvent f userID eventID d))
                   = registrations d ++ [new_registration d userID eventID])).
  { pose proof (RegisterForEvent_error_rows f userID eventID d) as Herr.
    destruct (fst (service.RegisterForEvent f userID eventID d)) as [r|err] eqn:Hout.
    - by apply (RegisterForEvent_Ok_rows f userID eventID d r).
    - destruct Herr as [(Hu & _ & Hr) Hq]. split_and!; [done | done | by left]. }
  destruct Hrows as (Hu & Hq & Hr). split_and!; [done | done | done |].
  intros id Hne.
  destruct (RegisterForEvent_events f userID eventID d) as [->|(e & _ & _ & ->)];
    [done|]. by rewrite lookup_insert_ne.
Qed.

Lemma RegisterForEvent_swallowed_witness :
  let d := snd (example.cancel 2 1 (snd (example.register 2 1 (example.db 10 10)))) in
  gorm.conflicts d 2 1 = true
  /\ fst (example.register 2 1 d) = Ok (mkRegistration 0 2 1 false)
  /\ registrations (snd (example.register 2 1 d)) = registrations d
  /\ live_event (snd (example.register 2 1 d)) 1 = Some (example.tech_talk 10 9).
Proof.
  cbn zeta.
  set (d := snd (example.cancel 2 1 (snd (example.register 2 1 (example.db 10 10))))).
  assert (Hu : live_user d 2 = Some (example.attendee 2)) by (vm_compute; reflexivity).
  assert (He : live_event d 1 = Some (example.tech_talk 10 10)) by (vm_compute; reflexivity).
  assert (Hs : 0 < AvailableSeats (example.tech_talk 10 10)) by (vm_compute; reflexivity).
  assert (Hf : List.find (live_pair 2 1) (registrations d) = None)
    by (vm_compute; reflexivity).
  assert (Hc : gorm.conflicts d 2 1 = true) by (vm_compute; reflexivity).
  destruct (RegisterForEvent_swallowed d 2 1 _ _ Hu He Hs Hf Hc) as (H1 & H2 & H3).
  split; [exact Hc|]. split; [exact H1|]. split; [exact H2|]. exact H3.
Defined.

(** The state [RegisterForEvent] commits for a pair that holds no live
    registration and whose insert is not swallowed. *)
Lemma RegisterForEvent_registered (d : DB) (userID eventID : N) (u : User) (e : Event) :
  live_user d userID = Some u ->
  live_event d eventID = Some e ->
  0 < AvailableSeats e ->
  List.find (live_pair userID eventID) (registrations d) = None ->
  gorm.conflicts d userID eventID = false ->
  service.RegisterForEvent service.no_register_faults userID eventID d
  = (Ok (new_registration d userID eventID),
     with_events (<[eventID := decremented e]> (events d))
       (with_registrations (registrations d ++ [new_registration d userID eventID])
          (with_registrations_id_seq (registrations_id_seq d + 1) d))).
Proof.
  intros Hu He Hseats Hfind Hconf.
  rewrite RegisterForEvent_spec, Hu, Hfind, He.
  destruct (AvailableSeats e <=? 0) eqn:Hle; [apply Z.leb_le in Hle; lia|].
  unfold registered_state. by rewrite Hconf.
Qed.

(** The answers [FindByUserID] and [FindByEventID] can give: the matching
    live rows with what is preloaded, in any order. *)
Lemma FindByUserID_spec (d : DB) (userID : N)
    (rs : list (Registration * option Event)) :
  repository.FindByUserID false d userID (Ok rs)
  <-> rs ≡ₚ List.map (fun r => (r, live_event d (EventID r)))
              (gorm.matching d (fun r => (UserID r =? userID)%N)).
Proof.
  unfold repository.FindByUserID, gorm.Find_registrations. split.
  - intros (found & (rows & Hperm & ->) & [= ->]). by apply Permutation_map.
  - intros Hperm. apply Permutation_map_inv in Hperm as (rows & -> & Hperm).
    exists (Ok rows). split; [|done]. exists rows. by split.
Qed.

Lemma FindByEventID_spec (d : DB) (eventID : N)
    (rs : list (Registration * option User)) :
  repository.FindByEventID false d eventID (Ok rs)
  <-> rs ≡ₚ List.map (fun r => (r, live_user d (UserID r)))
              (gorm.matching d (fun r => (EventID r =? eventID)%N)).
Proof.
  unfold repository.FindByEventID, gorm.Find_registrations. split.
  - intros (found & (rows & Hperm & ->) & [= ->]). by apply Permutation_map.
  - intros Hperm. apply Permutation_map_inv in Hperm as (rows & -> & Hperm).
    exists (Ok rows). split; [|done]. exists rows. by split.
Qed.

(** X6: After a registration, the lookups find it: [FindByUserAndEventID]
    returns the new row; the registrations of the user are, in some order,
    the ones they were and the new row with the event as it now is (one
    seat less); and the registrations of the event are, in some order, the
    ones they were and the new row with its user. *)
Theorem registration_is_found (d : DB) (userID eventID : N) (u : User) (e : Event) :
  live_user d userID = Some u ->
  live_event d eventID = Some e ->
  0 < AvailableSeats e ->
  List.find (live_pair userID eventID) (registrations d) = None ->
  gorm.conflicts d userID eventID = false ->
  let d' := snd (service.RegisterForEvent service.no_register_faults userID eventID d) in
  let new := new_registration d userID eventID in
  repository.FindByUserAndEventID false d' userID eventID = Ok new
  /\ (forall old rs, service.GetUserRegistrations false userID d (Ok old) ->
        service.GetUserRegistrations false userID d' (Ok rs)
        <-> rs ≡ₚ (new, Some (decremented e)) :: old)
  /\ (forall old rs, service.GetEventRegistrations false eventID d (Ok old) ->
        service.GetEventRegistrations false eventID d' (Ok rs)
        <-> rs ≡ₚ (new, Some u) :: old).
Proof.
  intros Hu He Hseats Hfind Hconf. cbn zeta.
  rewrite (RegisterForEvent_registered d userID eventID u e) by done. cbn [snd].
  assert (Hdel : Event_DeletedAt e = false) by (by apply live_event_Some in He as [_ ?]).
  split_and!.
  - unfold repository.FindByUserAndEventID, gorm.First_registration.
    cbn [registrations with_events with_registrations].
    rewrite (find_app_None _ _ (new_registration d userID eventID)); [done | done |].
    unfold live_pair, same_pair, new_registration. cbn. by rewrite !N.eqb_refl.
  - intros old rs Hold. unfold service.GetUserRegistrations in *.
    apply FindByUserID_spec in Hold. rewrite FindByUserID_spec, Hold.
    unfold gorm.matching. cbn [registrations with_events with_registrations].
    rewrite List.filter_app, List.map_app. cbn [List.filter new_registration UserID
      Registration_DeletedAt]. rewrite N.eqb_refl. cbn [andb negb List.map EventID].
    assert (Hnew : live_event
              (with_events (<[eventID := decremented e]> (events d))
                 (with_registrations
                    (registrations d ++ [new_registration d userID eventID])
                    (with_registrations_id_seq (registrations_id_seq d + 1) d))) eventID
            = Some (decremented e)).
    { apply live_event_Some. cbn [events with_events]. by rewrite lookup_insert_eq. }
    change (EventID (new_registration d userID eventID)) with eventID.
    rewrite Hnew.
    assert (Hsame : List.map
              (fun r => (r, live_event
                 (with_events (<[eventID := decremented e]> (events d))
                    (with_registrations
                       (registrations d ++ [new_registration d userID eventID])
                       (with_registrations_id_seq (registrations_id_seq d + 1) d)))
                 (EventID r)))
              (List.filter (fun r => (UserID r =? userID)%N
                                     && negb (Registration_DeletedAt r))
                           (registrations d))
            = List.map (fun r => (r, live_event d (EventID r)))
                (List.filter (fun r => (UserID r =? userID)%N
                                       && negb (Registration_DeletedAt r))
                             (registrations d))).
    { apply List.map_ext_in. intros r Hr. f_equal.
      apply List.filter_In in Hr as [Hin Hr].
      apply andb_true_iff in Hr as [Hru Hrl].
      unfold live_event. cbn [events with_events].
      rewrite lookup_insert_ne; [done|]. intros Heq.
      pose proof (find_none _ _ Hfind r Hin) as Hnot.
      unfold live_pair, same_pair in Hnot.
      rewrite Hru, Hrl, <- Heq, N.eqb_refl in Hnot. done. }
    rewrite Hsame. by rewrite <- Permutation_cons_append.
  - intros old rs Hold. unfold service.GetEventRegistrations in *.
    apply FindByEventID_spec in Hold. rewrite FindByEventID_spec, Hold.
    unfold gorm.matching. cbn [registrations with_events with_registrations].
    rewrite List.filter_app, List.map_app. cbn [List.filter new_registration EventID
      Registration_DeletedAt]. rewrite N.eqb_refl. cbn [andb negb List.map UserID].
    change (UserID (new_registration d userID eventID)) with userID.
    change (live_user
              (with_events (<[eventID := decremented e]> (events d))
                 (with_registrations
                    (registrations d ++ [new_registration d userID eventID])
                    (with_registrations_id_seq (registrations_id_seq d + 1) d))))
      with (live_user d).
    rewrite Hu. by rewrite <- Permutation_cons_append.
Qed.

Lemma registration_is_found_witness :
  let d' := snd (example.register 2 1 (example.db 10 10)) in
  repository.FindByUserAndEventID false d' 2 1 = Ok (mkRegistration 1 2 1 false)
  /\ service.GetUserRegistrations false 2 d'
       (Ok [(mkRegistration 1 2 1 false, Some (example.tech_talk 10 9))])
  /\ service.GetEventRegistrations false 1 d'
       (Ok [(mkRegistration 1 2 1 false, Some (example.attendee 2))]).
Proof.
  assert (Hu : live_user (example.db 10 10) 2 = Some (example.attendee 2))
    by (vm_compute; reflexivity).
  assert (He : live_event (example.db 10 10) 1 = Some (example.tech_talk 10 10))
    by (vm_compute; reflexivity).
  assert (Hs : 0 < AvailableSeats (example.tech_talk 10 10)) by (vm_compute; reflexivity).
  assert (Hf : List.find (live_pair 2 1) (registrations (example.db 10 10)) = None)
    by (vm_compute; reflexivity).
  assert (Hc : gorm.conflicts (example.db 10 10) 2 1 = false)
    by (vm_compute; reflexivity).
  destruct (registration_is_found _ _ _ _ _ Hu He Hs Hf Hc) as (H1 & H2 & H3).
  assert (Hold2 : service.GetUserRegistrations false 2 (example.db 10 10) (Ok []))
    by (exists (Ok []); split; [exists []; split; reflexivity | reflexivity]).
  assert (Hold3 : service.GetEventRegistrations false 1 (example.db 10 10) (Ok []))
    by (exists (Ok []); split; [exists []; split; reflexivity | reflexivity]).
  split; [exact H1|]. split.
  - apply (H2 [] _ Hold2). reflexivity.
  - apply (H3 [] _ Hold3). reflexivity.
Defined.

(** ** [CancelRegistration] *)

Lemma CancelRegistration_error_rows (f : service.CancelFaults) (userID eventID : N)
    (d : DB) :
  match fst (service.CancelRegistration f userID eventID d) with
  | Some _ => same_tables d (snd (service.CancelRegistration f userID eventID d))
  | None => True
  end.
Proof.
  unfold service.CancelRegistration, gorm.Delete_registrations, gorm.Commit.
  cbn [gorm.tx_db gorm.tx_begin gorm.Begin].
  destruct (service.fail_delete f); [apply Rollback_same_tables|].
  destruct (gorm.Update_available_seats _ _ _ _ _) as [[d2 rows]|err2];
    [|apply Rollback_same_tables].
  destruct (service.fail_cancel_commit f); [apply Rollback_same_tables | done].
Qed.

(** X7: A call of [CancelRegistration] that returns an error, whichever
    datastore call failed, leaves the rows of the users, events and
    registrations tables as they were: the soft delete and the seat
    increment are committed together or not at all. *)
Theorem CancelRegistration_error_leaves_rows (f : service.CancelFaults)
    (userID eventID : N) (d d' : DB) (err : error) :
  service.CancelRegistration f userID eventID d = (Some err, d') ->
  same_tables d d'.
Proof.
  intros H. pose proof (CancelRegistration_error_rows f userID eventID d) as Hrows.
  rewrite H in Hrows. exact Hrows.
Qed.

Lemma CancelRegistration_error_leaves_rows_witness :
  let d := snd (example.register 2 1 (example.db 10 10)) in
  fst (service.CancelRegistration (service.mkCancelFaults false false true) 2 1 d)
  = Some ErrDatastore
  /\ same_tables d
       (snd (service.CancelRegistration (service.mkCancelFaults false false true) 2 1 d)).
Proof.
  cbn zeta. set (d := snd (example.register 2 1 (example.db 10 10))).
  assert (H : service.CancelRegistration (service.mkCancelFaults false false true) 2 1 d
              = (Some ErrDatastore,
                 snd (service.CancelRegistration
                        (service.mkCancelFaults false false true) 2 1 d)))
    by (vm_compute; reflexivity).
  split; [by rewrite H|].
  exact (CancelRegistration_error_leaves_rows _ _ _ _ _ _ H).
Defined.

Lemma CancelRegistration_rows (userID eventID : N) (d : DB) :
  registrations (snd (service.CancelRegistration service.no_cancel_faults userID eventID d))
  = cancelled_rows d userID eventID.
Proof. rewrite CancelRegistration_spec. cbn [snd]. by destruct (live_event d eventID). Qed.

Lemma live_pair_soft_delete (userID eventID : N) (r : Registration) :
  live_pair userID eventID (gorm.soft_delete r) = false.
Proof. unfold live_pair. cbn. apply andb_false_r. Qed.

Lemma live_pair_other (userID eventID userID' eventID' : N) (r : Registration) :
  (userID', eventID') <> (userID, eventID) ->
  live_pair userID eventID r = true ->
  live_pair userID' eventID' r = false
  /\ live_pair userID' eventID' (gorm.soft_delete r) = false.
Proof.
  intros Hne Hr. split; [|apply live_pair_soft_delete].
  unfold live_pair, same_pair in *.
  apply andb_true_iff in Hr as [Hr _]. apply andb_true_iff in Hr as [Hu He].
  apply N.eqb_eq in Hu. apply N.eqb_eq in He. subst.
  destruct (N.eqb_spec (UserID r) userID'), (N.eqb_spec (EventID r) eventID');
    try done. by subst.
Qed.

Lemma cancelled_rows_find (userID eventID : N) (d : DB) :
  List.find (live_pair userID eventID) (cancelled_rows d userID eventID) = None.
Proof.
  unfold cancelled_rows. induction (registrations d) as [|r rs IH]; [done|].
  cbn [List.map List.find]. destruct (live_pair userID eventID r) eqn:Hr.
  - by rewrite live_pair_soft_delete.
  - by rewrite Hr.
Qed.

Lemma cancelled_rows_find_other (userID eventID userID' eventID' : N) (d : DB) :
  (userID', eventID') <> (userID, eventID) ->
  List.find (live_pair userID' eventID') (cancelled_rows d userID eventID)
  = List.find (live_pair userID' eventID') (registrations d).
Proof.
  intros Hne. unfold cancelled_rows.
  induction (registrations d) as [|r rs IH]; [done|].
  cbn [List.map List.find]. destruct (live_pair userID eventID r) eqn:Hr.
  - destruct (live_pair_other _ _ _ _ r Hne Hr) as [-> ->]. exact IH.
  - destruct (live_pair userID' eventID' r); [done | exact IH].
Qed.

Lemma map_unless_find {A : Type} (p : A -> bool) (f : A -> A) (l : list A) :
  List.find p l = None -> List.map (fun x => if p x then f x else x) l = l.
Proof.
  induction l as [|a l IH]; [done|]. cbn [List.find List.map].
  destruct (p a); [done|]. intros H. by rewrite IH.
Qed.

(** X8: After [CancelRegistration] the pair holds no live registration, the
    registration every other pair holds is the one it held, and a second
    cancellation of the pair changes no registration row. *)
Theorem CancelRegistration_removes_pair (userID eventID : N) (d : DB) :
  let d' := snd (service.CancelRegistration service.no_cancel_faults userID eventID d) in
  repository.FindByUserAndEventID false d' userID eventID = Err ErrRecordNotFound
  /\ (forall userID' eventID', (userID', eventID') <> (userID, eventID) ->
        repository.FindByUserAndEventID false d' userID' eventID'
        = repository.FindByUserAndEventID false d userID' eventID')
  /\ registrations (snd (service.CancelRegistration service.no_cancel_faults
                           userID eventID d'))
     = registrations d'.
Proof.
  cbn zeta. unfold repository.FindByUserAndEventID, gorm.First_registration.
  rewrite !CancelRegistration_rows. split_and!.
  - by rewrite cancelled_rows_find.
  - intros userID' eventID' Hne. by rewrite cancelled_rows_find_other.
  - unfold cancelled_rows at 1. rewrite CancelRegistration_rows.
    apply map_unless_find, cancelled_rows_find.
Qed.

Lemma incremented_decremented (e : Event) : incremented (decremented e) = e.
Proof. destruct e. unfold incremented, decremented. cbn. f_equal. lia. Qed.

(** X9: A registration followed by its cancellation gives the event its seat
    back and leaves every event row and every user as before; the row of
    the registration stays in the table, soft-deleted, so that the number
    of live registrations of every event is what it was. *)
Theorem register_then_cancel (d : DB) (userID eventID : N) (u : User) (e : Event) :
  live_user d userID = Some u ->
  live_event d eventID = Some e ->
  0 < AvailableSeats e ->
  List.find (live_pair userID eventID) (registrations d) = None ->
  gorm.conflicts d userID eventID = false ->
  let d1 := snd (service.RegisterForEvent service.no_register_faults userID eventID d) in
  let d2 := snd (service.CancelRegistration service.no_cancel_faults userID eventID d1) in
  fst (service.CancelRegistration service.no_cancel_faults userID eventID d1) = None
  /\ events d2 = events d
  /\ users d2 = users d
  /\ registrations d2
     = registrations d ++ [gorm.soft_delete (new_registration d userID eventID)]
  /\ forall id, live_count d2 id = live_count d id.
Proof.
  intros Hu He Hseats Hfind Hconf. cbn zeta.
  rewrite (RegisterForEvent_registered d userID eventID u e) by done. cbn [snd].
  assert (Hdel : Event_DeletedAt e = false) by (by apply live_event_Some in He as [_ ?]).
  set (d1 := with_events _ _).
  assert (Hlive : live_event d1 eventID = Some (decremented e)).
  { apply live_event_Some. unfold d1. cbn [events with_events].
    by rewrite lookup_insert_eq. }
  assert (Hrows : cancelled_rows d1 userID eventID
                  = registrations d ++ [gorm.soft_delete (new_registration d userID eventID)]).
  { unfold cancelled_rows, d1. cbn [registrations with_events with_registrations].
    rewrite List.map_app, (map_unless_find _ _ _ Hfind). cbn [List.map].
    replace (live_pair userID eventID (new_registration d userID eventID)) with true;
      [done|].
    unfold live_pair, same_pair, new_registration. cbn. by rewrite !N.eqb_refl. }
  rewrite CancelRegistration_spec. cbn [fst snd]. rewrite Hlive, Hrows.
  split_and!; [done | | done | done |].
  - cbn [events with_events with_registrations]. unfold d1. cbn [events with_events].
    rewrite insert_insert_eq, incremented_decremented. apply insert_id.
    by apply live_event_Some in He as [? _].
  - intros id. unfold live_count. cbn [registrations with_events with_registrations].
    rewrite List.filter_app, length_app. cbn [List.filter].
    unfold live_for_event at 2. cbn. rewrite andb_false_r. cbn. lia.
Qed.

Lemma register_then_cancel_witness :
  let d1 := snd (example.register 2 1 (example.db 10 10)) in
  let d2 := snd (example.cancel 2 1 d1) in
  available_seats d1 1 = Some 9
  /\ events d2 = events (example.db 10 10)
  /\ registrations d2 = [mkRegistration 1 2 1 true].
Proof.
  assert (Hu : live_user (example.db 10 10) 2 = Some (example.attendee 2))
    by (vm_compute; reflexivity).
  assert (He : live_event (example.db 10 10) 1 = Some (example.tech_talk 10 10))
    by (vm_compute; reflexivity).
  assert (Hs : 0 < AvailableSeats (example.tech_talk 10 10)) by (vm_compute; reflexivity).
  assert (Hf : List.find (live_pair 2 1) (registrations (example.db 10 10)) = None)
    by (vm_compute; reflexivity).
  assert (Hc : gorm.conflicts (example.db 10 10) 2 1 = false)
    by (vm_compute; reflexivity).
  destruct (register_then_cancel _ _ _ _ _ Hu He Hs Hf Hc) as (_ & H2 & _ & H4 & _).
  split; [vm_compute; reflexivity|]. split; [exact H2 | exact H4].
Defined.

(** X10: [CancelRegistration] for a pair that holds exactly one live
    registration keeps, for every live event, capacity - available_seats
    equal to the number of live registrations of the event. *)
Theorem CancelRegistration_keeps_accounting (userID eventID : N) (d : DB) :
  length (List.filter (live_pair userID eventID) (registrations d)) = 1%nat ->
  accounting d ->
  accounting (snd (service.CancelRegistration service.no_cancel_faults userID eventID d)).
Proof.
  intros Hone Hacc. rewrite accounting_live in *. intros id x.
  rewrite CancelRegistration_spec. cbn [snd].
  destruct (live_event d eventID) as [e|] eqn:He.
  - change (live_count (with_events ?ev ?d1) id) with (live_count d1 id).
    rewrite live_count_cancelled, Hone.
    unfold live_event at 1. cbn [events with_events with_registrations].
    destruct (decide (id = eventID)) as [->|Hne].
    + rewrite lookup_insert_eq. cbn [Event_DeletedAt incremented].
      specialize (Hacc eventID e He).
      apply live_event_Some in He as [_ ->]. intros [= <-].
      cbn [Capacity AvailableSeats incremented]. lia.
    + rewrite lookup_insert_ne by done. intros Hx.
      specialize (Hacc id x Hx). lia.
  - rewrite live_count_cancelled. intros Hx.
    change (live_event (with_registrations ?rs d) id) with (live_event d id) in Hx.
    destruct (decide (id = eventID)) as [->|Hne]; [congruence|].
    specialize (Hacc id x Hx). lia.
Qed.

Lemma CancelRegistration_keeps_accounting_witness :
  let d := snd (example.register 2 1 (example.db 10 10)) in
  accounting d
  /\ accounting (snd (example.cancel 2 1 d))
  /\ available_seats (snd (example.cancel 2 1 d)) 1 = Some 10.
Proof.
  cbn zeta. set (d := snd (example.register 2 1 (example.db 10 10))).
  assert (Hone : length (List.filter (live_pair 2 1) (registrations d)) = 1%nat)
    by (vm_compute; reflexivity).
  assert (H : accounting d) by (apply (bool_decide_unpack _); vm_compute; exact I).
  split; [exact H|]. split.
  - exact (CancelRegistration_keeps_accounting 2 1 d Hone H).
  - vm_compute. reflexivity.
Defined.

(** ** The HTTP handlers of registrations *)

Lemma not_bound (body : option handler.PairRequest) :
  ~ bound body
  <-> body = None \/ exists req, body = Some req /\ handler.binds req = false.
Proof.
  unfold bound. split.
  - intros H. destruct body as [req|]; [|by left]. right. exists req. split; [done|].
    destruct (handler.binds req) eqn:Hb; [|done]. destruct H. by exists req.
  - intros [->|(req & -> & Hb)] (req' & [=] & Hb'). congruence.
Qed.

(** X11: POST /registrations answers 201, 400, 404, 409 or 500: 400 exactly when
    the body does not bind (no body, or a zero id), 201 exactly when it
    returns a registration, and 500 only when a datastore call failed.  An
    answer other than 201 leaves every row of the datastore as it was. *)
Theorem RegisterForEvent_handler_answers (f : service.RegisterFaults)
    (body : option handler.PairRequest) (d : DB) :
  let status := fst (fst (handler.RegisterForEvent f body d)) in
  let registration := snd (fst (handler.RegisterForEvent f body d)) in
  let d' := snd (handler.RegisterForEvent f body d) in
  (status = handler.StatusCreated \/ status = handler.StatusBadRequest
   \/ status = handler.StatusNotFound \/ status = handler.StatusConflict
   \/ status = handler.StatusInternalServerError)
  /\ (status = handler.StatusBadRequest <-> ~ bound body)
  /\ (status = handler.StatusCreated <-> is_Some registration)
  /\ (status <> handler.StatusCreated -> same_tables d d')
  /\ fst (fst (handler.RegisterForEvent service.no_register_faults body d))
     <> handler.StatusInternalServerError.
Proof.
  cbn zeta. rewrite not_bound.
  assert (Hquiet : fst (fst (handler.RegisterForEvent service.no_register_faults body d))
                   <> handler.StatusInternalServerError).
  { unfold handler.RegisterForEvent. destruct body as [req|]; [|done].
    destruct (negb (handler.binds req)); [done|].
    rewrite RegisterForEvent_spec.
    destruct (live_user d _); [|done].
    destruct (List.find _ _); [done|].
    destruct (live_event d _) as [e|]; [|done].
    by destruct (AvailableSeats e <=? 0). }
  split_and!; [| | | | exact Hquiet]; clear Hquiet; unfold handler.RegisterForEvent.
  - destruct body as [req|]; [|by right; left].
    destruct (negb (handler.binds req)); [by right; left|].
    destruct (service.RegisterForEvent f _ _ d) as [[r|err] d1]; [by left|].
    destruct err; cbn; auto.
  - destruct body as [req|]; [|split; [by left | done]].
    destruct (handler.binds req) eqn:Hb; cbn [negb].
    + split; [|intros [[=]|(req' & [= <-] & Hb')]; congruence].
      destruct (service.RegisterForEvent f _ _ d) as [[r|err] d1]; [done|].
      by destruct err.
    + split; [|done]. intros _. right. by exists req.
  - destruct body as [req|]; [|cbn; split; [done | by intros [? [=]]]].
    destruct (negb (handler.binds req)); [cbn; split; [done | by intros [? [=]]]|].
    destruct (service.RegisterForEvent f _ _ d) as [[r|err] d1].
    + cbn. split; [by eexists | done].
    + destruct err; cbn; (split; [done | by intros [? [=]]]).
  - destruct body as [req|]; [|intros _; apply same_tables_refl].
    destruct (negb (handler.binds req)); [intros _; apply same_tables_refl|].
    pose proof (RegisterForEvent_error_rows f (handler.req_user_id req)
                  (handler.req_event_id req) d) as Hrows.
    destruct (service.RegisterForEvent f _ _ d) as [[r|err] d1]; cbn [fst snd] in *;
      [done|].
    destruct Hrows as [Hrows _]. by destruct err.
Qed.

(** X12: DELETE /registrations answers 400 exactly when the body does not bind;
    an answer other than 200 leaves every row of the datastore as it was;
    and a request that binds is answered 200 unless a datastore call
    fails, whether or not the registration or the event exists. *)
Theorem CancelRegistration_handler_answers (f : service.CancelFaults)
    (body : option handler.PairRequest) (d : DB) :
  let status := fst (handler.CancelRegistration f body d) in
  let d' := snd (handler.CancelRegistration f body d) in
  (status = handler.StatusBadRequest <-> ~ bound body)
  /\ (status <> handler.StatusOK -> same_tables d d')
  /\ (fst (handler.CancelRegistration service.no_cancel_faults body d) = handler.StatusOK
      <-> bound body).
Proof.
  cbn zeta. rewrite not_bound. unfold bound, handler.CancelRegistration.
  split_and!.
  - destruct body as [req|]; [|split; [by left | done]].
    destruct (handler.binds req) eqn:Hb; cbn [negb].
    + split; [|intros [[=]|(req' & [= <-] & Hb')]; congruence].
      by destruct (service.CancelRegistration f _ _ d) as [[err|] d1].
    + split; [|done]. intros _. right. by exists req.
  - destruct body as [req|]; [|intros _; apply same_tables_refl].
    destruct (negb (handler.binds req)); [intros _; apply same_tables_refl|].
    pose proof (CancelRegistration_error_rows f (handler.req_user_id req)
                  (handler.req_event_id req) d) as Hrows.
    by destruct (service.CancelRegistration f _ _ d) as [[err|] d1].
  - destruct body as [req|]; [|cbn; split; [done | by intros (? & [=] & _)]].
    destruct (handler.binds req) eqn:Hb; cbn [negb].
    + rewrite CancelRegistration_spec. split; [|done]. intros _. by exists req.
    + split; [done|]. intros (? & [= <-] & ?). congruence.
Qed.

(** ** The HTTP handlers of events *)



Lemma wrap64_int (z : Z) : is_int z -> wrap64 z = z.
Proof. unfold is_int, wrap64. intros H. rewrite Z.mod_small; lia. Qed.

(** X14: PUT /events/:id with a capacity below the capacity of the event, for
    an event whose free seats are between 0 and its capacity: the update is
    refused with 400, and changes nothing, when the new capacity is below
    the number of taken seats (capacity - available_seats).  Otherwise it
    is answered 200 or 500: with 200 it is stored, the number of taken
    seats is what it was, the free seats are between 0 and the new
    capacity, and the organizer_id is the key of a user; with 500 the rows
    are as they were.  For a body with no organizer object it is 200
    exactly when the organizer_id of the body is the key of a user. *)
Theorem UpdateEvent_reduction (id : N) (b : handler.EventBody) (d : DB) (existing : Event) :
  id <> 0%N ->
  live_event d id = Some existing ->
  0 <= AvailableSeats existing <= Capacity existing ->
  is_int (Capacity existing) ->
  handler.body_capacity b < Capacity existing ->
  let taken := Capacity existing - AvailableSeats existing in
  if handler.body_capacity b <? taken
  then handler.UpdateEvent false false (Some id) (Some b) d
       = (handler.StatusBadRequest, None, d)
  else match handler.UpdateEvent false false (Some id) (Some b) d with
       | (status, Some updated, d') =>
           status = handler.StatusOK
           /\ live_event d' id = Some updated
           /\ Capacity updated = handler.body_capacity b
           /\ Capacity updated - AvailableSeats updated = taken
           /\ 0 <= AvailableSeats updated <= Capacity updated
           /\ is_Some (users d' !! OrganizerID updated)
       | (status, None, d') =>
           status = handler.StatusInternalServerError /\ same_tables d d'
       end
       /\ (handler.body_organizer b = None ->
           fst (fst (handler.UpdateEvent false false (Some id) (Some b) d))
           = handler.StatusOK
           <-> is_Some (users d !! handler.body_organizer_id b)).
Proof.
  intros Hne Hlive Hbounds Hint Hlt. cbn zeta.
  assert (Htaken : int_sub (Capacity existing) (AvailableSeats existing)
                   = Capacity existing - AvailableSeats existing).
  { apply wrap64_int. unfold is_int in *. lia. }
  assert (Hltb : (handler.body_capacity b <? Capacity existing) = true)
    by (by apply Z.ltb_lt).
  destruct (handler.body_capacity b <? Capacity existing - AvailableSeats existing)
    eqn:Hcap.
  { rewrite UpdateEvent_cases, Hlive. unfold refused. by rewrite Hltb, Htaken, Hcap. }
  assert (Href : refused b existing = false)
    by (unfold refused; by rewrite Hltb, Htaken, Hcap).
  apply Z.ltb_ge in Hcap.
  assert (Hnew : int_sub (handler.body_capacity b)
                   (int_sub (Capacity existing) (AvailableSeats existing))
                 = handler.body_capacity b
                   - (Capacity existing - AvailableSeats existing)).
  { rewrite Htaken. apply wrap64_int. unfold is_int in *. lia. }
  split.
  - pose proof (UpdateEvent_saves false id b d existing Hne Hlive Href) as Hs.
    destruct (handler.UpdateEvent _ _ _ _ _) as [[status [updated|]] d']; [|done].
    destruct Hs as (Hst & _ & (Hid & _ & Hc & Ha & Hdel) & Hev & _ & _ & Hfk & _).
    unfold saved in Hc, Ha, Hdel. rewrite Hltb in Hc, Ha, Hdel.
    cbn [reduced Capacity AvailableSeats Event_DeletedAt] in Hc, Ha, Hdel.
    rewrite Hnew in Ha.
    split_and!; try done; try lia.
    apply live_event_Some. by rewrite Hev, lookup_insert_eq.
  - intros Hn. rewrite (UpdateEvent_foreign_key false id b d existing) by done.
    split; [by intros [_ ?] | done].
Qed.

Lemma UpdateEvent_reduction_witness :
  let d := snd (example.register 3 1 (snd (example.register 2 1 (example.db 10 10)))) in
  handler.UpdateEvent false false (Some 1%N)
    (Some (handler.mkEventBody 0 "Tech Talk" 1 0 1 None)) d
  = (handler.StatusBadRequest, None, d)
  /\ fst (handler.UpdateEvent false false (Some 1%N)
            (Some (handler.mkEventBody 0 "Tech Talk" 5 0 1 None)) d)
     = (handler.StatusOK, Some (mkEvent 1 "Tech Talk" 5 3 1 false))
  /\ fst (fst (handler.UpdateEvent false false (Some 1%N)
                 (Some (handler.mkEventBody 0 "Tech Talk" 5 0 0 None)) d))
     <> handler.StatusOK.
Proof.
  cbn zeta.
  set (d := snd (example.register 3 1 (snd (example.register 2 1 (example.db 10 10))))).
  assert (Hne : 1%N <> 0%N) by discriminate.
  assert (He : live_event d 1 = Some (example.tech_talk 10 8)) by (vm_compute; reflexivity).
  assert (Hb : 0 <= AvailableSeats (example.tech_talk 10 8)
               <= Capacity (example.tech_talk 10 8)) by (vm_compute; split; discriminate).
  assert (Hi : is_int (Capacity (example.tech_talk 10 8)))
    by (vm_compute; split; [discriminate | reflexivity]).
  split; [|split].
  - assert (Hlt : handler.body_capacity (handler.mkEventBody 0 "Tech Talk" 1 0 1 None)
                  < Capacity (example.tech_talk 10 8)) by (vm_compute; reflexivity).
    exact (UpdateEvent_reduction 1 _ d _ Hne He Hb Hi Hlt).
  - vm_compute. reflexivity.
  - assert (Hlt : handler.body_capacity (handler.mkEventBody 0 "Tech Talk" 5 0 0 None)
                  < Capacity (example.tech_talk 10 8)) by (vm_compute; reflexivity).
    pose proof (UpdateEvent_reduction 1 _ d _ Hne He Hb Hi Hlt) as [_ H].
    intros Hok. apply (H eq_refl) in Hok. vm_compute in Hok.
    destruct Hok as [u Hu]. discriminate Hu.
Defined.

(** X15: PUT /events/:id for a path id other than 0 changes no registration,
    no user (it adds at most the organizer of the body; none for a body
    with no organizer object) and no event but the one of the path; an
    answer other than 200 leaves the rows of the datastore as they were;
    200 is answered only for an event that was live, so that an update
    neither creates an event nor revives a deleted one, and the organizer_id
    it stores is the key of a user; and when the lookup does not fail, a
    request that binds is answered 404 exactly when no live event has the
    id. *)
Theorem UpdateEvent_frame (fail_get fail_save : bool) (id : option N)
    (body : option handler.EventBody) (d : DB) :
  id <> Some 0%N ->
  let status := fst (fst (handler.UpdateEvent fail_get fail_save id body d)) in
  let d' := snd (handler.UpdateEvent fail_get fail_save id body d) in
  registrations d' = registrations d
  /\ users d ⊆ users d'
  /\ (forall b, body = Some b -> handler.body_organizer b = None -> users d' = users d)
  /\ (forall id', id <> Some id' -> events d' !! id' = events d !! id')
  /\ (status <> handler.StatusOK -> same_tables d d')
  /\ (status = handler.StatusOK ->
      exists i updated, id = Some i /\ is_Some (live_event d i)
        /\ snd (fst (handler.UpdateEvent fail_get fail_save id body d)) = Some updated
        /\ Event_ID updated = i /\ Event_DeletedAt updated = false
        /\ events d' = <[i := updated]> (events d)
        /\ is_Some (users d' !! OrganizerID updated))
  /\ (forall i b, id = Some i -> body = Some b ->
        (fst (fst (handler.UpdateEvent false fail_save id body d)) = handler.StatusNotFound
         <-> live_event d i = None)).
Proof.
  intros Hzero. cbn zeta.
  destruct id as [i|]; [|by split_and!].
  destruct body as [b|]; [|by split_and!].
  assert (Hne : i <> 0%N) by congruence.
  assert (Hfirst :
    let answer := handler.UpdateEvent fail_get fail_save (Some i) (Some b) d in
    registrations (snd answer) = registrations d
    /\ users d ⊆ users (snd answer)
    /\ (handler.body_organizer b = None -> users (snd answer) = users d)
    /\ (forall id', i <> id' -> events (snd answer) !! id' = events d !! id')
    /\ (fst (fst answer) <> handler.StatusOK -> same_tables d (snd answer))
    /\ (fst (fst answer) = handler.StatusOK ->
        exists updated, is_Some (live_event d i)
          /\ snd (fst answer) = Some updated
          /\ Event_ID updated = i /\ Event_DeletedAt updated = false
          /\ events (snd answer) = <[i := updated]> (events d)
          /\ is_Some (users (snd answer) !! OrganizerID updated))).
  { cbn zeta. destruct fail_get.
    { rewrite UpdateEvent_cases. by split_and!. }
    destruct (live_event d i) as [e|] eqn:Hlive.
    2:{ rewrite UpdateEvent_cases, Hlive. by split_and!. }
    destruct (refused b e) eqn:Href.
    { rewrite UpdateEvent_cases, Hlive, Href. by split_and!. }
    pose proof (UpdateEvent_saves fail_save i b d e Hne Hlive Href) as Hs.
    destruct (handler.UpdateEvent _ _ _ _ _) as [[status [updated|]] d']; cbn [fst snd].
    - destruct Hs as (Hst & _ & (Hid & _ & _ & _ & Hdel) & Hev & Hregs & Husers & Hfk
                      & Hnone).
      destruct (saved_ID i b e) as (Hsid & Hsdel & _).
      split_and!; try done.
      + intros Hn. by destruct (Hnone Hn).
      + intros id' Hne'. rewrite Hev. by rewrite lookup_insert_ne.
      + intros _. exists updated. split_and!; try done; congruence.
    - destruct Hs as (Hst & Hrows). destruct Hrows as (Hus & Hev & Hregs).
      split_and!; try done.
      + by rewrite Hus.
      + intros id' _. by rewrite Hev.
      + by rewrite Hst. }
  cbn zeta in Hfirst.
  destruct Hfirst as (H1 & H2 & H3 & H4 & H5 & H6).
  split_and!; try done.
  - intros b' [= <-]. exact H3.
  - intros id' Hne'. apply H4. congruence.
  - intros Hst. destruct (H6 Hst) as (updated & ?). by exists i, updated.
  - intros i' b' [= <-] [= <-]. rewrite UpdateEvent_cases.
    destruct (live_event d i) as [e|] eqn:Hlive; [|done].
    split; [|done]. destruct (refused b e); [done|].
    by destruct (gorm.Save_event _ _ _ _) as [[?|?] ?].
Qed.

Lemma UpdateEvent_frame_witness :
  let d := snd (example.register 2 1 (example.db 10 10)) in
  let organizer := handler.mkUserBody 0 "Olga" "olga@example.com" RoleOrganizer in
  let body := handler.mkEventBody 0 "Tech Talk" 10 9 1 (Some organizer) in
  let answer := handler.UpdateEvent false false (Some 1%N) (Some body) d in
  fst (fst answer) = handler.StatusOK
  /\ snd (fst answer) = Some (mkEvent 1 "Tech Talk" 10 9 4 false)
  /\ users (snd answer) !! 4%N
     = Some (mkUser 4 "Olga" "olga@example.com" RoleOrganizer false)
  /\ users d ⊆ users (snd answer)
  /\ registrations (snd answer) = registrations d.
Proof.
  cbn zeta.
  set (d := snd (example.register 2 1 (example.db 10 10))).
  set (body := handler.mkEventBody 0 "Tech Talk" 10 9 1
                 (Some (handler.mkUserBody 0 "Olga" "olga@example.com" RoleOrganizer))).
  assert (Hne : Some 1%N <> Some 0%N) by discriminate.
  destruct (UpdateEvent_frame false false (Some 1%N) (Some body) d Hne)
    as (Hregs & Husers & _).
  split; [vm_compute; reflexivity|]. split; [vm_compute; reflexivity|].
  split; [vm_compute; reflexivity|]. split; [exact Husers | exact Hregs].
Defined.

(** X16: An update whose capacity is not below the capacity of the event is
    answered 200 or 500.  With 200 it stores the available_seats of the
    request body as the free seats of the event (0 for a body that leaves
    the field out), whatever the registrations of the event are, and leaves
    the registrations untouched; with 500 the rows are as they were.  For a
    body with no organizer object it is 200 exactly when the organizer_id of
    the body is the key of a user. *)
Theorem UpdateEvent_stores_body_seats (i : N) (b : handler.EventBody) (d : DB)
    (existing : Event) :
  i <> 0%N ->
  live_event d i = Some existing ->
  Capacity existing <= handler.body_capacity b ->
  match handler.UpdateEvent false false (Some i) (Some b) d with
  | (status, Some updated, d') =>
      status = handler.StatusOK
      /\ available_seats d' i = Some (handler.body_available_seats b)
      /\ registrations d' = registrations d
  | (status, None, d') =>
      status = handler.StatusInternalServerError /\ same_tables d d'
  end
  /\ (handler.body_organizer b = None ->
      fst (fst (handler.UpdateEvent false false (Some i) (Some b) d)) = handler.StatusOK
      <-> is_Some (users d !! handler.body_organizer_id b)).
Proof.
  intros Hne Hlive Hcap.
  assert (Hge : (handler.body_capacity b <? Capacity existing) = false)
    by (apply Z.ltb_ge; lia).
  assert (Href : refused b existing = false) by (unfold refused; by rewrite Hge).
  split.
  - pose proof (UpdateEvent_saves false i b d existing Hne Hlive Href) as Hs.
    destruct (handler.UpdateEvent _ _ _ _ _) as [[status [updated|]] d']; [|done].
    destruct Hs as (Hst & _ & (Hid & _ & _ & Ha & Hdel) & Hev & Hregs & _).
    unfold saved in Ha, Hdel. rewrite Hge in Ha, Hdel.
    cbn [AvailableSeats Event_DeletedAt] in Ha, Hdel.
    split_and!; [done | | done].
    unfold available_seats, live_event. rewrite Hev, lookup_insert_eq, Hdel.
    cbn. by rewrite Ha.
  - intros Hn. rewrite (UpdateEvent_foreign_key false i b d existing) by done.
    split; [by intros [_ ?] | done].
Qed.

Lemma UpdateEvent_stores_body_seats_witness :
  let d := snd (example.register 3 1 (snd (example.register 2 1 (example.db 10 10)))) in
  let d' := snd (handler.UpdateEvent false false (Some 1%N)
                   (Some (handler.mkEventBody 0 "Tech Talk" 10 0 1 None)) d) in
  live_count d 1 = 2 /\ available_seats d 1 = Some 8
  /\ fst (fst (handler.UpdateEvent false false (Some 1%N)
                 (Some (handler.mkEventBody 0 "Tech Talk" 10 0 1 None)) d))
     = handler.StatusOK
  /\ available_seats d' 1 = Some 0 /\ live_count d' 1 = 2.
Proof.
  cbn zeta.
  set (d := snd (example.register 3 1 (snd (example.register 2 1 (example.db 10 10))))).
  set (b := handler.mkEventBody 0 "Tech Talk" 10 0 1 None).
  assert (Hne : 1%N <> 0%N) by discriminate.
  assert (He : live_event d 1 = Some (example.tech_talk 10 8)) by (vm_compute; reflexivity).
  assert (Hc : Capacity (example.tech_talk 10 8) <= handler.body_capacity b)
    by (vm_compute; discriminate).
  destruct (UpdateEvent_stores_body_seats 1 b d _ Hne He Hc) as (_ & H2).
  assert (Hok : fst (fst (handler.UpdateEvent false false (Some 1%N) (Some b) d))
                = handler.StatusOK).
  { apply (H2 eq_refl). vm_compute. by eexists. }
  split; [vm_compute; reflexivity|]. split; [vm_compute; reflexivity|].
  split; [exact Hok|]. split; vm_compute; reflexivity.
Defined.

(** X17: DELETE /events/:id is answered 200 whether or not a live event has the
    id, and repeating it changes nothing more.  Afterwards GET /events/:id
    answers 404 and no call of [RegisterForEvent] for the event returns a
    registration; the other events, the users and the registrations are
    untouched, so that the registrations of the event stay live. *)
Theorem DeleteEvent_handler_answers (id : N) (d : DB) :
  let status := fst (handler.DeleteEvent false (Some id) d) in
  let d' := snd (handler.DeleteEvent false (Some id) d) in
  status = handler.StatusOK
  /\ handler.DeleteEvent false (Some id) d' = (handler.StatusOK, d')
  /\ handler.GetEvent false (Some id) d' = (handler.StatusNotFound, None)
  /\ (forall userID r,
        fst (service.RegisterForEvent service.no_register_faults userID id d') <> Ok r)
  /\ (forall id', id' <> id -> events d' !! id' = events d !! id')
  /\ users d' = users d
  /\ registrations d' = registrations d
  /\ live_count d' id = live_count d id.
Proof.
  cbn zeta.
  unfold handler.DeleteEvent, service.DeleteEvent, repository.Event_Delete,
    gorm.Delete_event.
  assert (Hgone : live_event
            (snd (match (if false then Err ErrDatastore
                         else match live_event d id with
                              | Some e =>
                                  Ok (with_events
                                        (<[id := mkEvent (Event_ID e) (Title e) (Capacity e)
                                                    (AvailableSeats e) (OrganizerID e) true]>
                                           (events d)) d)
                              | None => Ok d
                              end) with
                  | Ok d' => (handler.StatusOK, d')
                  | Err _ => (handler.StatusInternalServerError, d)
                  end)) id = None).
  { destruct (live_event d id) as [e|] eqn:Hlive; [|done].
    unfold live_event. cbn [snd events with_events]. by rewrite lookup_insert_eq. }
  destruct (live_event d id) as [e|] eqn:Hlive; cbn [fst snd] in *.
  - split_and!; try done.
    + by rewrite Hgone.
    + unfold handler.GetEvent, service.GetEventByID, repository.Event_FindByID,
        gorm.First_event. by rewrite Hgone.
    + intros userID r. rewrite RegisterForEvent_spec, Hgone.
      destruct (live_user _ _); [|done]. by destruct (List.find _ _).
    + intros id' Hne. cbn [events with_events]. by rewrite lookup_insert_ne.
  - split_and!; try done.
    + by rewrite Hlive.
    + unfold handler.GetEvent, service.GetEventByID, repository.Event_FindByID,
        gorm.First_event. by rewrite Hlive.
    + intros userID r. rewrite RegisterForEvent_spec, Hlive.
      destruct (live_user _ _); [|done]. by destruct (List.find _ _).
Qed.

(** ** Users *)

(** X18: After [DeleteUser] the user is not found, and [RegisterForEvent] for
    the user returns [ErrUserNotFound] and changes nothing.  The deletion
    touches no other user, no event and no registration: the registrations
    of the user stay live and keep their seats, and the registrations of an
    event list them with no user. *)
Theorem DeleteUser_keeps_registrations (id eventID : N) (d : DB) :
  match service.DeleteUser false id d with
  | Err _ => False
  | Ok d' =>
      service.GetUserByID false id d' = Err ErrRecordNotFound
      /\ service.RegisterForEvent service.no_register_faults id eventID d'
         = (Err ErrUserNotFound, d')
      /\ (forall id', id' <> id -> users d' !! id' = users d !! id')
      /\ events d' = events d
      /\ registrations d' = registrations d
      /\ (forall rs, service.GetEventRegistrations false eventID d' (Ok rs) ->
            forall r u, (r, u) ∈ rs -> UserID r = id -> u = None)
  end.
Proof.
  unfold service.DeleteUser, repository.User_Delete, gorm.Delete_user.
  assert (Hgone : forall d', (match live_user d id with
                    | Some u =>
                        Ok (with_users
                              (<[id := mkUser (User_ID u) (User_Name u) (User_Email u)
                                         (User_Role u) true]> (users d)) d)
                    | None => Ok d
                    end) = Ok d' -> live_user d' id = None).
  { intros d'. destruct (live_user d id) as [u|] eqn:Hlive; intros [= <-]; [|done].
    unfold live_user. cbn [users with_users]. by rewrite lookup_insert_eq. }
  destruct (live_user d id) as [u|] eqn:Hlive;
    (specialize (Hgone _ eq_refl); split_and!;
     [ unfold service.GetUserByID, repository.User_FindByID, gorm.First_user;
       by rewrite Hgone
     | by rewrite RegisterForEvent_spec, Hgone
     | | done | done
     | unfold service.GetEventRegistrations; intros rs Hrs r usr Hin Hr;
       apply FindByEventID_spec in Hrs; rewrite Hrs in Hin;
       apply list_elem_of_In, List.in_map_iff in Hin as (r' & [= <- <-] & _);
       by rewrite Hr, Hgone ]).
  - intros id' Hne. cbn [users with_users]. by rewrite lookup_insert_ne.
  - done.
Qed.

(** ** Further properties of concurrent registrations *)

Lemma lock_discipline_move (c : Config) (i : nat) (g : Goroutine) (d : DB)
    (l : option nat) (q : pc) :
  lock_discipline c ->
  goroutines c !! i = Some g ->
  (holds_row_lock q = true -> l = Some i) ->
  l = lock c \/ lock c = Some i \/ lock c = None ->
  lock_discipline (move c i g d l q).
Proof.
  intros Hc Hi Hq Hl j gj. rewrite lookup_move by done. cbn [lock move].
  destruct (decide (i = j)) as [<-|Hne].
  - intros [= <-]. exact Hq.
  - intros Hj Hholds. specialize (Hc j gj Hj Hholds).
    destruct Hl as [->|[Hl|Hl]]; [done | congruence | congruence].
Qed.

Lemma lock_discipline_step (i : nat) (c : Config) :
  lock_discipline c -> lock_discipline (step i c).
Proof.
  intros Hc. unfold step.
  destruct (goroutines c !! i) as [g|] eqn:Hi; [|done].
  pose proof (Hc i g Hi) as Hg.
  destruct (at_pc g) as [| | |tx event|tx|tx r|tx r|res] eqn:Hpc; cbn in Hg;
    try specialize (Hg eq_refl).
  - destruct (repository.User_FindByID _ _ _); [|destruct (decide _)];
      (apply lock_discipline_move; [done | done | by cbn | by left]).
  - destruct (gorm.First_registration _ _ _ _); [|destruct (decide _)];
      (apply lock_discipline_move; [done | done | by cbn | by left]).
  - destruct (lock c) eqn:Hl; [done|].
    destruct (repository.FindByIDForUpdate _ _ _); [|destruct (decide _)];
      (apply lock_discipline_move; [done | done | by cbn | by right; right]).
  - destruct (AvailableSeats event <=? 0);
      (apply lock_discipline_move; [done | done | by cbn | auto]).
  - destruct (gorm.Create_registration_OnConflictDoNothing _ _ _) as [[d1 r1]|];
      (apply lock_discipline_move; [done | done | by cbn | auto]).
  - destruct (gorm.Update_available_seats _ _ _ _ _) as [[d2 rows]|];
      [destruct (rows =? 0)|];
      (apply lock_discipline_move; [done | done | by cbn | auto]).
  - destruct (gorm.Commit false tx) as [[err|] d3];
      (apply lock_discipline_move; [done | done | by cbn | auto]).
  - done.
Qed.

Lemma filter_at_most_one {A : Type} (p : A -> bool) (l : list A) :
  (forall i j x y, l !! i = Some x -> l !! j = Some y ->
     p x = true -> p y = true -> i = j) ->
  (length (List.filter p l) <= 1)%nat.
Proof.
  induction l as [|a l IH]; intros H; [cbn; lia|].
  cbn [List.filter]. destruct (p a) eqn:Ha.
  - assert (Hnone : forall k x, l !! k = Some x -> p x = false).
    { intros k x Hk. destruct (p x) eqn:Hx; [|done].
      by specialize (H 0%nat (S k) a x eq_refl Hk Ha Hx). }
    replace (List.filter p l) with (@nil A); [cbn; lia|].
    clear -Hnone. induction l as [|b l IH]; [done|].
    cbn [List.filter]. rewrite (Hnone 0%nat b eq_refl).
    apply IH. intros k x Hk. by apply (Hnone (S k) x).
  - apply IH. intros i j x y Hi Hj Hx Hy.
    specialize (H (S i) (S j) x y Hi Hj Hx Hy). lia.
Qed.

(** X19: Whatever the datastore holds and however the statements of the
    goroutines interleave, at most one goroutine at a time is between its
    SELECT ... FOR UPDATE and the end of its transaction, and that
    goroutine is the holder of the lock. *)
Theorem mutual_exclusion (d : DB) (e : N) (us : list N) (schedule : list nat) :
  let c := run schedule (init d e us) in
  count (fun g => holds_row_lock (at_pc g)) c <= 1
  /\ forall j g, goroutines c !! j = Some g -> holds_row_lock (at_pc g) = true ->
       lock c = Some j.
Proof.
  cbn zeta.
  assert (Hc : lock_discipline (run schedule (init d e us))).
  { assert (Hinit : lock_discipline (init d e us)).
    { intros j g Hj. unfold init in Hj. cbn [goroutines] in Hj.
      change (List.map ?f us) with (f <$> us) in Hj.
      rewrite list_lookup_fmap in Hj. destruct (us !! j); [|done].
      by injection Hj as <-. }
    revert Hinit. generalize (init d e us).
    induction schedule as [|k schedule IH]; intros c Hc; [done|].
    cbn [run]. apply IH. by apply lock_discipline_step. }
  split; [|exact Hc].
  unfold count.
  pose proof (filter_at_most_one (fun g => holds_row_lock (at_pc g))
                (goroutines (run schedule (init d e us)))) as Hone.
  assert ((length (List.filter (fun g => holds_row_lock (at_pc g))
                     (goroutines (run schedule (init d e us)))) <= 1)%nat); [|lia].
  apply Hone. intros i j gi gj Hi Hj Hgi Hgj.
  pose proof (Hc i gi Hi Hgi) as H1. pose proof (Hc j gj Hj Hgj) as H2. congruence.
Qed.

(** X20: At every moment of every interleaving of calls by distinct live users
    against a fresh event, finished or not, the registrations returned so
    far and the committed free seats add up to the capacity: the
    registrations never exceed the capacity and the free seats never fall
    below 0. *)
Theorem never_overbooked (d : DB) (e : N) (ev : Event) (us : list N)
    (schedule : list nat) :
  live_event d e = Some ev ->
  AvailableSeats ev = Capacity ev ->
  0 <= Capacity ev ->
  Forall (fun r => EventID r <> e) (registrations d) ->
  NoDup us ->
  Forall (fun u => is_Some (live_user d u)) us ->
  let c := run schedule (init d e us) in
  exists seats,
    available_seats (committed c) e = Some seats
    /\ count registered c + seats = Capacity ev
    /\ 0 <= seats
    /\ count registered c <= Capacity ev.
Proof.
  intros Hev Hfresh Hcap Hrows Hnodup Hlive c.
  assert (HI : Inv (Capacity ev) e (users d) us c).
  { apply Inv_run; [done | |].
    - intros u Hu. rewrite Forall_forall in Hlive. destruct (Hlive u Hu) as [usr Husr].
      unfold live_user in Husr. destruct (users d !! u) as [usr'|]; [|done].
      exists usr'. split; [done|]. by destruct (User_DeletedAt usr').
    - apply Inv_init; [done | done | done |].
      intros r Hr. rewrite Forall_forall in Hrows. by apply Hrows. }
  pose proof (inv_count _ _ _ _ _ HI) as Hcount.
  destruct (Inv_free_seats _ _ _ _ c HI) as (ev' & Hev' & Hfree & Hcap' & Hrange).
  pose proof (inv_eventID _ _ _ _ _ HI) as Heid.
  exists (AvailableSeats ev'). unfold available_seats. rewrite <- Heid, Hev'.
  split; [done|]. lia.
Qed.

Lemma never_overbooked_witness :
  let c := run [0; 1; 2; 0; 1; 0; 1; 2; 0; 0]%nat
             (init (example.db 2 2) 1 [1; 2; 3]%N) in
  all_returned c = false
  /\ exists seats, available_seats (committed c) 1 = Some seats
       /\ count registered c + seats = 2 /\ 0 <= seats /\ count registered c <= 2.
Proof.
  cbn zeta.
  assert (Hev : live_event (example.db 2 2) 1 = Some (example.tech_talk 2 2))
    by (vm_compute; reflexivity).
  assert (Hfresh : AvailableSeats (example.tech_talk 2 2) = Capacity (example.tech_talk 2 2))
    by reflexivity.
  assert (Hcap : 0 <= Capacity (example.tech_talk 2 2)) by (vm_compute; discriminate).
  assert (Hrows : Forall (fun r => EventID r <> 1%N) (registrations (example.db 2 2)))
    by (apply (bool_decide_unpack _); vm_compute; exact I).
  assert (Hnodup : NoDup [1; 2; 3]%N)
    by (apply (bool_decide_unpack _); vm_compute; exact I).
  assert (Hlive : Forall (fun u => is_Some (live_user (example.db 2 2) u)) [1; 2; 3]%N)
    by (apply (bool_decide_unpack _); vm_compute; exact I).
  split; [vm_compute; reflexivity|].
  exact (never_overbooked _ _ _ _ [0; 1; 2; 0; 1; 0; 1; 2; 0; 0]%nat
           Hev Hfresh Hcap Hrows Hnodup Hlive).
Defined.

(** X22: When the calls are no more than the seats of the fresh event, every
    call returns a registration once all have returned, and the event keeps
    the seats that are left. *)
Theorem enough_seats_for_all (d : DB) (e : N) (ev : Event) (us : list N)
    (schedule : list nat) :
  live_event d e = Some ev ->
  AvailableSeats ev = Capacity ev ->
  Forall (fun r => EventID r <> e) (registrations d) ->
  NoDup us ->
  Forall (fun u => is_Some (live_user d u)) us ->
  Z.of_nat (length us) <= Capacity ev ->
  let c := run schedule (init d e us) in
  all_returned c = true ->
  Forall (fun g => registered g = true) (goroutines c)
  /\ count registered c = Z.of_nat (length us)
  /\ available_seats (committed c) e = Some (Capacity ev - Z.of_nat (length us)).
Proof.
  intros Hev Hfresh Hrows Hnodup Hlive Hfew c Hall.
  assert (HI : Inv (Capacity ev) e (users d) us c).
  { apply Inv_run; [done | |].
    - intros u Hu. rewrite Forall_forall in Hlive. destruct (Hlive u Hu) as [usr Husr].
      unfold live_user in Husr. destruct (users d !! u) as [usr'|]; [|done].
      exists usr'. split; [done|]. by destruct (User_DeletedAt usr').
    - apply Inv_init; [done | done | lia |].
      intros r Hr. rewrite Forall_forall in Hrows. by apply Hrows. }
  pose proof (Inv_outcomes _ _ _ _ _ HI Hall) as Hout.
  assert (Hpart : Forall (fun g => registered g = true \/ event_full g = true)
                         (goroutines c)).
  { eapply Forall_impl; [exact Hout|]. intros g [?|[? _]]; auto. }
  pose proof (outcomes_partition _ Hpart) as Hsum.
  assert (Hlen : length (goroutines c) = length us).
  { rewrite <- (inv_userIDs _ _ _ _ _ HI). by rewrite List.length_map. }
  pose proof (inv_count _ _ _ _ _ HI) as Hcount.
  destruct (Inv_free_seats _ _ _ _ c HI) as (ev' & Hev' & Hfree & Hcap' & Hrange).
  pose proof (inv_eventID _ _ _ _ _ HI) as Heid.
  assert (Hnone : length (List.filter event_full (goroutines c)) = 0%nat).
  { destruct (length (List.filter event_full (goroutines c))) as [|n] eqn:Hn; [done|].
    exfalso.
    assert (Hzero : free_seats c = 0).
    { destruct (List.filter event_full (goroutines c)) as [|g l] eqn:Hf; [done|].
      assert (Hin : In g (List.filter event_full (goroutines c)))
        by (rewrite Hf; by left).
      apply List.filter_In in Hin as [Hin Hg].
      rewrite Forall_forall in Hout.
      destruct (Hout g (proj2 (list_elem_of_In _ _) Hin)) as [Hreg|[_ ?]]; [|done].
      unfold registered, event_full in *.
      by destruct (at_pc g) as [| | | | | | |[?|[]]]. }
    unfold count in Hcount. lia. }
  assert (Hreg : count registered c = Z.of_nat (length us)).
  { unfold count. lia. }
  split_and!; [| done |].
  - rewrite Forall_forall in Hout. apply Forall_forall. intros g Hg.
    destruct (Hout g Hg) as [?|[Hfull _]]; [done|].
    assert (Hin : In g (List.filter event_full (goroutines c))).
    { apply List.filter_In. split; [by apply list_elem_of_In | done]. }
    destruct (List.filter event_full (goroutines c)); [done | discriminate Hnone].
  - unfold available_seats. rewrite <- Heid, Hev'. cbn. f_equal. lia.
Qed.

Lemma enough_seats_for_all_witness :
  let c := run (concat (repeat [0; 1]%nat 12)) (init (example.db 3 3) 1 [1; 2]%N) in
  all_returned c = true
  /\ count registered c = 2
  /\ available_seats (committed c) 1 = Some 1.
Proof.
  cbn zeta.
  assert (Hev : live_event (example.db 3 3) 1 = Some (example.tech_talk 3 3))
    by (vm_compute; reflexivity).
  assert (Hfresh : AvailableSeats (example.tech_talk 3 3) = Capacity (example.tech_talk 3 3))
    by reflexivity.
  assert (Hrows : Forall (fun r => EventID r <> 1%N) (registrations (example.db 3 3)))
    by (apply (bool_decide_unpack _); vm_compute; exact I).
  assert (Hnodup : NoDup [1; 2]%N)
    by (apply (bool_decide_unpack _); vm_compute; exact I).
  assert (Hlive : Forall (fun u => is_Some (live_user (example.db 3 3) u)) [1; 2]%N)
    by (apply (bool_decide_unpack _); vm_compute; exact I).
  assert (Hfew : Z.of_nat (length [1; 2]%N) <= Capacity (example.tech_talk 3 3))
    by (vm_compute; discriminate).
  assert (Hall : all_returned
                   (run (concat (repeat [0; 1]%nat 12))
                        (init (example.db 3 3) 1 [1; 2]%N)) = true)
    by (vm_compute; reflexivity).
  destruct (enough_seats_for_all _ _ _ _ (concat (repeat [0; 1]%nat 12))
              Hev Hfresh Hrows Hnodup Hlive Hfew Hall) as (_ & H2 & H3).
  split; [exact Hall|]. split; [exact H2 | exact H3].
Defined.

(** *** The rows of the datastore under concurrent registrations *)

Section rows.

Context (C : Z) (e : N) (U : gmap N User) (us : list N).
Hypothesis us_NoDup : NoDup us.

(** The insert of a goroutine that has not returned meets no row. *)
Lemma Inv_no_conflict (c : Config) (i : nat) (g : Goroutine) :
  Inv C e U us c -> goroutines c !! i = Some g -> registered g = false ->
  gorm.conflicts (committed c) (userID g) (eventID c) = false.
Proof.
  intros HI Hi Hreg. unfold gorm.conflicts.
  destruct (unique_user_event (committed c)); [|done]. cbn [andb].
  destruct (existsb _ _) eqn:Hex; [|done]. exfalso.
  apply existsb_exists in Hex as (r & Hin & Hpair).
  apply list_elem_of_In in Hin. unfold same_pair in Hpair.
  apply andb_true_iff in Hpair as [Hu He].
  apply N.eqb_eq in Hu. apply N.eqb_eq in He.
  destruct HI as [Heid _ Hus _ _ Hrows _ _].
  destruct (Hrows r Hin) as (j & gj & Hj & Huj & Hregj); [congruence|].
  assert (i = j) as <-.
  { apply (NoDup_lookup us i j (userID g)); [done | |].
    - rewrite <- Hus. change (List.map userID) with (fmap (M:=list) userID).
      by rewrite list_lookup_fmap, Hi.
    - rewrite <- Hus. change (List.map userID) with (fmap (M:=list) userID).
      rewrite list_lookup_fmap, Hj. cbn. congruence. }
  congruence.
Qed.

Lemma rows_counted_move (c : Config) (i : nat) (g : Goroutine) (d : DB)
    (l : option nat) (q : pc) :
  Inv C e U us c ->
  rows_counted c ->
  goroutines c !! i = Some g ->
  registered g = false ->
  live_count d (eventID c)
  = live_count (committed c) (eventID c)
    + (if registered (mkGoroutine (userID g) q) then 1 else 0) ->
  match q with
  | AtDecrement tx _ | AtCommit tx _ =>
      live_count (gorm.tx_db tx) (eventID c) = live_count d (eventID c) + 1
  | _ => True
  end ->
  registrations d = registrations (committed c) \/ lock c = Some i ->
  rows_counted (move c i g d l q).
Proof.
  intros HI [Hcount Hviews] Hi Hreg Hd Hq Hothers. split.
  - pose proof (count_move registered c i g d l q Hi) as Hc.
    rewrite Hreg in Hc. cbn [committed eventID move]. lia.
  - intros j gj. rewrite lookup_move by done. cbn [committed eventID move].
    destruct (decide (i = j)) as [<-|Hne].
    + intros [= <-]. exact Hq.
    + intros Hj. specialize (Hviews j gj Hj).
      pose proof (inv_goroutines _ _ _ _ _ HI j gj Hj) as Hok.
      unfold goroutine_ok in Hok.
      destruct (at_pc gj) as [| | | | |tx r|tx r|]; try done;
        (destruct Hothers as [Hsame|Hl]; [|destruct Hok as [Hl' _]; congruence]);
        unfold live_count in *; by rewrite Hsame.
Qed.

Lemma rows_counted_step (i : nat) (c : Config) :
  Inv C e U us c -> rows_counted c -> rows_counted (step i c).
Proof.
  intros HI HR. unfold step.
  destruct (goroutines c !! i) as [g|] eqn:Hi; [|done].
  pose proof (inv_goroutines _ _ _ _ _ HI i g Hi) as Hg.
  pose proof (proj2 HR i g Hi) as Hview.
  unfold goroutine_ok in Hg.
  destruct (at_pc g) as [| | |tx event|tx|tx r|tx r|res] eqn:Hpc.
  - assert (Hreg : registered g = false) by (unfold registered; by rewrite Hpc).
    destruct (repository.User_FindByID _ _ _); [|destruct (decide _)];
      (apply rows_counted_move; [done | done | done | done | cbn; lia | done | by left]).
  - assert (Hreg : registered g = false) by (unfold registered; by rewrite Hpc).
    destruct (gorm.First_registration _ _ _ _); [|destruct (decide _)];
      (apply rows_counted_move; [done | done | done | done | cbn; lia | done | by left]).
  - assert (Hreg : registered g = false) by (unfold registered; by rewrite Hpc).
    destruct (lock c); [done|]. rewrite Rollback_Begin.
    destruct (repository.FindByIDForUpdate _ _ _); [|destruct (decide _)];
      (apply rows_counted_move; [done | done | done | done | cbn; lia | done | by left]).
  - assert (Hreg : registered g = false) by (unfold registered; by rewrite Hpc).
    destruct Hg as (Hl & -> & _). rewrite Rollback_Begin.
    destruct (AvailableSeats event <=? 0);
      (apply rows_counted_move; [done | done | done | done | cbn; lia | done | by left]).
  - assert (Hreg : registered g = false) by (unfold registered; by rewrite Hpc).
    destruct Hg as (Hl & -> & _).
    unfold gorm.Create_registration_OnConflictDoNothing.
    cbn [gorm.tx_db gorm.tx_begin gorm.Begin UserID EventID Registration_DeletedAt].
    rewrite (Inv_no_conflict c i g HI Hi Hreg).
    apply rows_counted_move; [done | done | done | done | cbn; lia | | by left].
    cbn [gorm.tx_db]. unfold live_count.
    cbn [registrations with_registrations with_registrations_id_seq].
    rewrite List.filter_app, length_app. cbn [List.filter].
    unfold live_for_event at 2. cbn [EventID Registration_DeletedAt].
    rewrite N.eqb_refl. cbn [andb negb length]. lia.
  - assert (Hreg : registered g = false) by (unfold registered; by rewrite Hpc).
    destruct Hg as (Hl & Hbegin & _).
    destruct (gorm.Update_available_seats _ _ _ _ _) as [[d2 rows]|err] eqn:Hupd.
    + assert (Hrows : registrations d2 = registrations (gorm.tx_db tx)).
      { apply Update_available_seats_inv in Hupd as [[_ ->]|(_ & ? & _ & _ & ->)]; done. }
      destruct (rows =? 0).
      * apply rows_counted_move; [done | done | done | done | | done | by right].
        unfold live_count. cbn. rewrite Hbegin. lia.
      * apply rows_counted_move; [done | done | done | done | cbn; lia | | by left].
        cbn [gorm.tx_db]. unfold live_count in *. by rewrite Hrows.
    + apply rows_counted_move; [done | done | done | done | | done | by right].
      unfold live_count. cbn. rewrite Hbegin. lia.
  - assert (Hreg : registered g = false) by (unfold registered; by rewrite Hpc).
    destruct Hg as (Hl & _). unfold gorm.Commit.
    apply rows_counted_move; [done | done | done | done | | done | by right].
    cbn. lia.
  - done.
Qed.

End rows.

(** X21: At every moment of every interleaving of calls by distinct live users
    against a fresh event, the live registrations that the datastore has
    committed for the event are exactly the calls that have returned a
    registration; with the committed free seats they add up to the
    capacity, so that the datastore never holds more registrations of the
    event than it has seats. *)
Theorem registrations_within_capacity (d : DB) (e : N) (ev : Event) (us : list N)
    (schedule : list nat) :
  live_event d e = Some ev ->
  AvailableSeats ev = Capacity ev ->
  0 <= Capacity ev ->
  Forall (fun r => EventID r <> e) (registrations d) ->
  NoDup us ->
  Forall (fun u => is_Some (live_user d u)) us ->
  let c := run schedule (init d e us) in
  live_count (committed c) e = count registered c
  /\ available_seats (committed c) e = Some (Capacity ev - live_count (committed c) e)
  /\ live_count (committed c) e <= Capacity ev.
Proof.
  intros Hev Hfresh Hcap Hrows Hnodup Hlive c.
  assert (Hlive' : forall u, u ∈ us ->
            exists usr, users d !! u = Some usr /\ User_DeletedAt usr = false).
  { intros u Hu. rewrite Forall_forall in Hlive. destruct (Hlive u Hu) as [usr Husr].
    unfold live_user in Husr. destruct (users d !! u) as [usr'|]; [|done].
    exists usr'. split; [done|]. by destruct (User_DeletedAt usr'). }
  assert (Hinit : Inv (Capacity ev) e (users d) us (init d e us)).
  { apply Inv_init; [done | done | done |].
    intros r Hr. rewrite Forall_forall in Hrows. by apply Hrows. }
  assert (Hrinit : rows_counted (init d e us)).
  { split.
    - unfold live_count, count, init. cbn [committed eventID goroutines].
      replace (List.filter (live_for_event e) (registrations d)) with (@nil Registration).
      + replace (List.filter registered _) with (@nil Goroutine); [done|].
        clear. induction us as [|u l IH]; [done|]. cbn. exact IH.
      + clear -Hrows. induction Hrows as [|r rs Hr _ IH]; [done|].
        cbn [List.filter]. unfold live_for_event at 1.
        destruct (N.eqb_spec (EventID r) e); [done|]. exact IH.
    - intros j g Hj. unfold init in Hj. cbn [goroutines] in Hj.
      change (List.map ?f us) with (f <$> us) in Hj.
      rewrite list_lookup_fmap in Hj. destruct (us !! j); [|done].
      by injection Hj as <-. }
  assert (Hboth : Inv (Capacity ev) e (users d) us c /\ rows_counted c).
  { subst c. revert Hinit Hrinit. generalize (init d e us).
    induction schedule as [|k schedule IH]; intros c0 HI HR; [done|].
    cbn [run]. apply IH.
    - by apply Inv_step.
    - by eapply rows_counted_step. }
  destruct Hboth as [HI [Hcount _]].
  pose proof (inv_count _ _ _ _ _ HI) as Hreg.
  destruct (Inv_free_seats _ _ _ _ c HI) as (ev' & Hev' & Hfree & Hcap' & Hrange).
  pose proof (inv_eventID _ _ _ _ _ HI) as Heid.
  rewrite Heid in *. unfold available_seats. rewrite Hev'. cbn.
  split_and!; [done | f_equal; lia | lia].
Qed.

Lemma registrations_within_capacity_witness :
  let c := run [0; 1; 2; 0; 1; 0; 1; 2; 0; 0; 0; 0]%nat
             (init (example.db 2 2) 1 [1; 2; 3]%N) in
  live_count (committed c) 1 = 1
  /\ count registered c = 1
  /\ available_seats (committed c) 1 = Some (2 - live_count (committed c) 1).
Proof.
  cbn zeta.
  assert (Hev : live_event (example.db 2 2) 1 = Some (example.tech_talk 2 2))
    by (vm_compute; reflexivity).
  assert (Hfresh : AvailableSeats (example.tech_talk 2 2) = Capacity (example.tech_talk 2 2))
    by reflexivity.
  assert (Hcap : 0 <= Capacity (example.tech_talk 2 2)) by (vm_compute; discriminate).
  assert (Hrows : Forall (fun r => EventID r <> 1%N) (registrations (example.db 2 2)))
    by (apply (bool_decide_unpack _); vm_compute; exact I).
  assert (Hnodup : NoDup [1; 2; 3]%N)
    by (apply (bool_decide_unpack _); vm_compute; exact I).
  assert (Hlive : Forall (fun u => is_Some (live_user (example.db 2 2) u)) [1; 2; 3]%N)
    by (apply (bool_decide_unpack _); vm_compute; exact I).
  destruct (registrations_within_capacity _ _ _ _ [0; 1; 2; 0; 1; 0; 1; 2; 0; 0; 0; 0]%nat
              Hev Hfresh Hcap Hrows Hnodup Hlive) as (H1 & H2 & _).
  split; [vm_compute; reflexivity|]. split; [|exact H2].
  rewrite <- H1. vm_compute. reflexivity.
Defined.

(** ** The repository methods and the statements of [RegisterForEvent] *)

(** X24: The transaction of [RegisterForEvent] is the composition of the
    repository methods: for a call that passes the checks,
    [FindByIDForUpdate], [CreateWithTx] and [DecreaseAvailableSeats], run
    in that order in one transaction and committed, return the
    registration and leave the state that [RegisterForEvent] does. *)
Theorem repository_methods_compose (d : DB) (userID eventID : N) (u : User) (e : Event) :
  live_user d userID = Some u ->
  live_event d eventID = Some e ->
  0 < AvailableSeats e ->
  List.find (live_pair userID eventID) (registrations d) = None ->
  exists tx1 tx2 registration,
    repository.FindByIDForUpdate false (gorm.Begin d) eventID = Ok e
    /\ repository.CreateWithTx false (gorm.Begin d) (mkRegistration 0 userID eventID false)
       = Ok (tx1, registration)
    /\ repository.DecreaseAvailableSeats false tx1 eventID = (None, tx2)
    /\ service.RegisterForEvent service.no_register_faults userID eventID d
       = (Ok registration, snd (gorm.Commit false tx2)).
Proof.
  intros Hu He Hseats Hfind.
  rewrite RegisterForEvent_spec, Hu, Hfind, He.
  destruct (AvailableSeats e <=? 0) eqn:Hle; [apply Z.leb_le in Hle; lia|].
  assert (Hpos : (0 <? AvailableSeats e) = true) by (apply Z.ltb_lt; lia).
  unfold repository.FindByIDForUpdate, gorm.First_event, repository.CreateWithTx,
    gorm.Create_registration_OnConflictDoNothing, repository.DecreaseAvailableSeats,
    registered_state, new_registration.
  cbn [gorm.tx_db gorm.tx_begin gorm.Begin UserID EventID Registration_DeletedAt].
  rewrite He.
  destruct (gorm.conflicts d userID eventID); eexists _, _, _;
    (split; [reflexivity|]); (split; [reflexivity|]);
    cbn [gorm.tx_db gorm.tx_begin]; rewrite Update_decrement_spec;
    unfold live_event in *;
    cbn [events with_events with_registrations with_registrations_id_seq];
    rewrite He, Hpos; cbn [Z.eqb]; split; reflexivity.
Qed.

Lemma repository_methods_compose_witness :
  exists tx1 tx2 registration,
    repository.FindByIDForUpdate false (gorm.Begin (example.db 10 10)) 1
    = Ok (example.tech_talk 10 10)
    /\ repository.CreateWithTx false (gorm.Begin (example.db 10 10))
         (mkRegistration 0 2 1 false) = Ok (tx1, registration)
    /\ repository.DecreaseAvailableSeats false tx1 1 = (None, tx2)
    /\ example.register 2 1 (example.db 10 10)
       = (Ok registration, snd (gorm.Commit false tx2)).
Proof.
  assert (Hu : live_user (example.db 10 10) 2 = Some (example.attendee 2))
    by (vm_compute; reflexivity).
  assert (He : live_event (example.db 10 10) 1 = Some (example.tech_talk 10 10))
    by (vm_compute; reflexivity).
  assert (Hs : 0 < AvailableSeats (example.tech_talk 10 10)) by (vm_compute; reflexivity).
  assert (Hf : List.find (live_pair 2 1) (registrations (example.db 10 10)) = None)
    by (vm_compute; reflexivity).
  exact (repository_methods_compose _ _ _ _ _ Hu He Hs Hf).
Defined.
